(** * The webservices listener: dlls/webservices/listener.c

    A shallow embedding of the listener object (its life cycle
    [Created -> Open -> Closed], its property accessors, address
    resolution and the socket/bind/listen sequence) and theorems about it.

    Conventions of the embedding.
    - Integers of the C code are [Z]; a pointer is an address in [N] with
      [NULL = 0]; a counted or NUL-terminated wide string is the list of
      its code units; raw memory is a list of bytes.
    - The platform (heap, URL decoder, Winsock) is a parameter: an abstract
      state [OS] and one transition function per call, so that every
      theorem holds for every behaviour of the platform.
    - The code runs in a state monad over a [world]: the platform state,
      the contents of the listener blocks that are allocated, the log of
      platform calls and the two static variables of the file.  A block
      that is released is gone: a computation that dereferences an address
      at which no listener block is allocated has no result ([None]), which
      is how the embedding renders the undefined behaviour of C there.
    - The code runs on one thread.  The critical section of a listener is
      a field of its block, holding the number of times the thread has
      entered it; entering and leaving are accesses to the block. *)

From Stdlib Require Import ZArith Lia Strings.Ascii Strings.Byte.
From stdpp Require Import base numbers option list strings pretty gmap.
Import ListNotations.
Local Open Scope Z_scope.

(** ** Basic types *)

Abbreviation HRESULT := Z (only parsing).
Abbreviation ULONG := Z (only parsing).
Abbreviation USHORT := Z (only parsing).
Abbreviation SOCKET := Z (only parsing).
Abbreviation WCHAR := Z (only parsing).
Abbreviation pointer := N (only parsing).
Abbreviation WS_STRING := (list Z) (only parsing).

Definition NULL : pointer := 0%N.

Definition chr (c : ascii) : Z := Z.of_N (N_of_ascii c).

(** 32-bit two's complement reading of an integer: the value of an
    [int]-sized C expression. *)
Definition int32 (x : Z) : Z :=
  let u := x mod 2 ^ 32 in
  if u <? 2 ^ 31 then u else u - 2 ^ 32.

(** Modelled from the spec: the error kinds of section 7 (InvalidArgument,
    InvalidOperation, NotImplemented, OutOfMemory, AddressNotAvailable) and
    the success code.  Their declarations (winerror.h, webservices.h) are
    not among the sources; the values are the platform's. *)
Definition S_OK : HRESULT := 0.
Definition E_NOTIMPL : HRESULT := int32 0x80004001.
Definition E_OUTOFMEMORY : HRESULT := int32 0x8007000E.
Definition E_INVALIDARG : HRESULT := int32 0x80070057.
Definition WS_E_INVALID_OPERATION : HRESULT := int32 0x803D0003.
Definition WS_E_ADDRESS_NOT_AVAILABLE : HRESULT := int32 0x803D000C.

(** Modelled from the spec: "transport-subsystem errors translated from the
    platform's last-error code" (section 7).  The macro is declared in
    winerror.h, not among the sources: a positive code is tagged with the
    failure bit and the Win32 facility, anything else passes unchanged. *)
Definition HRESULT_FROM_WIN32 (x : Z) : HRESULT :=
  if int32 x >? 0
  then int32 (Z.lor (Z.lor (Z.land x 0xFFFF) (Z.shiftl 7 16)) 0x80000000)
  else int32 x.

(** Modelled from the spec: the channel kinds of section 6 ("session-oriented
    duplex channel over a connection-oriented (stream) transport binding").
    The enumerations are declared in webservices.h, not among the sources. *)
Definition WS_CHANNEL_TYPE_DUPLEX_SESSION : Z := 7.
Definition WS_TCP_CHANNEL_BINDING : Z := 1.

(** Modelled from the spec: the life-cycle states of section 3.  The
    enumeration is declared in webservices.h, not among the sources; its
    first member is the value of zeroed storage.  The listener assigns
    [Created], [Open] and [Closed] only; the other members are kept so that
    every value of the type is representable. *)
Inductive WS_LISTENER_STATE :=
| WS_LISTENER_STATE_CREATED
| WS_LISTENER_STATE_OPENING
| WS_LISTENER_STATE_OPEN
| WS_LISTENER_STATE_FAULTED
| WS_LISTENER_STATE_CLOSING
| WS_LISTENER_STATE_CLOSED.

#[global] Instance WS_LISTENER_STATE_eq_dec : EqDecision WS_LISTENER_STATE.
Proof. solve_decision. Defined.

(** Identifiers of the listener properties: the index into [listener_props],
    in the order of the table's comments. *)
Definition WS_LISTENER_PROPERTY_STATE : Z := 2.
Definition WS_LISTENER_PROPERTY_CHANNEL_TYPE : Z := 4.
Definition WS_LISTENER_PROPERTY_CHANNEL_BINDING : Z := 5.
Definition WS_LISTENER_PROPERTY_CUSTOM_LISTENER_INSTANCE : Z := 15.

(** Modelled from the spec: the address families "IPv4 or IPv6" of section
    4.2 and the stream socket type.  The constants are declared in the
    Winsock headers, not among the sources. *)
Definition AF_INET : Z := 2.
Definition AF_INET6 : Z := 23.
Definition SOCK_STREAM : Z := 1.

(** [MAKEWORD(lo, hi)] (windef.h): the 16-bit word of two bytes. *)
Definition MAKEWORD (lo hi : Z) : Z :=
  Z.lor (Z.land lo 0xFF) (Z.shiftl (Z.land hi 0xFF) 8).

(** ** Raw memory *)

Definition memcpy (dst src : list byte) (n : Z) : list byte :=
  take (Z.to_nat n) src ++ drop (Z.to_nat n) dst.

(** [addr->sa_family]: the leading 16-bit field of a socket address. *)
Definition sa_family (addr : list byte) : Z :=
  match addr with
  | b0 :: b1 :: _ => Z.lor (Z.of_N (Byte.to_N b0)) (Z.shiftl (Z.of_N (Byte.to_N b1)) 8)
  | _ => 0
  end.

(** The fields of [ADDRINFOW] the listener reads; the [ai_next] chain is
    the list. *)
Record ADDRINFOW := {
  ai_family : Z;
  ai_addrlen : Z;
  ai_addr : list byte
}.

(** The fields of [WS_NETTCP_URL] the listener reads. *)
Record WS_NETTCP_URL := {
  url_host : WS_STRING;
  url_port : USHORT
}.

(** ** The property table interface

    [struct prop_desc] is what [listener_props] is made of; [struct prop],
    [prop_size], [prop_init], [prop_set] and [prop_get] live in
    webservices_private.h and prop.c, which are not among the sources, and
    are taken as an interface. *)

(** Record fields carry the name of their structure as a prefix, since a
    field is a global projection: [desc_size d] is [d.size], [l_socket l] is
    [l->socket], and so on. *)
Record prop_desc := {
  desc_size : ULONG;
  desc_readonly : bool
}.

(** A [value] pointer is [None] when it is [NULL], and otherwise holds the
    bytes it points to. *)
Record WS_LISTENER_PROPERTY := {
  prop_id : ULONG;
  prop_value : option (list byte);
  prop_valueSize : ULONG
}.

Class PropOps := {
  (** the slot array of an object together with its backing buffer *)
  table : Type;
  (** the slot array as [heap_alloc_zero] leaves it *)
  prop_zero : table;
  prop_size : list prop_desc -> ULONG -> ULONG;
  prop_init : list prop_desc -> ULONG -> table -> table;
  prop_set : table -> ULONG -> ULONG -> option (list byte) -> ULONG -> HRESULT * table;
  (** the result carries what was copied to the caller's buffer, if anything *)
  prop_get : table -> ULONG -> ULONG -> pointer -> ULONG -> HRESULT * option (list byte)
}.

(** Sizes that depend on the target ABI. *)
Class Sizes := {
  sizeof_pointer : Z;
  sizeof_WS_CUSTOM_LISTENER_CALLBACKS : Z;
  sizeof_WS_DISALLOWED_USER_AGENT_SUBSTRINGS : Z;
  sizeof_listener : Z
}.

(** [ULONG], [BOOL] and the enumerations are four bytes wide. *)
Definition sizeof_ULONG : Z := 4.
Definition sizeof_BOOL : Z := 4.
Definition sizeof_enum : Z := 4.

Definition listener_props `{Sizes} : list prop_desc :=
  [ {| desc_size := sizeof_ULONG; desc_readonly := false |}   (* WS_LISTENER_PROPERTY_LISTEN_BACKLOG *)
  ; {| desc_size := sizeof_enum; desc_readonly := false |}    (* WS_LISTENER_PROPERTY_IP_VERSION *)
  ; {| desc_size := sizeof_enum; desc_readonly := true |}     (* WS_LISTENER_PROPERTY_STATE *)
  ; {| desc_size := sizeof_enum; desc_readonly := false |}    (* WS_LISTENER_PROPERTY_ASYNC_CALLBACK_MODEL *)
  ; {| desc_size := sizeof_enum; desc_readonly := true |}     (* WS_LISTENER_PROPERTY_CHANNEL_TYPE *)
  ; {| desc_size := sizeof_enum; desc_readonly := true |}     (* WS_LISTENER_PROPERTY_CHANNEL_BINDING *)
  ; {| desc_size := sizeof_ULONG; desc_readonly := false |}   (* WS_LISTENER_PROPERTY_CONNECT_TIMEOUT *)
  ; {| desc_size := sizeof_BOOL; desc_readonly := false |}    (* WS_LISTENER_PROPERTY_IS_MULTICAST *)
  ; {| desc_size := 0; desc_readonly := false |}              (* WS_LISTENER_PROPERTY_MULTICAST_INTERFACES *)
  ; {| desc_size := sizeof_BOOL; desc_readonly := false |}    (* WS_LISTENER_PROPERTY_MULTICAST_LOOPBACK *)
  ; {| desc_size := sizeof_ULONG; desc_readonly := false |}   (* WS_LISTENER_PROPERTY_CLOSE_TIMEOUT *)
  ; {| desc_size := sizeof_ULONG; desc_readonly := false |}   (* WS_LISTENER_PROPERTY_TO_HEADER_MATCHING_OPTIONS *)
  ; {| desc_size := sizeof_ULONG; desc_readonly := false |}   (* WS_LISTENER_PROPERTY_TRANSPORT_URL_MATCHING_OPTIONS *)
  ; {| desc_size := sizeof_WS_CUSTOM_LISTENER_CALLBACKS; desc_readonly := false |}
                                                    (* WS_LISTENER_PROPERTY_CUSTOM_LISTENER_CALLBACKS *)
  ; {| desc_size := 0; desc_readonly := false |}              (* WS_LISTENER_PROPERTY_CUSTOM_LISTENER_PARAMETERS *)
  ; {| desc_size := sizeof_pointer; desc_readonly := true |}  (* WS_LISTENER_PROPERTY_CUSTOM_LISTENER_INSTANCE *)
  ; {| desc_size := sizeof_WS_DISALLOWED_USER_AGENT_SUBSTRINGS; desc_readonly := false |}
                                                    (* WS_LISTENER_PROPERTY_DISALLOWED_USER_AGENT *)
  ].

(** ** The listener object *)

(** [CRITICAL_SECTION], for the one thread of the embedding: the number of
    times the thread holds it. *)
Definition CRITICAL_SECTION : Type := nat.

Record listener `{PropOps} := {
  l_magic : ULONG;
  l_cs : CRITICAL_SECTION;
  l_type : Z;
  l_binding : Z;
  l_state : WS_LISTENER_STATE;
  l_socket : SOCKET;
  l_prop_count : ULONG;
  l_prop : table
}.

Definition LISTENER_MAGIC : ULONG :=
  Z.lor (Z.lor (Z.lor (Z.shiftl (chr "L"%char) 24) (Z.shiftl (chr "I"%char) 16))
               (Z.shiftl (chr "S"%char) 8))
        (chr "T"%char).

(** ** The platform *)

Class Platform := {
  OS : Type;
  (** what an uninitialised [struct sockaddr_storage] on the stack holds *)
  os_stack_sockaddr_storage : OS -> list byte;
  os_WsCreateHeap : OS -> HRESULT * OS;
  os_WsDecodeUrl : WS_STRING -> OS -> (HRESULT * WS_NETTCP_URL) * OS;
  os_WsFreeHeap : OS -> unit * OS;
  os_heap_alloc : Z -> OS -> pointer * OS;
  os_heap_alloc_zero : Z -> OS -> pointer * OS;
  os_heap_free : pointer -> OS -> unit * OS;
  os_WSAStartup : Z -> OS -> Z * OS;
  os_GetAddrInfoW : option WS_STRING -> WS_STRING -> OS -> (Z * list ADDRINFOW) * OS;
  os_FreeAddrInfoW : OS -> unit * OS;
  os_WSAGetLastError : OS -> Z * OS;
  os_socket : Z -> Z -> Z -> OS -> SOCKET * OS;
  os_bind : SOCKET -> list byte -> Z -> OS -> Z * OS;
  os_listen : SOCKET -> Z -> OS -> Z * OS;
  os_closesocket : SOCKET -> OS -> Z * OS
}.

(** The log of platform calls, each with its arguments and its result. *)
Inductive event :=
| EvWsCreateHeap (ret : HRESULT)
| EvWsDecodeUrl (str : WS_STRING) (ret : HRESULT)
| EvWsFreeHeap
| EvHeapAlloc (size : Z) (ret : pointer)
| EvHeapAllocZero (size : Z) (ret : pointer)
| EvHeapFree (p : pointer)
| EvInitOnceExecuteOnce
| EvWSAStartup (version : Z) (ret : Z)
| EvGetAddrInfoW (host : option WS_STRING) (service : WS_STRING) (ret : Z)
| EvFreeAddrInfoW
| EvWSAGetLastError (ret : Z)
| EvSocket (af type protocol : Z) (ret : SOCKET)
| EvBind (s : SOCKET) (addr : list byte) (len : Z) (ret : Z)
| EvListen (s : SOCKET) (backlog : Z) (ret : Z)
| EvClosesocket (s : SOCKET) (ret : Z).

(** ** Worlds and the monad of the code *)

Section Listener.
Context `{PropOps} `{Sizes} `{Platform}.

(** The process heap, as far as listeners go: [mem] holds the contents of
    the listener blocks that are allocated, [live] their addresses.
    Releasing a block removes it from both: nothing can be read back from
    released storage.  String buffers are not kept in [mem]; their contents
    travel with their address. *)
Record world := {
  os : OS;
  mem : gmap N listener;
  live : gset N;
  trace : list event;
  once : bool;            (* [static INIT_ONCE once] of [winsock_init] *)
  winsock_loaded : bool   (* [static BOOL winsock_loaded] *)
}.

Definition M (A : Type) : Type := world -> option (A * world).

Definition ret {A} (a : A) : M A := fun w => Some (a, w).

(** No result: the computation has left what C defines. *)
Definition fault {A} : M A := fun _ => None.

Definition bindM {A B} (m : M A) (k : A -> M B) : M B :=
  fun w => match m w with
           | Some (a, w') => k a w'
           | None => None
           end.

Notation "x <- m ;; k" := (bindM m (fun x => k))
  (at level 100, m at next level, right associativity).
Notation "m ;;; k" := (bindM m (fun _ => k))
  (at level 100, right associativity).

Definition with_os (o : OS) (evs : list event) (w : world) : world :=
  {| os := o; mem := mem w; live := live w; trace := trace w ++ evs;
     once := once w; winsock_loaded := winsock_loaded w |}.

Definition with_mem (m : gmap N listener) (w : world) : world :=
  {| os := os w; mem := m; live := live w; trace := trace w;
     once := once w; winsock_loaded := winsock_loaded w |}.

Definition with_live (s : gset N) (w : world) : world :=
  {| os := os w; mem := mem w; live := s; trace := trace w;
     once := once w; winsock_loaded := winsock_loaded w |}.

Definition with_once (b : bool) (w : world) : world :=
  {| os := os w; mem := mem w; live := live w; trace := trace w;
     once := b; winsock_loaded := winsock_loaded w |}.

Definition with_winsock_loaded (b : bool) (w : world) : world :=
  {| os := os w; mem := mem w; live := live w; trace := trace w;
     once := once w; winsock_loaded := b |}.

(** A platform call: the platform state advances and the call is logged. *)
Definition call {A} (f : OS -> A * OS) (ev : A -> event) : M A :=
  fun w => let '(a, o) := f (os w) in Some (a, with_os o [ev a] w).

(** [*p] for a listener pointer: reading and writing the block at [p].
    [mem] holds the allocated blocks only, so an access through a pointer to
    released storage, or to storage that is no listener block, has no
    result. *)
Definition load (p : pointer) : M listener :=
  fun w => match mem w !! p with
           | Some l => Some (l, w)
           | None => None
           end.

Definition store (p : pointer) (f : listener -> listener) : M unit :=
  fun w => match mem w !! p with
           | Some l => Some (tt, with_mem (<[p := f l]> (mem w)) w)
           | None => None
           end.

(** Field assignments. *)
Definition set_magic (v : ULONG) (l : listener) : listener :=
  {| l_magic := v; l_cs := l_cs l; l_type := l_type l; l_binding := l_binding l; l_state := l_state l;
     l_socket := l_socket l; l_prop_count := l_prop_count l; l_prop := l_prop l |}.
Definition set_cs (v : CRITICAL_SECTION) (l : listener) : listener :=
  {| l_magic := l_magic l; l_cs := v; l_type := l_type l; l_binding := l_binding l;
     l_state := l_state l; l_socket := l_socket l; l_prop_count := l_prop_count l;
     l_prop := l_prop l |}.
Definition set_type (v : Z) (l : listener) : listener :=
  {| l_magic := l_magic l; l_cs := l_cs l; l_type := v; l_binding := l_binding l; l_state := l_state l;
     l_socket := l_socket l; l_prop_count := l_prop_count l; l_prop := l_prop l |}.
Definition set_binding (v : Z) (l : listener) : listener :=
  {| l_magic := l_magic l; l_cs := l_cs l; l_type := l_type l; l_binding := v; l_state := l_state l;
     l_socket := l_socket l; l_prop_count := l_prop_count l; l_prop := l_prop l |}.
Definition set_state (v : WS_LISTENER_STATE) (l : listener) : listener :=
  {| l_magic := l_magic l; l_cs := l_cs l; l_type := l_type l; l_binding := l_binding l; l_state := v;
     l_socket := l_socket l; l_prop_count := l_prop_count l; l_prop := l_prop l |}.
Definition set_socket (v : SOCKET) (l : listener) : listener :=
  {| l_magic := l_magic l; l_cs := l_cs l; l_type := l_type l; l_binding := l_binding l; l_state := l_state l;
     l_socket := v; l_prop_count := l_prop_count l; l_prop := l_prop l |}.
Definition set_prop_count (v : ULONG) (l : listener) : listener :=
  {| l_magic := l_magic l; l_cs := l_cs l; l_type := l_type l; l_binding := l_binding l; l_state := l_state l;
     l_socket := l_socket l; l_prop_count := v; l_prop := l_prop l |}.
Definition set_prop (v : table) (l : listener) : listener :=
  {| l_magic := l_magic l; l_cs := l_cs l; l_type := l_type l; l_binding := l_binding l; l_state := l_state l;
     l_socket := l_socket l; l_prop_count := l_prop_count l; l_prop := v |}.

(** ** Platform calls as the code makes them *)

Definition WsCreateHeap : M HRESULT := call os_WsCreateHeap EvWsCreateHeap.
Definition WsDecodeUrl (str : WS_STRING) : M (HRESULT * WS_NETTCP_URL) :=
  call (os_WsDecodeUrl str) (fun r => EvWsDecodeUrl str r.1).
Definition WsFreeHeap : M unit := call os_WsFreeHeap (fun _ => EvWsFreeHeap).
Definition heap_alloc (n : Z) : M pointer := call (os_heap_alloc n) (EvHeapAlloc n).
Definition WSAStartup (version : Z) : M Z := call (os_WSAStartup version) (EvWSAStartup version).
Definition GetAddrInfoW (host : option WS_STRING) (service : WS_STRING) : M (Z * list ADDRINFOW) :=
  call (os_GetAddrInfoW host service) (fun r => EvGetAddrInfoW host service r.1).
Definition FreeAddrInfoW : M unit := call os_FreeAddrInfoW (fun _ => EvFreeAddrInfoW).
Definition WSAGetLastError : M Z := call os_WSAGetLastError EvWSAGetLastError.
Definition socket (af ty protocol : Z) : M SOCKET :=
  call (os_socket af ty protocol) (EvSocket af ty protocol).
Definition bind (s : SOCKET) (addr : list byte) (len : Z) : M Z :=
  call (os_bind s addr len) (EvBind s addr len).
Definition listen (s : SOCKET) (backlog : Z) : M Z :=
  call (os_listen s backlog) (EvListen s backlog).
Definition closesocket (s : SOCKET) : M Z :=
  call (os_closesocket s) (EvClosesocket s).

(** What [heap_alloc_zero] returns for a listener: all fields zero. *)
Definition zero_listener : listener :=
  {| l_magic := 0; l_cs := 0%nat; l_type := 0; l_binding := 0;
     l_state := WS_LISTENER_STATE_CREATED;
     l_socket := 0; l_prop_count := 0; l_prop := prop_zero |}.

Definition heap_alloc_zero (n : Z) : M pointer :=
  p <- call (os_heap_alloc_zero n) (EvHeapAllocZero n) ;;
  if decide (p = NULL) then ret p
  else fun w => Some (p, with_live ({[p]} ∪ live w) (with_mem (<[p := zero_listener]> (mem w)) w)).

(** [heap_free] of a listener block: the storage goes back to the heap, and
    the block is gone. *)
Definition heap_free (p : pointer) : M unit :=
  call (os_heap_free p) (fun _ => EvHeapFree p) ;;;
  fun w => Some (tt, with_live (live w ∖ {[p]}) (with_mem (delete p (mem w)) w)).

(** [heap_free] of a string buffer (a [WCHAR *]).  An allocator hands out no
    storage that is in use, so a buffer is no listener block, and releasing
    it leaves the listener blocks as they are. *)
Definition heap_free_string (p : pointer) : M unit :=
  call (os_heap_free p) (fun _ => EvHeapFree p).

(** The critical section [&p->cs] of the listener block at [p].  Each of the
    four calls is an access to the block.  The thread of the embedding is
    the only one, so entering never waits; leaving a critical section that
    is not held has no result. *)
Definition InitializeCriticalSection (p : pointer) : M unit :=
  store p (set_cs 0%nat).

Definition EnterCriticalSection (p : pointer) : M unit :=
  store p (fun l => set_cs (S (l_cs l)) l).

Definition LeaveCriticalSection (p : pointer) : M unit :=
  l <- load p ;;
  if decide (l_cs l = 0%nat) then fault
  else store p (set_cs (Nat.pred (l_cs l))).

Definition DeleteCriticalSection (p : pointer) : M unit :=
  load p ;;; ret tt.

(** ** The code of listener.c *)

Definition set_winsock_loaded (b : bool) : M unit :=
  fun w => Some (tt, with_winsock_loaded b w).

Definition winsock_startup : M bool :=
  r <- WSAStartup (MAKEWORD 1 1) ;;
  (if decide (r = 0) then set_winsock_loaded true else ret tt) ;;;
  ret true.

(** [InitOnceExecuteOnce( &once, f, NULL, NULL )]: the callback runs unless
    an earlier run has completed the initialisation. *)
Definition InitOnceExecuteOnce (f : M bool) : M unit :=
  call (fun o => (tt, o)) (fun _ => EvInitOnceExecuteOnce) ;;;
  fun w =>
    if once w then Some (tt, w)
    else (done <- f ;; fun w' => Some (tt, with_once done w')) w.

Definition winsock_init : M unit := InitOnceExecuteOnce winsock_startup.

(** The label written to [cs.DebugInfo] after the lock is initialised, and
    cleared before it is deleted, is for debugging only and is left out. *)
Definition alloc_listener : M pointer :=
  let count := Z.of_nat (length listener_props) in
  let size := sizeof_listener + prop_size listener_props count in
  ret_ <- heap_alloc_zero size ;;
  if decide (ret_ = NULL) then ret NULL
  else
    store ret_ (set_magic LISTENER_MAGIC) ;;;
    InitializeCriticalSection ret_ ;;;
    store ret_ (fun l => set_prop (prop_init listener_props count (l_prop l)) l) ;;;
    store ret_ (set_prop_count count) ;;;
    ret ret_.

Definition reset_listener (listener : pointer) : M unit :=
  l <- load listener ;;
  closesocket (l_socket l) ;;;
  store listener (set_socket (-1)) ;;;
  store listener (set_state WS_LISTENER_STATE_CREATED).

Definition free_listener (listener : pointer) : M unit :=
  reset_listener listener ;;;
  DeleteCriticalSection listener ;;;
  heap_free listener.

(** The loop of [create_listener] over [properties[0 .. count-1]]; the array
    and its count are the list. *)
Fixpoint create_listener_loop (listener : pointer) (properties : list WS_LISTENER_PROPERTY)
  : M HRESULT :=
  match properties with
  | [] => ret S_OK
  | p :: rest =>
      l <- load listener ;;
      let '(hr, tbl) := prop_set (l_prop l) (l_prop_count l)
                                 (prop_id p) (prop_value p) (prop_valueSize p) in
      store listener (set_prop tbl) ;;;
      if decide (hr <> S_OK)
      then free_listener listener ;;; ret hr
      else create_listener_loop listener rest
  end.

(** The second component is what was stored through [ret], if anything. *)
Definition create_listener (type binding : Z) (properties : list WS_LISTENER_PROPERTY)
  : M (HRESULT * option pointer) :=
  listener <- alloc_listener ;;
  if decide (listener = NULL) then ret (E_OUTOFMEMORY, None)
  else
    hr <- create_listener_loop listener properties ;;
    if decide (hr <> S_OK) then ret (hr, None)
    else
      store listener (set_type type) ;;;
      store listener (set_binding binding) ;;;
      store listener (set_socket (-1)) ;;;
      ret (S_OK, Some listener).

(** [handle] is the address of the caller's output slot; the second
    component of the result is what was stored through it, if anything. *)
Definition WsCreateListener (type binding : Z) (properties : list WS_LISTENER_PROPERTY)
    (desc : pointer) (handle : pointer) (error : pointer) : M (HRESULT * option pointer) :=
  if decide (handle = NULL) then ret (E_INVALIDARG, None)
  else if decide (type <> WS_CHANNEL_TYPE_DUPLEX_SESSION) then ret (E_NOTIMPL, None)
  else if decide (binding <> WS_TCP_CHANNEL_BINDING) then ret (E_NOTIMPL, None)
  else
    r <- create_listener type binding properties ;;
    let '(hr, listener) := r in
    if decide (hr <> S_OK) then ret (hr, None)
    else ret (S_OK, listener).

Definition WsFreeListener (handle : pointer) : M unit :=
  if decide (handle = NULL) then ret tt
  else
    EnterCriticalSection handle ;;;
    l <- load handle ;;
    if decide (l_magic l <> LISTENER_MAGIC)
    then LeaveCriticalSection handle ;;; ret tt
    else
      store handle (set_magic 0) ;;;
      LeaveCriticalSection handle ;;;
      free_listener handle.

(** [sprintfW( service, fmtW, port )] with [fmtW = "%u"]. *)
Definition sprintfW_u (n : Z) : WS_STRING :=
  chr <$> String.list_ascii_of_string (pretty (Z.to_N n)).

(** The [while] loop of [resolve_hostname] along the [ai_next] chain. *)
Fixpoint skip_other_families (info : list ADDRINFOW) : option ADDRINFOW :=
  match info with
  | [] => None
  | i :: next =>
      if bool_decide (ai_family i <> AF_INET) && bool_decide (ai_family i <> AF_INET6)
      then skip_other_families next
      else Some i
  end.

(** The result is [(hr, *addr, *addr_len)]. *)
Definition resolve_hostname (host : option WS_STRING) (port : USHORT) (addr : list byte)
  : M (HRESULT * list byte * Z) :=
  let service := sprintfW_u port in
  info <- GetAddrInfoW host service ;;
  let '(r, res) := info in
  if decide (r <> 0)
  then e <- WSAGetLastError ;; ret (HRESULT_FROM_WIN32 e, addr, 0)
  else
    match skip_other_families res with
    | Some info =>
        FreeAddrInfoW ;;;
        ret (S_OK, memcpy addr (ai_addr info) (ai_addrlen info), ai_addrlen info)
    | None =>
        FreeAddrInfoW ;;;
        ret (WS_E_ADDRESS_NOT_AVAILABLE, addr, 0)
    end.

Definition sizeof_WCHAR : Z := 2.

(** The result is [(hr, *host, *port)]; a host is the address of its buffer
    and the buffer's contents, [(NULL, [])] for the null pointer.  On
    failure the outputs are not written and the caller does not read them. *)
Definition parse_url (str : WS_STRING) : M (HRESULT * (pointer * WS_STRING) * USHORT) :=
  hr <- WsCreateHeap ;;
  if decide (hr <> S_OK) then ret (hr, (NULL, []), 0)
  else
    decoded <- WsDecodeUrl str ;;
    let '(hr, url) := decoded in
    if decide (hr <> S_OK) then WsFreeHeap ;;; ret (hr, (NULL, []), 0)
    else
      let len := Z.of_nat (length (url_host url)) in
      if bool_decide (len = 1) &&
         (bool_decide (url_host url !! 0%nat = Some (chr "+"%char)) ||
          bool_decide (url_host url !! 0%nat = Some (chr "*"%char)))
      then WsFreeHeap ;;; ret (hr, (NULL, []), url_port url)
      else
        host <- heap_alloc ((len + 1) * sizeof_WCHAR) ;;
        if decide (host = NULL) then WsFreeHeap ;;; ret (E_OUTOFMEMORY, (NULL, []), 0)
        else WsFreeHeap ;;; ret (hr, (host, url_host url ++ [0]), url_port url).

Definition stack_sockaddr_storage : M (list byte) :=
  fun w => Some (os_stack_sockaddr_storage (os w), w).

Definition open_listener (listener : pointer) (url : WS_STRING) : M HRESULT :=
  storage <- stack_sockaddr_storage ;;
  parsed <- parse_url url ;;
  let '(hr, host, port) := parsed in
  if decide (hr <> S_OK) then ret hr
  else
    winsock_init ;;;
    resolved <-
      resolve_hostname (if decide (host.1 = NULL) then None else Some host.2) port storage ;;
    let '(hr, addr, addr_len) := resolved in
    heap_free_string host.1 ;;;
    if decide (hr <> S_OK) then ret hr
    else
      s <- socket (sa_family addr) SOCK_STREAM 0 ;;
      store listener (set_socket s) ;;;
      if decide (s = -1) then e <- WSAGetLastError ;; ret (HRESULT_FROM_WIN32 e)
      else
        l <- load listener ;;
        r <- bind (l_socket l) addr addr_len ;;
        if decide (r < 0)
        then
          l <- load listener ;;
          closesocket (l_socket l) ;;;
          store listener (set_socket (-1)) ;;;
          e <- WSAGetLastError ;; ret (HRESULT_FROM_WIN32 e)
        else
          l <- load listener ;;
          r <- listen (l_socket l) 0 ;;
          if decide (r < 0)
          then
            l <- load listener ;;
            closesocket (l_socket l) ;;;
            store listener (set_socket (-1)) ;;;
            e <- WSAGetLastError ;; ret (HRESULT_FROM_WIN32 e)
          else
            store listener (set_state WS_LISTENER_STATE_OPEN) ;;;
            ret S_OK.

(** A [url] pointer is [None] when it is [NULL]. *)
Definition WsOpenListener (handle : pointer) (url : option WS_STRING) (ctx error : pointer)
  : M HRESULT :=
  match url with
  | None => ret E_INVALIDARG
  | Some url =>
      if decide (handle = NULL) then ret E_INVALIDARG
      else
        EnterCriticalSection handle ;;;
        l <- load handle ;;
        if decide (l_magic l <> LISTENER_MAGIC)
        then LeaveCriticalSection handle ;;; ret E_INVALIDARG
        else if decide (l_state l <> WS_LISTENER_STATE_CREATED)
        then LeaveCriticalSection handle ;;; ret WS_E_INVALID_OPERATION
        else
          hr <- open_listener handle url ;;
          LeaveCriticalSection handle ;;;
          ret hr
  end.

Definition close_listener (listener : pointer) : M unit :=
  reset_listener listener ;;;
  store listener (set_state WS_LISTENER_STATE_CLOSED).

Definition WsCloseListener (handle : pointer) (ctx error : pointer) : M HRESULT :=
  if decide (handle = NULL) then ret E_INVALIDARG
  else
    EnterCriticalSection handle ;;;
    l <- load handle ;;
    if decide (l_magic l <> LISTENER_MAGIC)
    then LeaveCriticalSection handle ;;; ret E_INVALIDARG
    else
      close_listener handle ;;;
      LeaveCriticalSection handle ;;;
      ret S_OK.

(** What a property read stores through [buf]. *)
Inductive out_value :=
| OutState (s : WS_LISTENER_STATE)
| OutChannelType (t : Z)
| OutChannelBinding (b : Z)
| OutBytes (bs : list byte).

(** [buf] is the address of the caller's buffer; the second component of the
    result is what was stored through it, if anything. *)
Definition WsGetListenerProperty (handle : pointer) (id : ULONG) (buf : pointer) (size : ULONG)
    (error : pointer) : M (HRESULT * option out_value) :=
  if decide (handle = NULL) then ret (E_INVALIDARG, None)
  else
    EnterCriticalSection handle ;;;
    l <- load handle ;;
    if decide (l_magic l <> LISTENER_MAGIC)
    then LeaveCriticalSection handle ;;; ret (E_INVALIDARG, None)
    else
      let r :=
        if decide (id = WS_LISTENER_PROPERTY_STATE) then
          if bool_decide (buf = NULL) || bool_decide (size <> sizeof_enum)
          then (E_INVALIDARG, None)
          else (S_OK, Some (OutState (l_state l)))
        else if decide (id = WS_LISTENER_PROPERTY_CHANNEL_TYPE) then
          if bool_decide (buf = NULL) || bool_decide (size <> sizeof_enum)
          then (E_INVALIDARG, None)
          else (S_OK, Some (OutChannelType (l_type l)))
        else if decide (id = WS_LISTENER_PROPERTY_CHANNEL_BINDING) then
          if bool_decide (buf = NULL) || bool_decide (size <> sizeof_enum)
          then (E_INVALIDARG, None)
          else (S_OK, Some (OutChannelBinding (l_binding l)))
        else
          let '(hr, out) := prop_get (l_prop l) (l_prop_count l) id buf size in
          (hr, OutBytes <$> out) in
      LeaveCriticalSection handle ;;;
      ret r.

Definition WsSetListenerProperty (handle : pointer) (id : ULONG) (value : option (list byte))
    (size : ULONG) (error : pointer) : M HRESULT :=
  if decide (handle = NULL) then ret E_INVALIDARG
  else
    EnterCriticalSection handle ;;;
    l <- load handle ;;
    if decide (l_magic l <> LISTENER_MAGIC)
    then LeaveCriticalSection handle ;;; ret E_INVALIDARG
    else
      let '(hr, tbl) := prop_set (l_prop l) (l_prop_count l) id value size in
      store handle (set_prop tbl) ;;;
      LeaveCriticalSection handle ;;;
      ret hr.

End Listener.

(** ** Vocabulary of the statements *)

Section Vocabulary.
Context `{PropOps} `{Sizes} `{Platform}.

(** [returns r Q]: the run [r] has a result, and the result and the final
    world satisfy [Q]. *)
Definition returns {A} (r : option (A * world)) (Q : A -> world -> Prop) : Prop :=
  match r with
  | Some (a, w') => Q a w'
  | None => False
  end.

(** The world inside the critical section of the listener [l] at [h]. *)
Definition entered (h : pointer) (l : listener) (w : world) : world :=
  with_mem (<[h := set_cs (S (l_cs l)) l]> (mem w)) w.

(** The size [alloc_listener] asks for, and what it leaves at the address
    the allocator returned. *)
Definition alloc_size : Z :=
  sizeof_listener + prop_size listener_props (Z.of_nat (length listener_props)).

Definition fresh_listener : listener :=
  let count := Z.of_nat (length listener_props) in
  set_prop_count count
    (set_prop (prop_init listener_props count prop_zero)
       (set_cs 0%nat (set_magic LISTENER_MAGIC zero_listener))).

(** [n] calls of [WsCloseListener] in a row, with the results in order. *)
Fixpoint close_n (n : nat) (handle : pointer) : M (list HRESULT) :=
  match n with
  | O => ret []
  | S n' =>
      bindM (WsCloseListener handle NULL NULL) (fun hr =>
      bindM (close_n n' handle) (fun hrs => ret (hr :: hrs)))
  end.

(** A sequence of [WsSetListenerProperty] calls, one per entry. *)
Fixpoint set_all (handle : pointer) (calls : list WS_LISTENER_PROPERTY) : M (list HRESULT) :=
  match calls with
  | [] => ret []
  | c :: rest =>
      bindM (WsSetListenerProperty handle (prop_id c) (prop_value c) (prop_valueSize c) NULL)
        (fun hr => bindM (set_all handle rest) (fun hrs => ret (hr :: hrs)))
  end.

(** The operations on a handle, and a sequence of them. *)
Inductive op :=
| OpOpen (url : option WS_STRING)
| OpClose
| OpGetProperty (id : ULONG) (buf : pointer) (size : ULONG)
| OpSetProperty (id : ULONG) (value : option (list byte)) (size : ULONG)
| OpFree.

Inductive op_result :=
| ResHRESULT (hr : HRESULT)
| ResGet (hr : HRESULT) (out : option out_value)
| ResVoid.

Definition run_op (handle : pointer) (o : op) : M op_result :=
  match o with
  | OpOpen url => bindM (WsOpenListener handle url NULL NULL) (fun hr => ret (ResHRESULT hr))
  | OpClose => bindM (WsCloseListener handle NULL NULL) (fun hr => ret (ResHRESULT hr))
  | OpGetProperty id buf size =>
      bindM (WsGetListenerProperty handle id buf size NULL) (fun r => ret (ResGet r.1 r.2))
  | OpSetProperty id value size =>
      bindM (WsSetListenerProperty handle id value size NULL) (fun hr => ret (ResHRESULT hr))
  | OpFree => bindM (WsFreeListener handle) (fun _ => ret ResVoid)
  end.

Fixpoint run_ops (handle : pointer) (ops : list op) : M (list op_result) :=
  match ops with
  | [] => ret []
  | o :: rest =>
      bindM (run_op handle o) (fun r => bindM (run_ops handle rest) (fun rs => ret (r :: rs)))
  end.

(** What a rejected operation answers: [E_INVALIDARG] with nothing stored
    through the output buffer, and nothing at all for [WsFreeListener]. *)
Definition rejected (o : op) : op_result :=
  match o with
  | OpGetProperty _ _ _ => ResGet E_INVALIDARG None
  | OpFree => ResVoid
  | _ => ResHRESULT E_INVALIDARG
  end.

(** The overrides [properties] applied one after the other, in the order of
    the list, each of them succeeding. *)
Inductive overrides_applied (count : ULONG)
  : table -> list WS_LISTENER_PROPERTY -> table -> Prop :=
| applied_nil tbl : overrides_applied count tbl [] tbl
| applied_cons tbl p tbl1 rest tbl2 :
    prop_set tbl count (prop_id p) (prop_value p) (prop_valueSize p) = (S_OK, tbl1) ->
    overrides_applied count tbl1 rest tbl2 ->
    overrides_applied count tbl (p :: rest) tbl2.

(** A candidate address that [resolve_hostname] passes over. *)
Definition other_family (i : ADDRINFOW) : Prop :=
  ai_family i <> AF_INET /\ ai_family i <> AF_INET6.

(** The steps of opening a listener, as they show in the log. *)
Inductive step :=
| StepDecodeUrl (url : WS_STRING)
| StepBootstrap
| StepResolve
| StepSocket (af : Z)
| StepBind (addr : list byte)
| StepListen (backlog : Z).

Definition step_of (e : event) : option step :=
  match e with
  | EvWsDecodeUrl str _ => Some (StepDecodeUrl str)
  | EvInitOnceExecuteOnce => Some StepBootstrap
  | EvGetAddrInfoW _ _ _ => Some StepResolve
  | EvSocket af _ _ _ => Some (StepSocket af)
  | EvBind _ addr _ _ => Some (StepBind addr)
  | EvListen _ backlog _ => Some (StepListen backlog)
  | _ => None
  end.

Definition steps (evs : list event) : list step := omap step_of evs.

(** The order in which [open_listener] takes its steps. *)
Definition open_order (url : WS_STRING) (addr : list byte) : list step :=
  [ StepDecodeUrl url; StepBootstrap; StepResolve;
    StepSocket (sa_family addr); StepBind addr; StepListen 0 ].

(** The order of the spec (section 4.3): "runs the one-time process
    bootstrap; decodes the target URL into host/port via the external URL
    collaborator; resolves the address; creates a socket of the resolved
    address family; binds to it; begins listening with backlog 0". *)
Definition spec_open_order (url : WS_STRING) (addr : list byte) : list step :=
  [ StepBootstrap; StepDecodeUrl url; StepResolve;
    StepSocket (sa_family addr); StepBind addr; StepListen 0 ].

(** The socket part of [open_listener], for the resolved address [addr] of
    length [len] and the listener [l]: the result, the platform calls it
    makes with what they returned, and what it leaves of the listener.  The
    socket is of the family of [addr]; [bind] and [listen] are called on the
    socket that [socket] returned, [bind] with [addr] and [len], [listen]
    with backlog 0; after a failing [bind] or [listen] the socket is closed
    and the last-error code is read. *)
Inductive socket_steps (addr : list byte) (len : Z) (l : listener)
  : HRESULT -> list event -> listener -> Prop :=
| socket_fails e :
    socket_steps addr len l (HRESULT_FROM_WIN32 e)
      [EvSocket (sa_family addr) SOCK_STREAM 0 (-1); EvWSAGetLastError e]
      (set_socket (-1) l)
| bind_fails s rb rc e :
    s <> -1 -> rb < 0 ->
    socket_steps addr len l (HRESULT_FROM_WIN32 e)
      [EvSocket (sa_family addr) SOCK_STREAM 0 s; EvBind s addr len rb;
       EvClosesocket s rc; EvWSAGetLastError e]
      (set_socket (-1) l)
| listen_fails s rb rl rc e :
    s <> -1 -> 0 <= rb -> rl < 0 ->
    socket_steps addr len l (HRESULT_FROM_WIN32 e)
      [EvSocket (sa_family addr) SOCK_STREAM 0 s; EvBind s addr len rb;
       EvListen s 0 rl; EvClosesocket s rc; EvWSAGetLastError e]
      (set_socket (-1) l)
| all_succeed s rb rl :
    s <> -1 -> 0 <= rb -> 0 <= rl ->
    socket_steps addr len l S_OK
      [EvSocket (sa_family addr) SOCK_STREAM 0 s; EvBind s addr len rb;
       EvListen s 0 rl]
      (set_state WS_LISTENER_STATE_OPEN (set_socket s l)).

(** The Winsock contract the error paths rely on: a call that fails leaves
    a last-error code that [HRESULT_FROM_WIN32] turns into a failure, also
    after the socket has been closed again. *)
Definition failure_reported (o : OS) : Prop :=
  HRESULT_FROM_WIN32 (os_WSAGetLastError o).1 <> S_OK.

Record winsock_reports_errors : Prop := {
  socket_error af ty protocol o :
    (os_socket af ty protocol o).1 = -1 ->
    failure_reported (os_socket af ty protocol o).2;
  bind_error s addr len o :
    (os_bind s addr len o).1 < 0 ->
    failure_reported (os_closesocket s (os_bind s addr len o).2).2;
  listen_error s backlog o :
    (os_listen s backlog o).1 < 0 ->
    failure_reported (os_closesocket s (os_listen s backlog o).2).2
}.

End Vocabulary.

(** ** The property table of the spec *)

(** Modelled from the spec: [struct prop] (webservices_private.h, not among
    the sources).  Section 3: an instance is "a parallel array of slots
    {valuePointer, valueSize}, one per schema entry"; a slot is kept here
    with its schema entry and the bytes it points to, whose length is the
    stored size. *)
Record prop := {
  p_desc : prop_desc;
  p_value : list byte
}.

Definition zero_bytes (n : Z) : list byte := replicate (Z.to_nat n) x00.

(** Modelled from the spec: [prop_size] (prop.c, not among the sources): the
    size of the backing buffer that holds every declared field. *)
Definition spec_prop_size (desc : list prop_desc) (count : ULONG) : ULONG :=
  foldr Z.add 0 (desc_size <$> take (Z.to_nat count) desc).

(** Modelled from the spec: [prop_init] (prop.c, not among the sources).
    Section 4.1: "lays out each slot's value pointer into backingBuffer
    according to schema order and sizes; zero-fills fixed-size slots;
    establishes size metadata so get/set can validate". *)
Definition spec_prop_init (desc : list prop_desc) (count : ULONG) (slots : list prop)
  : list prop :=
  (fun d => {| p_desc := d; p_value := zero_bytes (desc_size d) |})
    <$> take (Z.to_nat count) desc.

(** Modelled from the spec: [prop_set] (prop.c, not among the sources).
    Section 4.1: "fails with InvalidArgument if id is out of range, if the
    field is read-only, if size does not match the schema's declared fixed
    size (when non-zero), or if size == 0 was supplied for a fixed-size field
    without a value.  For variable-size fields, replaces the stored byte span
    with a copy of the supplied bytes.  Succeeds by overwriting the slot in
    place." *)
Definition spec_prop_set (tbl : list prop) (count id : ULONG) (value : option (list byte))
    (size : ULONG) : HRESULT * list prop :=
  if bool_decide (id < 0 \/ count <= id) then (E_INVALIDARG, tbl)
  else
    match tbl !! Z.to_nat id with
    | None => (E_INVALIDARG, tbl)
    | Some p =>
        if desc_readonly (p_desc p) then (E_INVALIDARG, tbl)
        else if bool_decide (desc_size (p_desc p) <> 0 /\ size <> desc_size (p_desc p))
        then (E_INVALIDARG, tbl)
        else (S_OK, <[Z.to_nat id := {| p_desc := p_desc p;
                                        p_value := take (Z.to_nat size) (default [] value) |}]> tbl)
    end.

(** Modelled from the spec: [prop_get] (prop.c, not among the sources).
    Section 4.1: "fails with InvalidArgument if id is out of range or
    bufferSize does not equal the field's actual stored size; otherwise
    copies the stored bytes into buffer". *)
Definition spec_prop_get (tbl : list prop) (count id : ULONG) (buf : pointer) (size : ULONG)
  : HRESULT * option (list byte) :=
  if bool_decide (id < 0 \/ count <= id) then (E_INVALIDARG, None)
  else
    match tbl !! Z.to_nat id with
    | None => (E_INVALIDARG, None)
    | Some p =>
        if bool_decide (size <> Z.of_nat (length (p_value p))) then (E_INVALIDARG, None)
        else (S_OK, Some (p_value p))
    end.

Definition spec_props : PropOps :=
  {| table := list prop;
     prop_zero := [];
     prop_size := spec_prop_size;
     prop_init := spec_prop_init;
     prop_set := spec_prop_set;
     prop_get := spec_prop_get |}.

(** The read-only identifiers of the listener: the entries of
    [listener_props] whose flag is set. *)
Definition readonly_id `{Sizes} (id : ULONG) : Prop :=
  0 <= id /\ exists d, listener_props !! Z.to_nat id = Some d /\ desc_readonly d = true.

(** The slots of a listener of the spec's table carry the schema of
    [listener_props]. *)
Definition props_wf `{Sizes} (l : @listener spec_props) : Prop :=
  l_prop_count l = Z.of_nat (length listener_props) /\
  p_desc <$> l_prop l = listener_props.

(** ** A platform to run the code on

    A small deterministic platform, used to evaluate the code on concrete
    inputs.  Its URL decoder takes the whole text as the host and answers
    port 8080; its resolver knows [localhost] and the null host. *)

Definition wstr (s : string) : WS_STRING := chr <$> String.list_ascii_of_string s.

Record test_os := {
  t_next : N;          (* next heap address *)
  t_error : Z;         (* the last-error code *)
  t_heap_ok : bool;    (* do allocations succeed *)
  t_bind_ok : bool;
  t_listen_ok : bool
}.

Definition t_set_error (e : Z) (o : test_os) : test_os :=
  {| t_next := t_next o; t_error := e; t_heap_ok := t_heap_ok o;
     t_bind_ok := t_bind_ok o; t_listen_ok := t_listen_ok o |}.

Definition t_alloc (o : test_os) : pointer * test_os :=
  if t_heap_ok o
  then (t_next o, {| t_next := t_next o + 1; t_error := t_error o; t_heap_ok := true;
                     t_bind_ok := t_bind_ok o; t_listen_ok := t_listen_ok o |})
  else (NULL, o).

Definition WS_E_INVALID_FORMAT : HRESULT := int32 0x803D0000.
Definition WSAHOST_NOT_FOUND : Z := 11001.
Definition WSAEAFNOSUPPORT : Z := 10047.
Definition WSAEADDRINUSE : Z := 10048.

(** 127.0.0.1:8080 as a [sockaddr_in], and ::1 port 8080 as a
    [sockaddr_in6]. *)
Definition loopback4 : list byte :=
  [x02; x00; x1f; x90; x7f; x00; x00; x01] ++ replicate 8 x00.
Definition loopback6 : list byte :=
  [x17; x00; x1f; x90] ++ replicate 4 x00 ++ replicate 15 x00 ++ [x01] ++ replicate 4 x00.

Definition t_GetAddrInfoW (host : option WS_STRING) (service : WS_STRING) (o : test_os)
  : (Z * list ADDRINFOW) * test_os :=
  if bool_decide (host = None)
  then ((0, [ {| ai_family := AF_INET; ai_addrlen := 16; ai_addr := loopback4 |} ]), o)
  else if bool_decide (host = Some (wstr "localhost" ++ [0]))
  then ((0, [ {| ai_family := 1; ai_addrlen := 2; ai_addr := [x01; x00] |}
            ; {| ai_family := AF_INET6; ai_addrlen := 28; ai_addr := loopback6 |}
            ; {| ai_family := AF_INET; ai_addrlen := 16; ai_addr := loopback4 |} ]), o)
  else if bool_decide (host = Some (wstr "local.sock" ++ [0]))
  then ((0, [ {| ai_family := 1; ai_addrlen := 2; ai_addr := [x01; x00] |} ]), o)
  else ((WSAHOST_NOT_FOUND, []), t_set_error WSAHOST_NOT_FOUND o).

Definition test_platform : Platform :=
  {| OS := test_os;
     os_stack_sockaddr_storage := fun _ => replicate 128 xcc;
     os_WsCreateHeap := fun o => (S_OK, o);
     os_WsDecodeUrl := fun str o =>
       if bool_decide (str = [])
       then ((WS_E_INVALID_FORMAT, {| url_host := []; url_port := 0 |}), o)
       else ((S_OK, {| url_host := str; url_port := 8080 |}), o);
     os_WsFreeHeap := fun o => (tt, o);
     os_heap_alloc := fun _ => t_alloc;
     os_heap_alloc_zero := fun _ => t_alloc;
     os_heap_free := fun _ o => (tt, o);
     os_WSAStartup := fun _ o => (0, o);
     os_GetAddrInfoW := t_GetAddrInfoW;
     os_FreeAddrInfoW := fun o => (tt, o);
     os_WSAGetLastError := fun o => (t_error o, o);
     os_socket := fun af _ _ o =>
       if bool_decide (af = AF_INET \/ af = AF_INET6) then (100, o)
       else (-1, t_set_error WSAEAFNOSUPPORT o);
     os_bind := fun _ _ _ o =>
       if t_bind_ok o then (0, o) else (-1, t_set_error WSAEADDRINUSE o);
     os_listen := fun _ _ o =>
       if t_listen_ok o then (0, o) else (-1, t_set_error WSAEADDRINUSE o);
     os_closesocket := fun _ o => (0, o) |}.

Definition test_sizes : Sizes :=
  {| sizeof_pointer := 8;
     sizeof_WS_CUSTOM_LISTENER_CALLBACKS := 80;
     sizeof_WS_DISALLOWED_USER_AGENT_SUBSTRINGS := 16;
     sizeof_listener := 360 |}.

Definition test_world (o : test_os) : @world spec_props test_platform :=
  @Build_world spec_props test_platform o ∅ ∅ [] false false.

Definition test_os0 : test_os :=
  {| t_next := 4096; t_error := 0; t_heap_ok := true; t_bind_ok := true; t_listen_ok := true |}.

(** The world a computation leaves behind. *)
Definition run_world `{PropOps} `{Platform} {A} (m : M A) (w : world) : world :=
  match m w with
  | Some (_, w') => w'
  | None => w
  end.

(** A listener created on the test platform, the same listener opened on
    [localhost], and a platform on which [bind] fails. *)
Definition test_handle : pointer := 4096%N.

Definition test_created : @world spec_props test_platform :=
  run_world (@WsCreateListener spec_props test_sizes test_platform
               WS_CHANNEL_TYPE_DUPLEX_SESSION WS_TCP_CHANNEL_BINDING [] NULL 1%N NULL)
            (test_world test_os0).

Definition test_opened : @world spec_props test_platform :=
  run_world (@WsOpenListener spec_props test_platform
               test_handle (Some (wstr "localhost")) NULL NULL)
            test_created.

Definition test_os_bind_fails : test_os :=
  {| t_next := 4096; t_error := 0; t_heap_ok := true; t_bind_ok := false; t_listen_ok := true |}.

Definition test_created_bind_fails : @world spec_props test_platform :=
  run_world (@WsCreateListener spec_props test_sizes test_platform
               WS_CHANNEL_TYPE_DUPLEX_SESSION WS_TCP_CHANNEL_BINDING [] NULL 1%N NULL)
            (test_world test_os_bind_fails).

(** The listener at [test_handle] after construction, and after opening. *)
Definition test_listener : @listener spec_props :=
  @set_socket spec_props (-1)
    (@set_binding spec_props WS_TCP_CHANNEL_BINDING
       (@set_type spec_props WS_CHANNEL_TYPE_DUPLEX_SESSION
          (@fresh_listener spec_props test_sizes))).

Definition test_listener_open : @listener spec_props :=
  @set_state spec_props WS_LISTENER_STATE_OPEN (@set_socket spec_props 100 test_listener).

(** A platform on which [listen] fails. *)
Definition test_os_listen_fails : test_os :=
  {| t_next := 4096; t_error := 0; t_heap_ok := true; t_bind_ok := true; t_listen_ok := false |}.

(** The test platform with a [closesocket] that, when it succeeds, resets
    the last-error code to 0, as the documentation of [WSAGetLastError]
    says a succeeding call may. *)
Definition clearing_platform : Platform :=
  {| OS := test_os;
     os_stack_sockaddr_storage := @os_stack_sockaddr_storage test_platform;
     os_WsCreateHeap := @os_WsCreateHeap test_platform;
     os_WsDecodeUrl := @os_WsDecodeUrl test_platform;
     os_WsFreeHeap := @os_WsFreeHeap test_platform;
     os_heap_alloc := @os_heap_alloc test_platform;
     os_heap_alloc_zero := @os_heap_alloc_zero test_platform;
     os_heap_free := @os_heap_free test_platform;
     os_WSAStartup := @os_WSAStartup test_platform;
     os_GetAddrInfoW := @os_GetAddrInfoW test_platform;
     os_FreeAddrInfoW := @os_FreeAddrInfoW test_platform;
     os_WSAGetLastError := @os_WSAGetLastError test_platform;
     os_socket := @os_socket test_platform;
     os_bind := @os_bind test_platform;
     os_listen := @os_listen test_platform;
     os_closesocket := fun _ o => (0, t_set_error 0 o) |}.

(** A listener created on that platform, where [bind] fails, and where
    [listen] fails. *)
Definition clearing_created_bind_fails : @world spec_props clearing_platform :=
  run_world (@WsCreateListener spec_props test_sizes clearing_platform
               WS_CHANNEL_TYPE_DUPLEX_SESSION WS_TCP_CHANNEL_BINDING [] NULL 1%N NULL)
            (@Build_world spec_props clearing_platform test_os_bind_fails ∅ ∅ [] false false).

Definition clearing_created_listen_fails : @world spec_props clearing_platform :=
  run_world (@WsCreateListener spec_props test_sizes clearing_platform
               WS_CHANNEL_TYPE_DUPLEX_SESSION WS_TCP_CHANNEL_BINDING [] NULL 1%N NULL)
            (@Build_world spec_props clearing_platform test_os_listen_fails ∅ ∅ [] false false).

(** The test platform with an allocator that hands a released block out
    again at the next request. *)
Definition reusing_platform : Platform :=
  {| OS := test_os;
     os_stack_sockaddr_storage := @os_stack_sockaddr_storage test_platform;
     os_WsCreateHeap := @os_WsCreateHeap test_platform;
     os_WsDecodeUrl := @os_WsDecodeUrl test_platform;
     os_WsFreeHeap := @os_WsFreeHeap test_platform;
     os_heap_alloc := @os_heap_alloc test_platform;
     os_heap_alloc_zero := @os_heap_alloc_zero test_platform;
     os_heap_free := fun p o =>
       (tt, if decide (p = NULL) then o
            else {| t_next := p; t_error := t_error o; t_heap_ok := t_heap_ok o;
                    t_bind_ok := t_bind_ok o; t_listen_ok := t_listen_ok o |});
     os_WSAStartup := @os_WSAStartup test_platform;
     os_GetAddrInfoW := @os_GetAddrInfoW test_platform;
     os_FreeAddrInfoW := @os_FreeAddrInfoW test_platform;
     os_WSAGetLastError := @os_WSAGetLastError test_platform;
     os_socket := @os_socket test_platform;
     os_bind := @os_bind test_platform;
     os_listen := @os_listen test_platform;
     os_closesocket := @os_closesocket test_platform |}.

(** A listener created on that platform, and the world after it was
    freed. *)
Definition reusing_created : @world spec_props reusing_platform :=
  run_world (@WsCreateListener spec_props test_sizes reusing_platform
               WS_CHANNEL_TYPE_DUPLEX_SESSION WS_TCP_CHANNEL_BINDING [] NULL 1%N NULL)
            (@Build_world spec_props reusing_platform test_os0 ∅ ∅ [] false false).

Definition reusing_freed : @world spec_props reusing_platform :=
  run_world (@WsFreeListener spec_props reusing_platform test_handle) reusing_created.


(** ** Vocabulary of the further properties *)

Section MoreVocabulary.
Context `{PropOps} `{Sizes} `{Platform}.

(** [n] calls of [winsock_init] in a row. *)
Fixpoint winsock_init_n (n : nat) : M unit :=
  match n with
  | O => ret tt
  | S n' => bindM winsock_init (fun _ => winsock_init_n n')
  end.

(** What the log says about resources: the sockets [socket] handed out and
    the sockets passed to [closesocket]; the buffers [heap_alloc] handed out
    and the buffers passed to [heap_free]; the heaps [WsCreateHeap] made and
    the calls of [WsFreeHeap]; the versions asked of [WSAStartup]. *)
Definition sockets_created (evs : list event) : list SOCKET :=
  omap (fun e => match e with
                 | EvSocket _ _ _ s => if decide (s = -1) then None else Some s
                 | _ => None
                 end) evs.

Definition sockets_closed (evs : list event) : list SOCKET :=
  omap (fun e => match e with EvClosesocket s _ => Some s | _ => None end) evs.

Definition buffers_allocated (evs : list event) : list pointer :=
  omap (fun e => match e with
                 | EvHeapAlloc _ p => if decide (p = NULL) then None else Some p
                 | _ => None
                 end) evs.

Definition buffers_freed (evs : list event) : list pointer :=
  omap (fun e => match e with
                 | EvHeapFree p => if decide (p = NULL) then None else Some p
                 | _ => None
                 end) evs.

Definition ws_heaps_created (evs : list event) : list unit :=
  omap (fun e => match e with
                 | EvWsCreateHeap hr => if decide (hr = S_OK) then Some tt else None
                 | _ => None
                 end) evs.

Definition ws_heaps_freed (evs : list event) : list unit :=
  omap (fun e => match e with EvWsFreeHeap => Some tt | _ => None end) evs.

Definition startups (evs : list event) : list Z :=
  omap (fun e => match e with EvWSAStartup v _ => Some v | _ => None end) evs.

(** A part of the log that holds no socket and no buffer release. *)
Definition quiet (evs : list event) : Prop :=
  sockets_created evs = [] /\ sockets_closed evs = [] /\ buffers_freed evs = [].

(** The calls into Winsock. *)
Definition winsock_events (evs : list event) : list event :=
  omap (fun e => match e with
                 | EvInitOnceExecuteOnce | EvWSAStartup _ _ | EvGetAddrInfoW _ _ _
                 | EvFreeAddrInfoW | EvWSAGetLastError _ | EvSocket _ _ _ _
                 | EvBind _ _ _ _ | EvListen _ _ _ | EvClosesocket _ _ => Some e
                 | _ => None
                 end) evs.

(** The states the listener moves between, with the socket absent outside
    [Open]. *)
Definition lifecycle_inv (l : listener) : Prop :=
  (l_state l = WS_LISTENER_STATE_CREATED \/ l_state l = WS_LISTENER_STATE_OPEN \/
   l_state l = WS_LISTENER_STATE_CLOSED) /\
  (l_state l <> WS_LISTENER_STATE_OPEN -> l_socket l = -1).

(** The operations that leave the block allocated: all but free. *)
Definition keeps_block (o : op) : Prop :=
  match o with
  | OpFree => False
  | _ => True
  end.

(** The operations other than close and free. *)
Definition passive (o : op) : Prop :=
  match o with
  | OpOpen _ | OpGetProperty _ _ _ | OpSetProperty _ _ _ => True
  | OpClose | OpFree => False
  end.

(** The wildcard hosts of [parse_url]: the one-character hosts [+] and [*]. *)
Definition wildcard_host (host : WS_STRING) : Prop :=
  host = [chr "+"%char] \/ host = [chr "*"%char].

(** A candidate address [resolve_hostname] accepts. *)
Definition inet_family (i : ADDRINFOW) : Prop :=
  ai_family i = AF_INET \/ ai_family i = AF_INET6.

End MoreVocabulary.

(** Does the decimal text of [n] fit [WCHAR service[6]] with its terminator,
    and is it made of digits; and the same for the [count] numbers from
    [first] on. *)
Definition service_ok (n : Z) : bool :=
  bool_decide (1 <= length (sprintfW_u n) <= 5)%nat &&
  forallb (fun c => bool_decide (chr "0"%char <= c <= chr "9"%char)) (sprintfW_u n).

Fixpoint service_ok_from (first : Z) (count : nat) : bool :=
  match count with
  | O => true
  | S count' => service_ok first && service_ok_from (first + 1) count'
  end.

(** * Theorems *)

Section MonadFacts.
Context `{PropOps} `{Sizes} `{Platform}.

Implicit Types (w : world) (l : listener) (h p : pointer).

(** ** Running the monad *)

Lemma bindM_Some {A B} (m : M A) (k : A -> M B) w a w' :
  m w = Some (a, w') -> bindM m k w = k a w'.
Proof. unfold bindM. intros ->. reflexivity. Qed.

Lemma call_run {A} (f : OS -> A * OS) (ev : A -> event) w :
  call f ev w = Some ((f (os w)).1, with_os (f (os w)).2 [ev (f (os w)).1] w).
Proof. unfold call. destruct (f (os w)). reflexivity. Qed.

Lemma load_run w p l : mem w !! p = Some l -> load p w = Some (l, w).
Proof. unfold load. intros ->. reflexivity. Qed.

Lemma store_run w p l f :
  mem w !! p = Some l -> store p f w = Some (tt, with_mem (<[p := f l]> (mem w)) w).
Proof. unfold store. intros ->. reflexivity. Qed.

Lemma with_mem_id w : with_mem (mem w) w = w.
Proof. destruct w. reflexivity. Qed.

Lemma insert_same (m : gmap N listener) h l l' :
  m !! h = Some l -> l' = l -> <[h := l']> m = m.
Proof. intros Hl ->. by apply insert_id. Qed.

(** Rules for [returns], one per construct of the monad. *)
Lemma returns_Some {A} (r : option (A * world)) Q :
  returns r Q <-> exists a w', r = Some (a, w') /\ Q a w'.
Proof.
  destruct r as [[a w']|]; cbn; split.
  - eauto.
  - intros (? & ? & [= <- <-] & ?). assumption.
  - intros [].
  - intros (? & ? & [=] & _).
Qed.

Lemma returns_mono {A} (r : option (A * world)) (Q Q' : A -> world -> Prop) :
  returns r Q -> (forall a w', Q a w' -> Q' a w') -> returns r Q'.
Proof. destruct r as [[a w']|]; cbn; auto. Qed.

Lemma returns_and {A} (r : option (A * world)) (Q Q' : A -> world -> Prop) :
  returns r Q -> returns r Q' -> returns r (fun a w' => Q a w' /\ Q' a w').
Proof. destruct r as [[a w']|]; cbn; auto. Qed.

Lemma returns_bind {A B} (m : M A) (k : A -> M B) w Q :
  returns (m w) (fun a w1 => returns (k a w1) Q) -> returns (bindM m k w) Q.
Proof. unfold bindM. destruct (m w) as [[a w1]|]; cbn; auto. Qed.

Lemma returns_call {A} (f : OS -> A * OS) (ev : A -> event) w Q :
  Q (f (os w)).1 (with_os (f (os w)).2 [ev (f (os w)).1] w) -> returns (call f ev w) Q.
Proof. rewrite call_run. auto. Qed.

Lemma returns_load w p l Q : mem w !! p = Some l -> Q l w -> returns (load p w) Q.
Proof. intros Hl. rewrite (load_run _ _ _ Hl). auto. Qed.

Lemma returns_store w p l f Q :
  mem w !! p = Some l -> Q tt (with_mem (<[p := f l]> (mem w)) w) -> returns (store p f w) Q.
Proof. intros Hl. rewrite (store_run _ _ _ _ Hl). auto. Qed.

End MonadFacts.

(** ** Constants *)

Lemma LISTENER_MAGIC_nonzero : LISTENER_MAGIC <> 0.
Proof. vm_compute. discriminate. Qed.

Lemma E_NOTIMPL_fails : E_NOTIMPL <> S_OK.
Proof. vm_compute. discriminate. Qed.

Lemma E_OUTOFMEMORY_fails : E_OUTOFMEMORY <> S_OK.
Proof. vm_compute. discriminate. Qed.

Lemma E_INVALIDARG_fails : E_INVALIDARG <> S_OK.
Proof. vm_compute. discriminate. Qed.

Lemma WS_E_INVALID_OPERATION_fails : WS_E_INVALID_OPERATION <> S_OK.
Proof. vm_compute. discriminate. Qed.

Lemma WS_E_ADDRESS_NOT_AVAILABLE_fails : WS_E_ADDRESS_NOT_AVAILABLE <> S_OK.
Proof. vm_compute. discriminate. Qed.

(** ** Symbolic execution

    [run_mem] resolves loads and stores against the known contents;
    [wp_step] takes one step of a computation from its head, and drops the
    branches whose tests contradict each other. *)
Ltac run_simpl :=
  cbn [fst snd];
  repeat first
    [ progress unfold entered
    | progress change (os (with_os ?o ?e ?w)) with o
    | progress change (mem (with_os ?o ?e ?w)) with (mem w)
    | progress change (live (with_os ?o ?e ?w)) with (live w)
    | progress change (trace (with_os ?o ?e ?w)) with (trace w ++ e)
    | progress change (once (with_os ?o ?e ?w)) with (once w)
    | progress change (winsock_loaded (with_os ?o ?e ?w)) with (winsock_loaded w)
    | progress change (os (with_mem ?v ?w)) with (os w)
    | progress change (mem (with_mem ?v ?w)) with v
    | progress change (live (with_mem ?v ?w)) with (live w)
    | progress change (trace (with_mem ?v ?w)) with (trace w)
    | progress change (once (with_mem ?v ?w)) with (once w)
    | progress change (winsock_loaded (with_mem ?v ?w)) with (winsock_loaded w)
    | progress change (os (with_live ?v ?w)) with (os w)
    | progress change (mem (with_live ?v ?w)) with (mem w)
    | progress change (live (with_live ?v ?w)) with v
    | progress change (trace (with_live ?v ?w)) with (trace w)
    | progress change (once (with_live ?v ?w)) with (once w)
    | progress change (winsock_loaded (with_live ?v ?w)) with (winsock_loaded w)
    | progress change (os (with_once ?v ?w)) with (os w)
    | progress change (mem (with_once ?v ?w)) with (mem w)
    | progress change (live (with_once ?v ?w)) with (live w)
    | progress change (trace (with_once ?v ?w)) with (trace w)
    | progress change (once (with_once ?v ?w)) with v
    | progress change (winsock_loaded (with_once ?v ?w)) with (winsock_loaded w)
    | progress change (os (with_winsock_loaded ?v ?w)) with (os w)
    | progress change (mem (with_winsock_loaded ?v ?w)) with (mem w)
    | progress change (live (with_winsock_loaded ?v ?w)) with (live w)
    | progress change (trace (with_winsock_loaded ?v ?w)) with (trace w)
    | progress change (once (with_winsock_loaded ?v ?w)) with (once w)
    | progress change (winsock_loaded (with_winsock_loaded ?v ?w)) with v
    | progress change (with_mem ?m (with_mem ?m' ?w)) with (with_mem m w) ].

Ltac run_mem :=
  run_simpl;
  repeat (first
    [ rewrite lookup_insert_eq
    | rewrite insert_insert_eq
    | rewrite delete_insert_eq
    | rewrite lookup_delete_eq
    | match goal with
      | Hm : mem ?w !! ?p = Some _ |- context [mem ?w !! ?p] => rewrite Hm
      end ]; run_simpl).

(** After the critical section is left, the block holds the count it held
    before. *)
Ltac restore_block Hl :=
  run_mem;
  repeat rewrite (insert_same _ _ _ _ Hl)
    by (match goal with |- _ = ?x => destruct x end; reflexivity).

Ltac run_unfold :=
  unfold close_listener, reset_listener, free_listener, heap_free, heap_free_string,
    DeleteCriticalSection, closesocket,
    WSAGetLastError, socket, bind, listen, load, store, call, bindM, ret;
  run_simpl.

Ltac wp_lookup := run_mem; first [eassumption | reflexivity].

Ltac wp_prune :=
  try solve
    [ contradiction
    | match goal with Hn : ?x <> ?x |- _ => destruct (Hn eq_refl) end
    | match goal with Hn : l_cs _ = 0%nat |- _ => cbn in Hn; discriminate Hn end
    | match goal with Hn : ?a <> ?b, He : _ = ?b |- _ => exact (False_ind _ (Hn He)) end
    | match goal with Hn : ~ (?a <> ?b), He : _ <> ?b |- _ => exact (False_ind _ (Hn He)) end
    | match goal with
      | Hn : ~ (_ <> _) |- _ =>
          exfalso; apply Hn;
          first [ apply E_OUTOFMEMORY_fails | apply WS_E_ADDRESS_NOT_AVAILABLE_fails ]
      end ].

Ltac wp_step :=
  lazymatch goal with
  | |- returns (bindM _ _ _) _ => apply returns_bind
  | |- returns (ret _ _) _ => unfold ret; cbn [returns]
  | |- returns (fault _) _ => exfalso
  | |- returns (Some _) _ => cbn [returns]
  | |- returns (call _ _ _) _ => apply returns_call
  | |- returns (load _ _) _ => eapply returns_load; [wp_lookup|]
  | |- returns (store _ _ _) _ => eapply returns_store; [wp_lookup|]
  | |- returns ((if decide ?P then _ else _) _) _ => destruct (decide P); wp_prune
  | |- returns (if decide ?P then _ else _) _ => destruct (decide P); wp_prune
  | |- returns ((if ?b then _ else _) _) _ => destruct b eqn:?
  | |- returns (if ?b then _ else _) _ => destruct b eqn:?
  | |- returns ((let (_, _) := ?x in _) _) _ => destruct x eqn:?
  | |- returns ((match ?x with Some _ => _ | None => _ end) _) _ => destruct x eqn:?
  | |- returns (match ?x with Some _ => _ | None => _ end) _ => destruct x eqn:?
  | |- returns (?f _ _ _ _ _ _ _) _ => unfold f
  | |- returns (?f _ _ _ _ _ _) _ => unfold f
  | |- returns (?f _ _ _ _ _) _ => unfold f
  | |- returns (?f _ _ _ _) _ => unfold f
  | |- returns (?f _ _ _) _ => unfold f
  | |- returns (?f _ _) _ => unfold f
  | |- returns (?f _) _ => unfold f
  end; cbn beta; run_simpl.

Ltac wp := repeat wp_step.

Section Facts.
Context `{PropOps} `{Sizes} `{Platform}.

Implicit Types (w : world) (l : listener) (h p : pointer).

(** ** The critical section *)

Lemma EnterCriticalSection_run w h l :
  mem w !! h = Some l -> EnterCriticalSection h w = Some (tt, entered h l w).
Proof. intros Hl. unfold EnterCriticalSection. by rewrite (store_run _ _ _ _ Hl). Qed.

Lemma entered_lookup w h l : mem (entered h l w) !! h = Some (set_cs (S (l_cs l)) l).
Proof. unfold entered. run_mem. reflexivity. Qed.

Lemma enter_load {A} w h l (k : listener -> M A) :
  mem w !! h = Some l ->
  bindM (EnterCriticalSection h) (fun _ => bindM (load h) k) w
    = k (set_cs (S (l_cs l)) l) (entered h l w).
Proof.
  intros Hl. rewrite (bindM_Some _ _ _ _ _ (EnterCriticalSection_run _ _ _ Hl)).
  by rewrite (bindM_Some _ _ _ _ _ (load_run _ _ _ (entered_lookup w h l))).
Qed.

Lemma LeaveCriticalSection_run w h l n :
  mem w !! h = Some l -> l_cs l = S n ->
  LeaveCriticalSection h w = Some (tt, with_mem (<[h := set_cs n l]> (mem w)) w).
Proof.
  intros Hl Hn. unfold LeaveCriticalSection.
  rewrite (bindM_Some _ _ _ _ _ (load_run _ _ _ Hl)).
  destruct (decide (l_cs l = 0%nat)) as [Hz|_]; [congruence|].
  rewrite (store_run _ _ _ _ Hl), Hn. reflexivity.
Qed.

(** Entering and leaving with nothing in between leaves the world as it
    was. *)
Lemma leave_entered w h l :
  mem w !! h = Some l -> LeaveCriticalSection h (entered h l w) = Some (tt, w).
Proof.
  intros Hl.
  rewrite (LeaveCriticalSection_run _ _ _ (l_cs l) (entered_lookup w h l) eq_refl).
  unfold entered. run_mem.
  rewrite (insert_same _ _ _ _ Hl) by (destruct l; reflexivity).
  by rewrite with_mem_id.
Qed.

(** ** Closing *)

Lemma close_listener_run w h l :
  mem w !! h = Some l ->
  close_listener h w =
    Some (tt, with_mem (<[h := set_state WS_LISTENER_STATE_CLOSED (set_socket (-1) l)]> (mem w))
                (with_os (os_closesocket (l_socket l) (os w)).2
                         [EvClosesocket (l_socket l) (os_closesocket (l_socket l) (os w)).1] w)).
Proof.
  intros Hl. run_unfold. rewrite Hl.
  destruct (os_closesocket (l_socket l) (os w)) as [r o]. run_mem. reflexivity.
Qed.

Lemma WsCloseListener_run w h l ctx error :
  h <> NULL -> mem w !! h = Some l -> l_magic l = LISTENER_MAGIC ->
  WsCloseListener h ctx error w =
    Some (S_OK,
          with_mem (<[h := set_state WS_LISTENER_STATE_CLOSED (set_socket (-1) l)]> (mem w))
            (with_os (os_closesocket (l_socket l) (os w)).2
                     [EvClosesocket (l_socket l) (os_closesocket (l_socket l) (os w)).1] w)).
Proof.
  intros Hh Hl Hm. unfold WsCloseListener.
  destruct (decide (h = NULL)) as [|_]; [done|].
  rewrite (enter_load _ _ _ _ Hl).
  destruct (decide (l_magic (set_cs (S (l_cs l)) l) <> LISTENER_MAGIC)) as [Hn|_];
    [destruct (Hn Hm)|].
  rewrite (bindM_Some _ _ _ _ _ (close_listener_run _ _ _ (entered_lookup w h l))).
  match goal with
  | |- bindM (LeaveCriticalSection h) _ ?w1 = _ =>
      assert (mem w1 !! h = Some (set_state WS_LISTENER_STATE_CLOSED
                                    (set_socket (-1) (set_cs (S (l_cs l)) l)))) as Hl1
        by (run_mem; reflexivity)
  end.
  rewrite (bindM_Some _ _ _ _ _ (LeaveCriticalSection_run _ _ _ (l_cs l) Hl1 eq_refl)).
  unfold ret, entered. run_mem. reflexivity.
Qed.

(** C3.  On a live listener in any state, any number [S n] of calls of
    [WsCloseListener] in a row all return [S_OK]; the first call hands the
    listener's socket to [closesocket]; afterwards the socket field is the
    absent sentinel [-1], the state is [Closed], and nothing else in the
    listener or the heap has changed.  The result is the same for every
    [n]: closing again changes nothing. *)
Theorem WsCloseListener_always_closes w h l n :
  h <> NULL -> mem w !! h = Some l -> l_magic l = LISTENER_MAGIC ->
  exists w',
    close_n (S n) h w = Some (replicate (S n) S_OK, w') /\
    mem w' = <[h := set_state WS_LISTENER_STATE_CLOSED (set_socket (-1) l)]> (mem w) /\
    live w' = live w /\
    exists r evs, trace w' = trace w ++ EvClosesocket (l_socket l) r :: evs.
Proof.
  intros Hh. revert w l. induction n as [|n IH]; intros w l Hl Hm.
  - eexists. cbn [close_n].
    rewrite (bindM_Some _ _ _ _ _ (WsCloseListener_run _ _ _ NULL NULL Hh Hl Hm)).
    unfold bindM, ret. split; [reflexivity|]. run_simpl.
    repeat split. eexists _, []. reflexivity.
  - pose proof (WsCloseListener_run _ _ _ NULL NULL Hh Hl Hm) as Hrun.
    set (w1 := with_mem _ _) in Hrun.
    destruct (IH w1 (set_state WS_LISTENER_STATE_CLOSED (set_socket (-1) l)))
      as (w' & Hn & Hmem & Hlive & r & evs & Htr).
    { subst w1. run_mem. reflexivity. }
    { exact Hm. }
    exists w'. change (close_n (S (S n)) h) with
      (bindM (WsCloseListener h NULL NULL) (fun hr =>
       bindM (close_n (S n) h) (fun hrs => ret (hr :: hrs)))).
    rewrite (bindM_Some _ _ _ _ _ Hrun), (bindM_Some _ _ _ _ _ Hn).
    split; [reflexivity|]. split; [|split].
    + rewrite Hmem. subst w1. run_simpl. rewrite insert_insert_eq. reflexivity.
    + rewrite Hlive. reflexivity.
    + rewrite Htr. subst w1. run_simpl. rewrite <- app_assoc. eauto.
Qed.

(** ** Reading properties *)

(** C10.  On a live listener, reading the state, the channel type or the
    channel binding with a null buffer, or with a size other than that of
    the field, returns [E_INVALIDARG], stores nothing through the buffer and
    leaves the world as it was. *)
Theorem WsGetListenerProperty_null_buffer w h l id buf size error :
  h <> NULL -> mem w !! h = Some l -> l_magic l = LISTENER_MAGIC ->
  id = WS_LISTENER_PROPERTY_STATE \/ id = WS_LISTENER_PROPERTY_CHANNEL_TYPE \/
    id = WS_LISTENER_PROPERTY_CHANNEL_BINDING ->
  buf = NULL \/ size <> sizeof_enum ->
  WsGetListenerProperty h id buf size error w = Some ((E_INVALIDARG, None), w).
Proof.
  intros Hh Hl Hm Hid Hbad.
  assert (bool_decide (buf = NULL) || bool_decide (size <> sizeof_enum) = true) as Hb.
  { destruct Hbad as [->| Hs].
    - reflexivity.
    - rewrite (bool_decide_eq_true_2 _ Hs). apply orb_true_r. }
  unfold WsGetListenerProperty.
  destruct (decide (h = NULL)) as [|_]; [done|].
  rewrite (enter_load _ _ _ _ Hl).
  destruct (decide (l_magic (set_cs (S (l_cs l)) l) <> LISTENER_MAGIC)) as [Hn|_];
    [destruct (Hn Hm)|].
  cbv zeta. rewrite (bindM_Some _ _ _ _ _ (leave_entered _ _ _ Hl)).
  destruct Hid as [-> | [-> | ->]]; cbn [decide]; rewrite Hb.
  all: reflexivity.
Qed.

(** The same reads with a buffer of the right size succeed and store the
    field. *)
Lemma WsGetListenerProperty_state w h l buf error :
  h <> NULL -> mem w !! h = Some l -> l_magic l = LISTENER_MAGIC -> buf <> NULL ->
  WsGetListenerProperty h WS_LISTENER_PROPERTY_STATE buf sizeof_enum error w =
    Some ((S_OK, Some (OutState (l_state l))), w).
Proof.
  intros Hh Hl Hm Hbuf. unfold WsGetListenerProperty.
  destruct (decide (h = NULL)) as [|_]; [done|].
  rewrite (enter_load _ _ _ _ Hl).
  destruct (decide (l_magic (set_cs (S (l_cs l)) l) <> LISTENER_MAGIC)) as [Hn|_];
    [destruct (Hn Hm)|].
  cbv zeta. rewrite (bindM_Some _ _ _ _ _ (leave_entered _ _ _ Hl)).
  cbn [decide]. rewrite (bool_decide_eq_false_2 _ Hbuf). reflexivity.
Qed.

(** ** Freeing *)

(** [WsFreeListener] on a live listener: the socket field goes to
    [closesocket], and the block is released. *)
Lemma WsFreeListener_run w h l :
  h <> NULL -> mem w !! h = Some l -> l_magic l = LISTENER_MAGIC ->
  returns (WsFreeListener h w) (fun _ w1 =>
    mem w1 = delete h (mem w) /\ live w1 = live w ∖ {[h]} /\
    once w1 = once w /\ winsock_loaded w1 = winsock_loaded w /\
    trace w1 = trace w ++
      [EvClosesocket (l_socket l) (os_closesocket (l_socket l) (os w)).1; EvHeapFree h]).
Proof.
  intros Hh Hl Hm. unfold WsFreeListener.
  destruct (decide (h = NULL)) as [|_]; [done|].
  wp. run_mem. rewrite <- app_assoc. auto.
Qed.

(** ** Construction *)

Lemma set_prop_same l : set_prop (l_prop l) l = l.
Proof. destruct l. reflexivity. Qed.

(** The loop when every override succeeds: the table ends as the overrides
    applied in order, and nothing else changes. *)
Lemma create_listener_loop_ok a properties :
  forall w l tbl,
    mem w !! a = Some l ->
    overrides_applied (l_prop_count l) (l_prop l) properties tbl ->
    create_listener_loop a properties w =
      Some (S_OK, with_mem (<[a := set_prop tbl l]> (mem w)) w).
Proof.
  induction properties as [|q rest IH]; intros w l tbl Hl Happ; inversion Happ; subst.
  - cbn. rewrite set_prop_same, (insert_id _ _ _ Hl), with_mem_id. reflexivity.
  - cbn [create_listener_loop].
    rewrite (bindM_Some _ _ _ _ _ (load_run _ _ _ Hl)).
    match goal with Hset : prop_set _ _ _ _ _ = _ |- _ => rewrite Hset end.
    rewrite (bindM_Some _ _ _ _ _ (store_run _ _ _ _ Hl)).
    destruct (decide (S_OK <> S_OK)) as [|_]; [done|].
    erewrite IH; [| run_mem; reflexivity | eassumption].
    run_simpl. rewrite insert_insert_eq. reflexivity.
Qed.

(** The loop when an override fails after a prefix of successes: its error
    is the result, the listener is reset and released, and the overrides
    after it are not looked at. *)
Lemma create_listener_loop_fail a pre bad post hr tbl' :
  forall w l tbl,
    mem w !! a = Some l ->
    overrides_applied (l_prop_count l) (l_prop l) pre tbl ->
    prop_set tbl (l_prop_count l) (prop_id bad) (prop_value bad) (prop_valueSize bad)
      = (hr, tbl') ->
    hr <> S_OK ->
    returns (create_listener_loop a (pre ++ bad :: post) w) (fun r w' =>
      r = hr /\
      live w' = live w ∖ {[a]} /\
      exists r1, trace w' = trace w ++ [EvClosesocket (l_socket l) r1; EvHeapFree a]).
Proof.
  induction pre as [|q pre IH]; intros w l tbl Hl Happ Hset Hhr; inversion Happ; subst.
  - cbn [app create_listener_loop]. wp_step. wp_step. rewrite Hset.
    wp_step. wp_step. wp_step. wp. run_simpl.
    split; [reflexivity|]. split; [reflexivity|].
    eexists. rewrite <- app_assoc. reflexivity.
  - cbn [app create_listener_loop]. wp_step. wp_step.
    match goal with Hq : prop_set _ _ _ _ _ = (S_OK, _) |- _ => rewrite Hq end.
    wp_step. wp_step. wp_step.
    eapply returns_mono.
    + eapply IH; [run_mem; reflexivity | eassumption | eassumption | assumption].
    + intros r w' (-> & Hlive & r1 & Htr). eauto.
Qed.

Lemma alloc_listener_ok w a :
  (os_heap_alloc_zero alloc_size (os w)).1 = a -> a <> NULL ->
  returns (alloc_listener w) (fun r w' =>
    r = a /\ mem w' = <[a := fresh_listener]> (mem w) /\
    live w' = {[a]} ∪ live w /\
    trace w' = trace w ++ [EvHeapAllocZero alloc_size a]).
Proof.
  intros Ha Hnull. unfold alloc_listener, alloc_size in *. cbv zeta.
  do 4 wp_step. rewrite Ha.
  wp; try done. run_mem. auto.
Qed.

Lemma alloc_listener_null w :
  (os_heap_alloc_zero alloc_size (os w)).1 = NULL ->
  returns (alloc_listener w) (fun r w' =>
    r = NULL /\ mem w' = mem w /\ live w' = live w).
Proof.
  intros Ha. unfold alloc_listener, alloc_size in *. cbv zeta.
  do 4 wp_step. rewrite Ha.
  wp; try done.
Qed.


Lemma create_listener_ok w a type binding properties tbl :
  (os_heap_alloc_zero alloc_size (os w)).1 = a -> a <> NULL ->
  overrides_applied (l_prop_count fresh_listener) (l_prop fresh_listener) properties tbl ->
  returns (create_listener type binding properties w) (fun r w' =>
    r = (S_OK, Some a) /\
    mem w' = <[a := set_socket (-1) (set_binding binding (set_type type
                      (set_prop tbl fresh_listener)))]> (mem w) /\
    live w' = {[a]} ∪ live w /\
    trace w' = trace w ++ [EvHeapAllocZero alloc_size a]).
Proof.
  intros Ha Hnull Happ. unfold create_listener. wp_step.
  eapply returns_mono; [apply (alloc_listener_ok _ _ Ha Hnull)|].
  intros r w1 (-> & Hmem & Hlive & Htr). cbn beta.
  wp_step. wp_step.
  assert (mem w1 !! a = Some fresh_listener) as Hl
    by (rewrite Hmem; apply lookup_insert_eq).
  rewrite (create_listener_loop_ok _ _ _ _ _ Hl Happ). cbn [returns].
  wp_step. wp. run_mem. rewrite Hmem, insert_insert_eq. auto.
Qed.

Lemma create_listener_fail w a type binding pre bad post tbl hr tbl' :
  (os_heap_alloc_zero alloc_size (os w)).1 = a -> a <> NULL ->
  overrides_applied (l_prop_count fresh_listener) (l_prop fresh_listener) pre tbl ->
  prop_set tbl (l_prop_count fresh_listener)
    (prop_id bad) (prop_value bad) (prop_valueSize bad) = (hr, tbl') ->
  hr <> S_OK ->
  returns (create_listener type binding (pre ++ bad :: post) w) (fun r w' =>
    r = (hr, None) /\
    live w' = live w ∖ {[a]} /\
    exists r1, trace w' = trace w ++
      [EvHeapAllocZero alloc_size a; EvClosesocket 0 r1; EvHeapFree a]).
Proof.
  intros Ha Hnull Happ Hset Hhr. unfold create_listener. wp_step.
  eapply returns_mono; [apply (alloc_listener_ok _ _ Ha Hnull)|].
  intros r w1 (-> & Hmem & Hlive & Htr). cbn beta.
  wp_step. wp_step.
  assert (mem w1 !! a = Some fresh_listener) as Hl
    by (rewrite Hmem; apply lookup_insert_eq).
  eapply returns_mono;
    [apply (create_listener_loop_fail _ _ _ post _ _ _ _ _ Hl Happ Hset Hhr)|].
  intros r w' (-> & Hlive' & r1 & Htr'). cbn beta.
  wp_step. wp. split; [reflexivity|]. split.
  - rewrite Hlive', Hlive. set_solver.
  - exists r1. rewrite Htr', Htr, <- app_assoc. reflexivity.
Qed.

(** C7.  Let the allocator hand out the block [a].  When the overrides
    [pre] succeed one after the other, starting from the default table, and
    the next override [bad] then fails with [hr], [create_listener] on
    [pre ++ bad :: post] returns [hr], stores no listener through [ret], and
    has released the block again: [a] is not live, and the log shows the
    allocation followed by the reset and the release of the same block.
    The overrides [post] do not matter.  When all overrides succeed in
    order, the result is a listener whose table is the outcome of applying
    them in that order. *)
Theorem create_listener_first_failing_override w a type binding :
  (os_heap_alloc_zero alloc_size (os w)).1 = a -> a <> NULL ->
  (forall pre bad post tbl hr tbl',
     overrides_applied (l_prop_count fresh_listener) (l_prop fresh_listener) pre tbl ->
     prop_set tbl (l_prop_count fresh_listener)
       (prop_id bad) (prop_value bad) (prop_valueSize bad) = (hr, tbl') ->
     hr <> S_OK ->
     returns (create_listener type binding (pre ++ bad :: post) w) (fun r w' =>
       r = (hr, None) /\
       (a ∉ live w') /\
       live w' = live w ∖ {[a]} /\
       exists r1, trace w' = trace w ++
         [EvHeapAllocZero alloc_size a; EvClosesocket 0 r1; EvHeapFree a])) /\
  (forall properties tbl,
     overrides_applied (l_prop_count fresh_listener) (l_prop fresh_listener) properties tbl ->
     returns (create_listener type binding properties w) (fun r w' =>
       r = (S_OK, Some a) /\
       mem w' !! a = Some (set_socket (-1) (set_binding binding (set_type type
                              (set_prop tbl fresh_listener)))) /\
       a ∈ live w')).
Proof.
  intros Ha Hnull. split.
  - intros pre bad post tbl hr tbl' Happ Hset Hhr.
    eapply returns_mono; [apply (create_listener_fail _ _ _ _ _ _ post _ _ _ Ha Hnull Happ Hset Hhr)|].
    intros r w' (-> & Hlive & Htr). cbn beta.
    split; [reflexivity|]. split; [rewrite Hlive; set_solver|]. auto.
  - intros properties tbl Happ.
    eapply returns_mono; [apply (create_listener_ok _ _ type binding _ _ Ha Hnull Happ)|].
    intros r w' (-> & Hmem & Hlive & _). cbn beta.
    split; [reflexivity|]. split; [rewrite Hmem; apply lookup_insert_eq|].
    rewrite Hlive. set_solver.
Qed.

(** C8.  With an output slot to store the handle in: for every channel type
    and binding other than duplex-session over TCP, [WsCreateListener]
    returns [E_NOTIMPL], which is a failure, stores no handle, allocates
    nothing and leaves the world as it was; a call that succeeds had exactly
    that combination; and with that combination, no overrides and an
    allocator that hands out a block, the call succeeds and stores the
    handle of a listener in state [Created] without a socket. *)
Theorem WsCreateListener_accepts_only_duplex_session_over_tcp
    w type binding properties desc handle error :
  handle <> NULL ->
  (type <> WS_CHANNEL_TYPE_DUPLEX_SESSION \/ binding <> WS_TCP_CHANNEL_BINDING ->
   WsCreateListener type binding properties desc handle error w = Some ((E_NOTIMPL, None), w)
   /\ E_NOTIMPL <> S_OK) /\
  (forall out w',
     WsCreateListener type binding properties desc handle error w = Some ((S_OK, out), w') ->
     type = WS_CHANNEL_TYPE_DUPLEX_SESSION /\ binding = WS_TCP_CHANNEL_BINDING) /\
  (forall a,
     (os_heap_alloc_zero alloc_size (os w)).1 = a -> a <> NULL ->
     returns (WsCreateListener WS_CHANNEL_TYPE_DUPLEX_SESSION WS_TCP_CHANNEL_BINDING []
                desc handle error w) (fun r w' =>
       r = (S_OK, Some a) /\ a ∈ live w' /\
       exists l, mem w' !! a = Some l /\
         l_magic l = LISTENER_MAGIC /\
         l_type l = WS_CHANNEL_TYPE_DUPLEX_SESSION /\
         l_binding l = WS_TCP_CHANNEL_BINDING /\
         l_state l = WS_LISTENER_STATE_CREATED /\
         l_socket l = -1)).
Proof.
  intros Hh. unfold WsCreateListener.
  destruct (decide (handle = NULL)) as [|_]; [done|]. split; [|split].
  - intros Hbad. split; [|apply E_NOTIMPL_fails].
    destruct (decide (type <> WS_CHANNEL_TYPE_DUPLEX_SESSION)); [reflexivity|].
    destruct (decide (binding <> WS_TCP_CHANNEL_BINDING)); [reflexivity|].
    destruct Hbad; done.
  - intros out w' Hrun. pose proof E_NOTIMPL_fails.
    destruct (decide (type <> WS_CHANNEL_TYPE_DUPLEX_SESSION)) as [|Ht];
      [unfold ret in Hrun; congruence|].
    destruct (decide (binding <> WS_TCP_CHANNEL_BINDING)) as [|Hb];
      [unfold ret in Hrun; congruence|].
    split; [destruct (decide (type = WS_CHANNEL_TYPE_DUPLEX_SESSION)) |
            destruct (decide (binding = WS_TCP_CHANNEL_BINDING))]; done.
  - intros a Ha Hnull.
    destruct (decide (WS_CHANNEL_TYPE_DUPLEX_SESSION <> WS_CHANNEL_TYPE_DUPLEX_SESSION));
      [done|].
    destruct (decide (WS_TCP_CHANNEL_BINDING <> WS_TCP_CHANNEL_BINDING)); [done|].
    wp_step. eapply returns_mono.
    { eapply (create_listener_ok _ _ _ _ []); [exact Ha | exact Hnull | constructor]. }
    intros r w' (-> & Hmem & Hlive & _). cbn beta. wp; try done.
    split; [reflexivity|]. split; [rewrite Hlive; set_solver|].
    eexists. split; [rewrite Hmem; apply lookup_insert_eq|]. cbn. auto.
Qed.


(** ** Address resolution *)

Lemma skip_other_families_first pre info post :
  Forall other_family pre ->
  ai_family info = AF_INET \/ ai_family info = AF_INET6 ->
  skip_other_families (pre ++ info :: post) = Some info.
Proof.
  intros Hpre Hinfo. induction Hpre as [|i pre [H4 H6] _ IH]; cbn [app skip_other_families].
  - destruct Hinfo as [Hi|Hi].
    + rewrite (bool_decide_eq_false_2 (ai_family info <> AF_INET)); [reflexivity | tauto].
    + rewrite (bool_decide_eq_false_2 (ai_family info <> AF_INET6)); [|tauto].
      rewrite andb_false_r. reflexivity.
  - rewrite (bool_decide_eq_true_2 _ H4), (bool_decide_eq_true_2 _ H6). exact IH.
Qed.

Lemma skip_other_families_none res :
  Forall other_family res -> skip_other_families res = None.
Proof.
  induction 1 as [|i res [H4 H6] _ IH]; cbn [skip_other_families]; [reflexivity|].
  rewrite (bool_decide_eq_true_2 _ H4), (bool_decide_eq_true_2 _ H6). exact IH.
Qed.

(** C6.  [resolve_hostname] asks the platform for the candidates of [host]
    and the port written in decimal.  When the lookup fails, the result is
    the last-error code of the network subsystem, read right after the
    lookup and translated by [HRESULT_FROM_WIN32].  When it succeeds, the
    candidates are scanned in the order returned: the first whose family is
    [AF_INET] or [AF_INET6] is copied to the output address, with its length,
    candidates of other families before it being skipped; when no candidate
    has such a family the result is [WS_E_ADDRESS_NOT_AVAILABLE].  This holds
    for every host, the named ones ([Some name]) in particular. *)
Theorem resolve_hostname_first_inet_candidate w host port addr :
  let lookup := os_GetAddrInfoW host (sprintfW_u port) (os w) in
  (lookup.1.1 <> 0 ->
   returns (resolve_hostname host port addr w) (fun out _ =>
     out = (HRESULT_FROM_WIN32 (os_WSAGetLastError lookup.2).1, addr, 0))) /\
  (lookup.1.1 = 0 ->
   forall pre info post,
     lookup.1.2 = pre ++ info :: post ->
     Forall other_family pre ->
     ai_family info = AF_INET \/ ai_family info = AF_INET6 ->
     returns (resolve_hostname host port addr w) (fun out _ =>
       out = (S_OK, memcpy addr (ai_addr info) (ai_addrlen info), ai_addrlen info))) /\
  (lookup.1.1 = 0 ->
   Forall other_family lookup.1.2 ->
   returns (resolve_hostname host port addr w) (fun out _ =>
     out = (WS_E_ADDRESS_NOT_AVAILABLE, addr, 0))).
Proof.
  intros lookup. unfold resolve_hostname. cbv zeta. split; [|split].
  - intros Hfail. do 3 wp_step. fold lookup.
    destruct lookup.1 as [r res] eqn:Hr. cbn [fst snd] in *.
    wp_step. wp. reflexivity.
  - intros Hok pre info post Hres Hpre Hinfo. do 3 wp_step. fold lookup.
    destruct lookup.1 as [r res] eqn:Hr. cbn [fst snd] in *. subst r res.
    wp_step. rewrite (skip_other_families_first _ _ _ Hpre Hinfo).
    wp. reflexivity.
  - intros Hok Hnone. do 3 wp_step. fold lookup.
    destruct lookup.1 as [r res] eqn:Hr. cbn [fst snd] in *. subst r.
    wp_step. rewrite (skip_other_families_none _ Hnone).
    wp. reflexivity.
Qed.



(** ** Opening *)

(** The parts of [open_listener] that only talk to the platform: each
    leaves the listeners alone and adds its own steps to the log. *)
Lemma parse_url_spec url w :
  returns (parse_url url w) (fun r w1 =>
    mem w1 = mem w /\ live w1 = live w /\
    exists evs, trace w1 = trace w ++ evs /\
      steps evs `prefix_of` [StepDecodeUrl url] /\
      (r.1.1 = S_OK -> steps evs = [StepDecodeUrl url])).
Proof.
  unfold parse_url. wp; run_simpl.
  all: split; [reflexivity|]; split; [reflexivity|].
  all: eexists; split; [rewrite <- ?app_assoc; reflexivity|]; cbn.
  all: split; [by (eexists; reflexivity) | intros; first [done | reflexivity]].
Qed.

Lemma winsock_init_spec w :
  returns (winsock_init w) (fun _ w1 =>
    mem w1 = mem w /\ live w1 = live w /\
    exists evs, trace w1 = trace w ++ evs /\ steps evs = [StepBootstrap]).
Proof.
  unfold winsock_init, InitOnceExecuteOnce. wp; run_simpl.
  all: split; [reflexivity|]; split; [reflexivity|].
  all: eexists; split; [rewrite <- ?app_assoc; reflexivity|]; reflexivity.
Qed.

Lemma resolve_hostname_spec host port addr w :
  returns (resolve_hostname host port addr w) (fun _ w1 =>
    mem w1 = mem w /\ live w1 = live w /\
    exists evs, trace w1 = trace w ++ evs /\ steps evs = [StepResolve]).
Proof.
  unfold resolve_hostname. cbv zeta. wp; run_simpl.
  all: split; [reflexivity|]; split; [reflexivity|].
  all: eexists; split; [rewrite <- ?app_assoc; reflexivity|]; reflexivity.
Qed.

Lemma heap_free_string_spec p w :
  returns (heap_free_string p w) (fun _ w1 =>
    mem w1 = mem w /\ live w1 = live w /\
    trace w1 = trace w ++ [EvHeapFree p]).
Proof. unfold heap_free_string. wp; run_simpl. auto. Qed.


Lemma steps_app evs1 evs2 : steps (evs1 ++ evs2) = steps evs1 ++ steps evs2.
Proof. apply omap_app. Qed.

(** What a call of [open_listener] comes to, whatever the platform does:
    either every step succeeded, the listener holds the new socket and is
    [Open], and the steps were taken in [open_order]; or the steps taken are
    a beginning of that order and the listener keeps its state, untouched
    when the run stopped before the socket was created, and with the absent
    socket [-1] when it stopped later. *)
Lemma open_listener_outcome w h l url :
  mem w !! h = Some l ->
  returns (open_listener h url w) (fun hr w' =>
    live w' ⊆ live w /\
    exists evs, trace w' = trace w ++ evs /\
      ((hr = S_OK /\
        exists s addr, s <> -1 /\
          mem w' = <[h := set_state WS_LISTENER_STATE_OPEN (set_socket s l)]> (mem w) /\
          steps evs = open_order url addr)
       \/
       ((winsock_reports_errors -> hr <> S_OK) /\
        ((mem w' = mem w /\
          steps evs `prefix_of` [StepDecodeUrl url; StepBootstrap; StepResolve])
         \/ mem w' = <[h := set_socket (-1) l]> (mem w)) /\
        exists addr, steps evs `prefix_of` open_order url addr))).
Proof.
  intros Hl. unfold open_listener. do 4 wp_step.
  eapply returns_mono; [apply parse_url_spec|].
  intros [[hr host] port] w1 (Hmem1 & Hlive1 & evs1 & Htr1 & Hpre1 & Hfull1).
  cbn beta iota. cbn [fst snd] in Hfull1. wp_step.
  { (* the URL was not decoded *)
    cbn [returns]. split; [rewrite Hlive1; reflexivity|].
    exists evs1. split; [assumption|]. right.
    split; [auto|]. split.
    - left. split; [assumption|]. etrans; [exact Hpre1|]. by eexists.
    - exists []. etrans; [exact Hpre1|]. by eexists. }
  assert (hr = S_OK) as -> by lia. specialize (Hfull1 eq_refl).
  wp_step. eapply returns_mono; [apply winsock_init_spec|].
  intros _ w2 (Hmem2 & Hlive2 & evs2 & Htr2 & Hst2). cbn beta.
  wp_step. eapply returns_mono; [apply resolve_hostname_spec|].
  intros [[hr addr] addr_len] w3 (Hmem3 & Hlive3 & evs3 & Htr3 & Hst3). cbn beta iota.
  wp_step. eapply returns_mono; [apply heap_free_string_spec|].
  intros _ w4 (Hmem4 & Hlive4 & Htr4). cbn beta.
  assert (live w4 ⊆ live w) as Hlive.
  { rewrite Hlive4, Hlive3, Hlive2, Hlive1. set_solver. }
  assert (mem w4 !! h = Some l) as Hl4 by (rewrite Hmem4, Hmem3, Hmem2, Hmem1; exact Hl).
  assert (forall tail, trace w4 ++ tail =
            trace w ++ evs1 ++ evs2 ++ evs3 ++ EvHeapFree host.1 :: tail) as Htr.
  { intros tail. rewrite Htr4, Htr3, Htr2, Htr1, <- !app_assoc. reflexivity. }
  assert (forall tail, steps (evs1 ++ evs2 ++ evs3 ++ EvHeapFree host.1 :: tail) =
            StepDecodeUrl url :: StepBootstrap :: StepResolve :: steps tail) as Hst.
  { intros tail. rewrite !steps_app, Hfull1, Hst2, Hst3. reflexivity. }
  wp_step.
  { (* no usable address *)
    cbn [returns]. split; [assumption|].
    eexists. split; [rewrite <- (app_nil_r (trace w4)); apply Htr|]. right.
    split; [auto|]. rewrite Hst. split.
    - left. split; [congruence|]. reflexivity.
    - exists []. by eexists. }
  wp; run_mem.
  all: split; [assumption|].
  all: eexists; (split; [rewrite <- ?app_assoc; apply Htr|]); rewrite Hst; cbn.
  all: rewrite ?Hmem4, ?Hmem3, ?Hmem2, ?Hmem1.
  - (* socket() failed *)
    right. split; [intros Hc; by apply (socket_error Hc)|].
    split; [right; congruence|]. exists addr. by eexists.
  - (* bind() failed *)
    right. split; [intros Hc; by apply (bind_error Hc)|].
    split; [right; reflexivity|]. exists addr. by eexists.
  - (* listen() failed *)
    right. split; [intros Hc; by apply (listen_error Hc)|].
    split; [right; reflexivity|]. exists addr. by eexists.
  - (* the listener is open *)
    left. split; [reflexivity|]. eexists _, addr.
    split; [eassumption|]. split; reflexivity.
Qed.

(** [WsOpenListener] on a live listener in state [Created] is
    [open_listener] inside the critical section. *)
Lemma WsOpenListener_created w h l url ctx error Q :
  h <> NULL -> mem w !! h = Some l -> l_magic l = LISTENER_MAGIC ->
  l_state l = WS_LISTENER_STATE_CREATED ->
  returns (open_listener h url (entered h l w)) (fun hr w1 =>
    returns (LeaveCriticalSection h w1) (fun _ w' => Q hr w')) ->
  returns (WsOpenListener h (Some url) ctx error w) Q.
Proof.
  intros Hh Hl Hm Hs Hrun. unfold WsOpenListener.
  destruct (decide (h = NULL)) as [|_]; [done|].
  rewrite (enter_load _ _ _ _ Hl).
  destruct (decide (l_magic (set_cs (S (l_cs l)) l) <> LISTENER_MAGIC)) as [Hn|_];
    [destruct (Hn Hm)|].
  destruct (decide (l_state (set_cs (S (l_cs l)) l) <> WS_LISTENER_STATE_CREATED))
    as [Hn|_]; [destruct (Hn Hs)|].
  apply returns_bind. eapply returns_mono; [exact Hrun|].
  intros hr w1 Hleave. cbn beta. apply returns_bind.
  eapply returns_mono; [exact Hleave|]. intros [] w' HQ. exact HQ.
Qed.

Lemma WsOpenListener_not_created w h l url ctx error :
  h <> NULL -> mem w !! h = Some l -> l_magic l = LISTENER_MAGIC ->
  l_state l <> WS_LISTENER_STATE_CREATED ->
  WsOpenListener h (Some url) ctx error w = Some (WS_E_INVALID_OPERATION, w).
Proof.
  intros Hh Hl Hm Hs. unfold WsOpenListener.
  destruct (decide (h = NULL)) as [|_]; [done|].
  rewrite (enter_load _ _ _ _ Hl).
  destruct (decide (l_magic (set_cs (S (l_cs l)) l) <> LISTENER_MAGIC)) as [Hn|_];
    [destruct (Hn Hm)|].
  destruct (decide (l_state (set_cs (S (l_cs l)) l) <> WS_LISTENER_STATE_CREATED))
    as [_|Hn]; [|destruct (Hn Hs)].
  by rewrite (bindM_Some _ _ _ _ _ (leave_entered _ _ _ Hl)).
Qed.

(** Leaving the critical section after the body has run: what is left of
    the block is the body's work. *)
Lemma leave_after w h l (f : listener -> listener) w1 (Q : world -> Prop) :
  mem w !! h = Some l ->
  mem w1 = <[h := f (set_cs (S (l_cs l)) l)]> (mem (entered h l w)) ->
  l_cs (f (set_cs (S (l_cs l)) l)) = S (l_cs l) ->
  Q (with_mem (<[h := set_cs (l_cs l) (f (set_cs (S (l_cs l)) l))]> (mem w)) w1) ->
  returns (LeaveCriticalSection h w1) (fun _ w' => Q w').
Proof.
  intros Hl Hmem Hcs HQ.
  assert (mem w1 !! h = Some (f (set_cs (S (l_cs l)) l))) as Hl1
    by (rewrite Hmem; apply lookup_insert_eq).
  rewrite (LeaveCriticalSection_run _ _ _ _ Hl1 Hcs). cbn [returns].
  rewrite Hmem. unfold entered. run_mem. exact HQ.
Qed.

Lemma leave_untouched w h l w1 (Q : world -> Prop) :
  mem w !! h = Some l ->
  mem w1 = mem (entered h l w) ->
  Q (with_mem (mem w) w1) ->
  returns (LeaveCriticalSection h w1) (fun _ w' => Q w').
Proof.
  intros Hl Hmem HQ.
  assert (mem w1 !! h = Some (set_cs (S (l_cs l)) l)) as Hl1
    by (rewrite Hmem; apply entered_lookup).
  rewrite (LeaveCriticalSection_run _ _ _ (l_cs l) Hl1 eq_refl). cbn [returns].
  rewrite Hmem. unfold entered. run_mem.
  rewrite (insert_same _ _ _ _ Hl) by (destruct l; reflexivity). exact HQ.
Qed.

(** What a call of [WsOpenListener] on a live [Created] listener comes to:
    the outcome of [open_listener], seen from outside the critical
    section. *)
Lemma WsOpenListener_outcome w h l url ctx error :
  h <> NULL -> mem w !! h = Some l -> l_magic l = LISTENER_MAGIC ->
  l_state l = WS_LISTENER_STATE_CREATED ->
  returns (WsOpenListener h (Some url) ctx error w) (fun hr w' =>
    live w' ⊆ live w /\
    exists evs, trace w' = trace w ++ evs /\
      ((hr = S_OK /\
        exists s addr, s <> -1 /\
          mem w' = <[h := set_state WS_LISTENER_STATE_OPEN (set_socket s l)]> (mem w) /\
          steps evs = open_order url addr)
       \/
       ((winsock_reports_errors -> hr <> S_OK) /\
        ((mem w' = mem w /\
          steps evs `prefix_of` [StepDecodeUrl url; StepBootstrap; StepResolve])
         \/ mem w' = <[h := set_socket (-1) l]> (mem w)) /\
        exists addr, steps evs `prefix_of` open_order url addr))).
Proof.
  intros Hh Hl Hm Hs. apply (WsOpenListener_created _ _ l); try assumption.
  eapply returns_mono;
    [apply (open_listener_outcome _ _ _ url (entered_lookup w h l))|].
  intros hr w1 (Hlive & evs & Htr & Hcases). cbn beta.
  destruct Hcases as [(-> & s & addr & Hsne & Hmem & Hst) | (Hhr & Hmem & Hpre)].
  - apply (leave_after w h l
             (fun l0 => set_state WS_LISTENER_STATE_OPEN (set_socket s l0)) w1);
      [assumption | exact Hmem | reflexivity |].
    run_simpl. split; [exact Hlive|]. exists evs. split; [exact Htr|]. left.
    split; [reflexivity|]. exists s, addr. auto.
  - destruct Hmem as [[Hmem Hpre3]|Hmem].
    + apply (leave_untouched w h l w1); [assumption | exact Hmem |].
      run_simpl. split; [exact Hlive|]. exists evs. split; [exact Htr|]. right. auto.
    + apply (leave_after w h l (fun l0 => set_socket (-1) l0) w1);
        [assumption | exact Hmem | reflexivity |].
      run_simpl. split; [exact Hlive|]. exists evs. split; [exact Htr|]. right. auto.
Qed.

(** The three parts of [open_listener] that only talk to the platform
    always return, and leave the listeners and the heap alone; decoding the
    URL also leaves the bootstrap as it is. *)
Lemma parse_url_runs url w :
  exists r w1, parse_url url w = Some (r, w1) /\
    mem w1 = mem w /\ live w1 = live w /\
    once w1 = once w /\ winsock_loaded w1 = winsock_loaded w /\
    exists evs, trace w1 = trace w ++ evs /\ steps evs `prefix_of` [StepDecodeUrl url].
Proof.
  apply returns_Some. unfold parse_url. wp; run_simpl.
  all: do 4 (split; [reflexivity|]).
  all: eexists; split; [rewrite <- ?app_assoc; reflexivity|]; cbn.
  all: by (eexists; reflexivity).
Qed.

Lemma winsock_init_runs w :
  exists w1, winsock_init w = Some (tt, w1) /\ mem w1 = mem w /\ live w1 = live w.
Proof.
  assert (returns (winsock_init w) (fun _ w1 => mem w1 = mem w /\ live w1 = live w)) as Hr.
  { unfold winsock_init, InitOnceExecuteOnce. wp; run_simpl; auto. }
  apply returns_Some in Hr as ([] & w1 & Hrun & Hmem & Hlive). eauto.
Qed.

Lemma resolve_hostname_runs host port addr w :
  exists r w1, resolve_hostname host port addr w = Some (r, w1) /\
    mem w1 = mem w /\ live w1 = live w.
Proof.
  apply returns_Some. unfold resolve_hostname. cbv zeta. wp; run_simpl; auto.
Qed.

(** The whole run of [WsOpenListener] on a live listener in state
    [Created], part by part. *)
Lemma WsOpenListener_run w h l url ctx error :
  h <> NULL -> mem w !! h = Some l -> l_magic l = LISTENER_MAGIC ->
  l_state l = WS_LISTENER_STATE_CREATED ->
  exists hr1 host port w1,
    parse_url url (entered h l w) = Some ((hr1, host, port), w1) /\
    returns (WsOpenListener h (Some url) ctx error w) (fun hr w' =>
      (hr1 <> S_OK /\ hr = hr1 /\ w' = with_mem (mem w) w1)
      \/
      (hr1 = S_OK /\
       exists w2 hr3 addr len w3,
         winsock_init w1 = Some (tt, w2) /\
         resolve_hostname (if decide (host.1 = NULL) then None else Some host.2) port
           (os_stack_sockaddr_storage (os w)) w2 = Some ((hr3, addr, len), w3) /\
         exists tail l',
           trace w' = trace w3 ++ EvHeapFree host.1 :: tail /\
           mem w' = <[h := l']> (mem w) /\
           ((hr3 <> S_OK /\ hr = hr3 /\ tail = [] /\ l' = l) \/
            (hr3 = S_OK /\ socket_steps addr len l hr tail l')))).
Proof.
  intros Hh Hl Hm Hs.
  destruct (parse_url_runs url (entered h l w))
    as ([[hr1 host] port] & w1 & Hparse & Hmem1 & _).
  exists hr1, host, port, w1. split; [exact Hparse|].
  apply (WsOpenListener_created _ _ l); try assumption.
  unfold open_listener. wp_step. unfold stack_sockaddr_storage at 1. cbn [returns].
  unfold entered in Hparse.
  wp_step. rewrite Hparse. cbn [returns]. cbn beta iota.
  wp_step.
  { (* the URL was not decoded *)
    wp_step. apply (leave_untouched w h l w1); [assumption | exact Hmem1 |].
    left. auto. }
  assert (hr1 = S_OK) as -> by lia.
  destruct (winsock_init_runs w1) as (w2 & Hinit & Hmem2 & _).
  destruct (resolve_hostname_runs
              (if decide (host.1 = NULL) then None else Some host.2) port
              (os_stack_sockaddr_storage (os w)) w2)
    as ([[hr3 addr] len] & w3 & Hres & Hmem3 & _).
  wp_step. rewrite Hinit. cbn [returns].
  wp_step. run_simpl. rewrite Hres. cbn [returns]. cbn beta iota.
  assert (mem w3 !! h = Some (set_cs (S (l_cs l)) l)) as Hl3
    by (rewrite Hmem3, Hmem2, Hmem1; apply entered_lookup).
  assert (mem w3 = <[h := set_cs (S (l_cs l)) l]> (mem w)) as Hmem
    by (rewrite Hmem3, Hmem2, Hmem1; reflexivity).
  wp_step. unfold heap_free_string. wp_step.
  wp_step.
  { (* no usable address *)
    wp. restore_block Hl. rewrite Hmem. restore_block Hl.
    right. split; [reflexivity|]. exists w2, hr3, addr, len, w3.
    do 2 (split; [first [assumption | reflexivity]|]). exists [], l.
    split; [reflexivity|]. split; [symmetry; by apply insert_id|]. left. auto. }
  assert (hr3 = S_OK) as -> by lia.
  wp; run_mem; rewrite ?Hmem; run_mem.
  all: right; (split; [reflexivity|]); exists w2, S_OK, addr, len, w3.
  all: do 2 (split; [first [assumption | reflexivity]|]).
  all: eexists _, _; (split; [rewrite <- ?app_assoc; reflexivity|]).
  all: (split; [reflexivity|]); right; (split; [reflexivity|]); cbn [app].
  - match goal with He : (os_socket _ _ _ _).1 = -1 |- _ => rewrite !He end.
    match goal with
    | |- socket_steps _ _ _ ?hr ?t _ =>
        change (socket_steps addr len l hr t (set_socket (-1) l))
    end.
    apply socket_fails.
  - match goal with
    | |- socket_steps _ _ _ ?hr ?t _ =>
        change (socket_steps addr len l hr t (set_socket (-1) l))
    end.
    apply bind_fails; [assumption | lia].
  - match goal with
    | |- socket_steps _ _ _ ?hr ?t _ =>
        change (socket_steps addr len l hr t (set_socket (-1) l))
    end.
    apply listen_fails; [assumption | lia | lia].
  - match goal with
    | |- socket_steps _ _ _ ?hr (EvSocket _ _ _ ?s :: ?t) _ =>
        change (socket_steps addr len l hr (EvSocket (sa_family addr) SOCK_STREAM 0 s :: t)
                  (set_state WS_LISTENER_STATE_OPEN (set_socket s l)))
    end.
    apply all_succeed; [assumption | lia | lia].
Qed.

(** X18.  Open is for [Created] listeners only.  On a live listener whose
    state is not [Created] ([Open] or [Closed]), [WsOpenListener] with a
    URL returns [WS_E_INVALID_OPERATION], which is a failure, makes no
    platform call and leaves the world, the state and the critical section
    included, as it was. *)
Theorem WsOpenListener_outside_created w h l url ctx error :
  h <> NULL -> mem w !! h = Some l -> l_magic l = LISTENER_MAGIC ->
  l_state l <> WS_LISTENER_STATE_CREATED ->
  WsOpenListener h (Some url) ctx error w = Some (WS_E_INVALID_OPERATION, w) /\
  WS_E_INVALID_OPERATION <> S_OK.
Proof.
  intros Hh Hl Hm Hs. split; [|apply WS_E_INVALID_OPERATION_fails].
  by apply (WsOpenListener_not_created _ _ l).
Qed.

(** C9, as the code has it.  On a live listener in state [Created],
    [WsOpenListener] takes its steps in this order.  It first decodes the
    URL ([parse_url], run inside the critical section); when that fails the
    call ends there with the decoder's error: the world is as [parse_url]
    left it, the bootstrap has not run.  Otherwise it runs the one-time
    bootstrap ([winsock_init]), then resolves the decoded host and port
    ([resolve_hostname]), then frees the copy of the host; when the
    resolution fails the call ends with its error and the listener as it
    was.  Otherwise the socket part follows, as [socket_steps] has it: a
    socket of the family of the resolved address, [bind] of that socket to
    the resolved address with its length, [listen] on it with backlog 0,
    each only after the one before succeeded.  In terms of the steps in the
    log: every run takes a beginning of [open_order], and a run that leaves
    the listener [Open] has taken all of it. *)
Theorem WsOpenListener_step_order w h l url ctx error :
  h <> NULL -> mem w !! h = Some l -> l_magic l = LISTENER_MAGIC ->
  l_state l = WS_LISTENER_STATE_CREATED ->
  exists hr1 host port w1,
    parse_url url (entered h l w) = Some ((hr1, host, port), w1) /\
    returns (WsOpenListener h (Some url) ctx error w) (fun hr w' =>
      (exists evs, trace w' = trace w ++ evs /\
         (exists addr, steps evs `prefix_of` open_order url addr) /\
         (forall l', mem w' !! h = Some l' -> l_state l' = WS_LISTENER_STATE_OPEN ->
                     exists addr, steps evs = open_order url addr)) /\
      ((hr1 <> S_OK /\ hr = hr1 /\ w' = with_mem (mem w) w1 /\
        once w' = once w /\ winsock_loaded w' = winsock_loaded w /\
        exists evs, trace w' = trace w ++ evs /\
                    steps evs `prefix_of` [StepDecodeUrl url])
       \/
       (hr1 = S_OK /\
        exists w2 hr3 addr len w3,
          winsock_init w1 = Some (tt, w2) /\
          resolve_hostname (if decide (host.1 = NULL) then None else Some host.2) port
            (os_stack_sockaddr_storage (os w)) w2 = Some ((hr3, addr, len), w3) /\
          exists tail l',
            trace w' = trace w3 ++ EvHeapFree host.1 :: tail /\
            mem w' = <[h := l']> (mem w) /\
            ((hr3 <> S_OK /\ hr = hr3 /\ tail = [] /\ l' = l) \/
             (hr3 = S_OK /\ socket_steps addr len l hr tail l'))))).
Proof.
  intros Hh Hl Hm Hs.
  destruct (WsOpenListener_run _ _ _ url ctx error Hh Hl Hm Hs)
    as (hr1 & host & port & w1 & Hparse & Hrun).
  destruct (parse_url_runs url (entered h l w))
    as (r & w1' & Hparse' & _ & _ & Honce & Hloaded & evs1 & Htr1 & Hst1).
  rewrite Hparse in Hparse'. injection Hparse' as <- <-.
  exists hr1, host, port, w1. split; [exact Hparse|].
  eapply returns_mono;
    [exact (returns_and _ _ _
              (WsOpenListener_outcome _ _ _ url ctx error Hh Hl Hm Hs) Hrun)|].
  intros hr w' [Hold Hnew]. split.
  - destruct Hold
      as (_ & evs & Htr & [(_ & s & addr & _ & Hmem & Hst) | (_ & Hmem & Hpre)]);
      exists evs; (split; [assumption|]).
    + split; [exists addr; by rewrite Hst|]. eauto.
    + split; [assumption|]. intros l' Hl' Hopen. exfalso.
      destruct Hmem as [[Hmem _]|Hmem]; rewrite Hmem in Hl'.
      * rewrite Hl in Hl'. injection Hl' as <-. congruence.
      * rewrite lookup_insert_eq in Hl'. injection Hl' as <-. cbn in Hopen. congruence.
  - destruct Hnew as [(Hne & -> & ->) | Hok]; [left | right; exact Hok].
    split; [assumption|]. split; [reflexivity|]. split; [reflexivity|].
    run_simpl. split; [exact Honce|]. split; [exact Hloaded|].
    exists evs1. split; [exact Htr1 | exact Hst1].
Qed.


(** ** Writing properties *)

Lemma WsSetListenerProperty_run w h l id value size error :
  h <> NULL -> mem w !! h = Some l -> l_magic l = LISTENER_MAGIC ->
  WsSetListenerProperty h id value size error w =
    Some ((prop_set (l_prop l) (l_prop_count l) id value size).1,
          with_mem (<[h := set_prop (prop_set (l_prop l) (l_prop_count l) id value size).2 l]>
                      (mem w)) w).
Proof.
  intros Hh Hl Hm. unfold WsSetListenerProperty.
  destruct (decide (h = NULL)) as [|_]; [done|].
  rewrite (enter_load _ _ _ _ Hl).
  destruct (decide (l_magic (set_cs (S (l_cs l)) l) <> LISTENER_MAGIC)) as [Hn|_];
    [destruct (Hn Hm)|].
  change (l_prop (set_cs (S (l_cs l)) l)) with (l_prop l).
  change (l_prop_count (set_cs (S (l_cs l)) l)) with (l_prop_count l).
  destruct (prop_set (l_prop l) (l_prop_count l) id value size) as [hr tbl].
  rewrite (bindM_Some _ _ _ _ _ (store_run _ _ _ _ (entered_lookup w h l))).
  match goal with
  | |- bindM (LeaveCriticalSection h) _ ?w1 = _ =>
      assert (mem w1 !! h = Some (set_prop tbl (set_cs (S (l_cs l)) l))) as Hl1
        by (run_mem; reflexivity)
  end.
  rewrite (bindM_Some _ _ _ _ _ (LeaveCriticalSection_run _ _ _ (l_cs l) Hl1 eq_refl)).
  unfold ret, entered. run_mem. reflexivity.
Qed.

(** Whatever is written, and whatever the table does with it, the call
    touches the table of the listener and nothing else. *)
Lemma set_all_frame h calls :
  forall w l,
    h <> NULL -> mem w !! h = Some l -> l_magic l = LISTENER_MAGIC ->
    returns (set_all h calls w) (fun hrs w' =>
      length hrs = length calls /\
      exists tbl, mem w' = <[h := set_prop tbl l]> (mem w)).
Proof.
  induction calls as [|c rest IH]; intros w l Hh Hl Hm; cbn [set_all].
  - cbn. split; [reflexivity|]. exists (l_prop l).
    rewrite set_prop_same. symmetry. by apply insert_id.
  - apply returns_bind. rewrite (WsSetListenerProperty_run _ _ _ _ _ _ _ Hh Hl Hm).
    cbn [returns]. apply returns_bind.
    set (l1 := set_prop _ l). set (w1 := with_mem _ w).
    eapply returns_mono; [apply (IH w1 l1 Hh)|].
    + subst w1. run_mem. reflexivity.
    + exact Hm.
    + intros hrs w' (Hlen & tbl & Hmem). cbn. split; [by rewrite Hlen|].
      exists tbl. rewrite Hmem. subst w1 l1. run_simpl.
      rewrite insert_insert_eq. reflexivity.
Qed.

(** A property read leaves the world as it was. *)
Lemma WsGetListenerProperty_world w h l id buf size error :
  mem w !! h = Some l ->
  returns (WsGetListenerProperty h id buf size error w) (fun _ w' => w' = w).
Proof.
  intros Hl. unfold WsGetListenerProperty.
  destruct (decide (h = NULL)) as [|_]; [reflexivity|].
  rewrite (enter_load _ _ _ _ Hl).
  destruct (decide (l_magic (set_cs (S (l_cs l)) l) <> LISTENER_MAGIC)); cbv zeta;
    rewrite (bindM_Some _ _ _ _ _ (leave_entered _ _ _ Hl)); reflexivity.
Qed.

End Facts.

(** ** The read-only properties, with the table of the spec *)

Section TableFacts.
Context `{Sizes} `{Platform}.
#[local] Existing Instance spec_props.

Implicit Types (w : world) (l : listener) (h : pointer).

Lemma spec_prop_set_readonly (tbl : list prop) count id value size d :
  (p_desc <$> tbl) !! Z.to_nat id = Some d -> desc_readonly d = true ->
  spec_prop_set tbl count id value size = (E_INVALIDARG, tbl).
Proof.
  intros Hd Hro. unfold spec_prop_set.
  destruct (bool_decide (id < 0 \/ count <= id)); [reflexivity|].
  rewrite list_lookup_fmap in Hd.
  destruct (tbl !! Z.to_nat id) as [p|]; [|reflexivity].
  injection Hd as <-. rewrite Hro. reflexivity.
Qed.

(** The table keeps its schema under every write. *)
Lemma spec_prop_set_desc (tbl : list prop) count id value size :
  p_desc <$> (spec_prop_set tbl count id value size).2 = p_desc <$> tbl.
Proof.
  unfold spec_prop_set.
  destruct (bool_decide (id < 0 \/ count <= id)); [reflexivity|].
  destruct (tbl !! Z.to_nat id) as [p|] eqn:Hp; [|reflexivity].
  destruct (desc_readonly (p_desc p)); [reflexivity|].
  destruct (bool_decide _); [reflexivity|]. cbn [snd].
  rewrite list_fmap_insert. cbn [p_desc]. apply list_insert_id.
  rewrite list_lookup_fmap, Hp. reflexivity.
Qed.

(** [alloc_listener] sets the schema up. *)
Lemma fresh_listener_wf : props_wf fresh_listener.
Proof. split; reflexivity. Qed.

(** Successful overrides keep it, so every listener that [create_listener]
    hands out carries the schema. *)
Lemma overrides_applied_desc count (tbl : list prop) properties (tbl' : list prop) :
  overrides_applied count tbl properties tbl' -> p_desc <$> tbl' = p_desc <$> tbl.
Proof.
  induction 1 as [|tbl q tbl1 rest tbl2 Hset _ IH]; [reflexivity|].
  rewrite IH. change (@prop_set spec_props) with spec_prop_set in Hset.
  pose proof (spec_prop_set_desc tbl count (prop_id q) (prop_value q) (prop_valueSize q))
    as Hd.
  rewrite Hset in Hd. exact Hd.
Qed.

Lemma created_listener_wf type binding properties (tbl : list prop) :
  overrides_applied (l_prop_count fresh_listener) (l_prop fresh_listener) properties tbl ->
  props_wf (set_socket (-1) (set_binding binding (set_type type
              (set_prop tbl fresh_listener)))).
Proof.
  intros Happ. split; [reflexivity|]. cbn [l_prop set_socket set_binding set_type set_prop].
  rewrite (overrides_applied_desc _ _ _ _ Happ). reflexivity.
Qed.

Lemma WsSetListenerProperty_readonly_id w h l id value size error :
  h <> NULL -> mem w !! h = Some l -> l_magic l = LISTENER_MAGIC -> props_wf l ->
  readonly_id id ->
  WsSetListenerProperty h id value size error w = Some (E_INVALIDARG, w).
Proof.
  intros Hh Hl Hm [_ Hwf] (_ & d & Hd & Hro).
  rewrite (WsSetListenerProperty_run _ _ _ _ _ _ _ Hh Hl Hm).
  change (@prop_set spec_props) with spec_prop_set.
  rewrite (spec_prop_set_readonly _ _ _ _ _ d); [|by rewrite Hwf|assumption].
  cbn [fst snd]. rewrite set_prop_same, (insert_id _ _ _ Hl), with_mem_id. reflexivity.
Qed.

(** C4.  On a live listener whose table carries the schema of
    [listener_props]: the state, channel type and channel binding
    identifiers are read-only; every sequence of [WsSetListenerProperty]
    calls on read-only identifiers returns [E_INVALIDARG] call after call
    and leaves the world, the stored values in particular, exactly as it
    was; and no sequence of [WsSetListenerProperty] calls at all, on any
    identifiers, changes the state, channel type or channel binding field. *)
Theorem WsSetListenerProperty_readonly w h l :
  h <> NULL -> mem w !! h = Some l -> l_magic l = LISTENER_MAGIC -> props_wf l ->
  (readonly_id WS_LISTENER_PROPERTY_STATE /\
   readonly_id WS_LISTENER_PROPERTY_CHANNEL_TYPE /\
   readonly_id WS_LISTENER_PROPERTY_CHANNEL_BINDING) /\
  (forall calls,
     Forall (fun c => readonly_id (prop_id c)) calls ->
     set_all h calls w = Some (replicate (length calls) E_INVALIDARG, w)) /\
  (forall calls,
     returns (set_all h calls w) (fun _ w' =>
       exists l', mem w' !! h = Some l' /\
         l_state l' = l_state l /\ l_type l' = l_type l /\ l_binding l' = l_binding l)).
Proof.
  intros Hh Hl Hm Hwf. split; [|split].
  - repeat split; try done; eexists; (split; [reflexivity|reflexivity]).
  - intros calls Hro. induction Hro as [|c rest Hc _ IH]; [reflexivity|].
    cbn [set_all length replicate].
    rewrite (bindM_Some _ _ _ _ _
               (WsSetListenerProperty_readonly_id _ _ _ _ _ _ NULL Hh Hl Hm Hwf Hc)).
    rewrite (bindM_Some _ _ _ _ _ IH). reflexivity.
  - intros calls. eapply returns_mono; [apply (set_all_frame _ _ _ _ Hh Hl Hm)|].
    intros hrs w' (_ & tbl & Hmem). exists (set_prop tbl l).
    split; [rewrite Hmem; apply lookup_insert_eq|]. auto.
Qed.

End TableFacts.


(** * Further properties *)

Section MoreFacts.
Context `{PropOps} `{Sizes} `{Platform}.

Implicit Types (w : world) (l : listener) (h p : pointer).

(** ** Null arguments *)

(** X3.  No operation dereferences a null handle: each of open, close,
    property read and property write on [NULL] returns [E_INVALIDARG], a
    free of [NULL] does nothing, and the world is untouched.  The same holds
    for an open with a null URL, whatever the handle, and for a creation
    with no slot to store the handle in, which allocates nothing. *)
Theorem null_arguments_rejected w :
  (forall o, run_op NULL o w = Some (rejected o, w)) /\
  (forall h ctx error, WsOpenListener h None ctx error w = Some (E_INVALIDARG, w)) /\
  (forall type binding properties desc error,
     WsCreateListener type binding properties desc NULL error w
       = Some ((E_INVALIDARG, None), w)).
Proof.
  split; [|split].
  - intros [[url|] | | id buf size | id value size | ]; reflexivity.
  - reflexivity.
  - reflexivity.
Qed.

(** ** Closing, call by call *)

(** X12.  Every call of [WsCloseListener] on a live listener makes exactly
    one platform call, [closesocket]: the first on the socket field as it
    was, each later one on the absent sentinel [-1]. *)
Theorem WsCloseListener_calls_closesocket_once w h l n :
  h <> NULL -> mem w !! h = Some l -> l_magic l = LISTENER_MAGIC ->
  exists w' r rs,
    close_n (S n) h w = Some (replicate (S n) S_OK, w') /\
    length rs = n /\
    trace w' = trace w ++ EvClosesocket (l_socket l) r :: (EvClosesocket (-1) <$> rs).
Proof.
  intros Hh. revert w l. induction n as [|n IH]; intros w l Hl Hm.
  - eexists _, _, []. cbn [close_n].
    rewrite (bindM_Some _ _ _ _ _ (WsCloseListener_run _ _ _ NULL NULL Hh Hl Hm)).
    unfold bindM, ret. split; [reflexivity|]. split; reflexivity.
  - pose proof (WsCloseListener_run _ _ _ NULL NULL Hh Hl Hm) as Hrun.
    set (w1 := with_mem _ _) in Hrun.
    destruct (IH w1 (set_state WS_LISTENER_STATE_CLOSED (set_socket (-1) l)))
      as (w' & r & rs & Hn & Hlen & Htr).
    { subst w1. run_mem. reflexivity. }
    { exact Hm. }
    exists w', (os_closesocket (l_socket l) (os w)).1, (r :: rs).
    change (close_n (S (S n)) h) with
      (bindM (WsCloseListener h NULL NULL) (fun hr =>
       bindM (close_n (S n) h) (fun hrs => ret (hr :: hrs)))).
    rewrite (bindM_Some _ _ _ _ _ Hrun), (bindM_Some _ _ _ _ _ Hn).
    split; [reflexivity|]. split; [cbn; by rewrite Hlen|].
    rewrite Htr. subst w1. run_simpl. rewrite <- app_assoc. reflexivity.
Qed.

(** ** Allocation failure *)

(** X11.  When the allocator has no block, [WsCreateListener] for the
    accepted channel returns [E_OUTOFMEMORY] and stores no handle, whatever
    overrides were passed: the one platform call is the failed allocation,
    and no listener appears or changes. *)
Theorem WsCreateListener_out_of_memory w properties desc handle error :
  handle <> NULL ->
  (os_heap_alloc_zero alloc_size (os w)).1 = NULL ->
  WsCreateListener WS_CHANNEL_TYPE_DUPLEX_SESSION WS_TCP_CHANNEL_BINDING properties
      desc handle error w
    = Some ((E_OUTOFMEMORY, None),
            with_os (os_heap_alloc_zero alloc_size (os w)).2
                    [EvHeapAllocZero alloc_size NULL] w).
Proof.
  intros Hh Ha. unfold WsCreateListener.
  destruct (decide (handle = NULL)) as [|_]; [done|].
  destruct (decide (WS_CHANNEL_TYPE_DUPLEX_SESSION <> WS_CHANNEL_TYPE_DUPLEX_SESSION));
    [done|].
  destruct (decide (WS_TCP_CHANNEL_BINDING <> WS_TCP_CHANNEL_BINDING)); [done|].
  unfold create_listener, alloc_listener, heap_alloc_zero, alloc_size in *. cbv zeta.
  unfold bindM at 1 2 3 4. rewrite call_run, Ha. cbn.
  destruct (decide (E_OUTOFMEMORY <> S_OK)) as [_|Hn]; [reflexivity|].
  destruct (Hn E_OUTOFMEMORY_fails).
Qed.

(** ** The one-time bootstrap *)

Lemma winsock_init_first w :
  once w = false ->
  winsock_init w =
    Some (tt, with_once true
               (with_winsock_loaded
                  (if decide ((os_WSAStartup (MAKEWORD 1 1) (os w)).1 = 0)
                   then true else winsock_loaded w)
                  (with_os (os_WSAStartup (MAKEWORD 1 1) (os w)).2
                     [EvInitOnceExecuteOnce;
                      EvWSAStartup (MAKEWORD 1 1) (os_WSAStartup (MAKEWORD 1 1) (os w)).1]
                     w))).
Proof.
  intros Honce. unfold winsock_init, InitOnceExecuteOnce, winsock_startup, WSAStartup.
  unfold bindM at 1. rewrite call_run. run_simpl. rewrite Honce.
  unfold bindM at 1 2 3. rewrite call_run. run_simpl.
  destruct (decide _); cbn; unfold with_once, with_winsock_loaded, with_os; cbn;
    rewrite <- app_assoc; reflexivity.
Qed.

Lemma winsock_init_again w :
  once w = true ->
  winsock_init w = Some (tt, with_os (os w) [EvInitOnceExecuteOnce] w).
Proof.
  intros Honce. unfold winsock_init, InitOnceExecuteOnce.
  unfold bindM. rewrite call_run. run_simpl. rewrite Honce. reflexivity.
Qed.

Lemma winsock_init_n_again n :
  forall w, once w = true ->
    returns (winsock_init_n n w) (fun _ w' =>
      once w' = true /\ os w' = os w /\ winsock_loaded w' = winsock_loaded w /\
      mem w' = mem w /\ live w' = live w /\
      trace w' = trace w ++ replicate n EvInitOnceExecuteOnce).
Proof.
  induction n as [|n IH]; intros w Honce; cbn [winsock_init_n].
  - cbn. rewrite app_nil_r. auto 10.
  - apply returns_bind. rewrite (winsock_init_again _ Honce). cbn [returns].
    eapply returns_mono; [apply IH; exact Honce|].
    intros _ w' (Ho & Hos & Hl & Hm & Hlv & Htr). cbn beta.
    rewrite Htr. run_simpl. rewrite <- app_assoc. auto 10.
Qed.

(** X4.  The bootstrap runs once.  Of any number of calls of
    [winsock_init], the first calls [WSAStartup], for version 1.1, and marks
    the initialisation done whether or not [WSAStartup] succeeded; every
    later call goes through the once-guard and calls nothing else, so a
    failed [WSAStartup] is not tried again and [winsock_loaded] stays as the
    first call left it. *)
Theorem winsock_init_runs_startup_once w n :
  once w = false ->
  returns (winsock_init_n (S n) w) (fun _ w' =>
    once w' = true /\
    winsock_loaded w' =
      (if decide ((os_WSAStartup (MAKEWORD 1 1) (os w)).1 = 0)
       then true else winsock_loaded w) /\
    trace w' = trace w ++
      [EvInitOnceExecuteOnce;
       EvWSAStartup (MAKEWORD 1 1) (os_WSAStartup (MAKEWORD 1 1) (os w)).1] ++
      replicate n EvInitOnceExecuteOnce /\
    startups (drop (length (trace w)) (trace w')) = [MAKEWORD 1 1]).
Proof.
  intros Honce. cbn [winsock_init_n]. apply returns_bind.
  rewrite (winsock_init_first _ Honce). cbn [returns].
  eapply returns_mono; [apply winsock_init_n_again; reflexivity|].
  intros _ w' (Ho & _ & Hl & _ & _ & Htr). cbn beta.
  split; [assumption|]. split; [assumption|].
  assert (trace w' = trace w ++
      [EvInitOnceExecuteOnce;
       EvWSAStartup (MAKEWORD 1 1) (os_WSAStartup (MAKEWORD 1 1) (os w)).1] ++
      replicate n EvInitOnceExecuteOnce) as Htr'.
  { rewrite Htr. run_simpl. rewrite <- app_assoc. reflexivity. }
  split; [assumption|]. rewrite Htr', drop_app_length. unfold startups.
  rewrite omap_app. cbn. f_equal. clear.
  induction n as [|k IHk]; [reflexivity|]. cbn. exact IHk.
Qed.

End MoreFacts.


(** ** Sequences of operations on one handle *)

Section OperationSequences.
Context `{PropOps} `{Sizes} `{Platform}.

Implicit Types (w : world) (l : listener) (h p : pointer).

(** The operations that keep the block write to the block of their handle
    at most; they keep the tag and [lifecycle_inv], and leave the critical
    section as they found it. *)
Lemma run_op_block w h l o :
  mem w !! h = Some l -> l_magic l = LISTENER_MAGIC -> keeps_block o ->
  returns (run_op h o w) (fun _ w1 =>
    exists l1, mem w1 = <[h := l1]> (mem w) /\
               l_magic l1 = LISTENER_MAGIC /\ l_cs l1 = l_cs l /\
               (lifecycle_inv l -> lifecycle_inv l1)).
Proof.
  intros Hl Hm Hkeep.
  assert (mem w = <[h := l]> (mem w)) as Hsame by (symmetry; by apply insert_id).
  destruct (decide (h = NULL)) as [->|Hh].
  { destruct o as [[url|] | | id buf size | id value size | ]; cbn;
      try destruct Hkeep; exists l; auto. }
  destruct o as [[url|] | | id buf size | id value size | ]; cbn [run_op];
    try destruct Hkeep; apply returns_bind.
  - destruct (decide (l_state l = WS_LISTENER_STATE_CREATED)) as [Hs|Hs].
    + eapply returns_mono; [apply (WsOpenListener_outcome _ _ _ url NULL NULL Hh Hl Hm Hs)|].
      intros hr w' (_ & evs & _ & [(_ & s & addr & Hs' & Hmem & _) | (_ & Hmem & _)]);
        cbn.
      * eexists. split; [exact Hmem|]. do 2 (split; [auto|]).
        intros _. split; [cbn; auto|]. cbn. done.
      * destruct Hmem as [[Hmem _]|Hmem].
        -- exists l. split; [congruence|auto].
        -- eexists. split; [exact Hmem|]. do 2 (split; [auto|]).
           intros [Hst _]. split; [exact Hst|]. intros _. reflexivity.
    + rewrite (WsOpenListener_not_created _ _ _ _ _ _ Hh Hl Hm Hs). cbn. eauto.
  - cbn. eauto.
  - rewrite (WsCloseListener_run _ _ _ _ _ Hh Hl Hm). cbn.
    eexists. split; [reflexivity|]. do 2 (split; [auto|]).
    intros _. split; [cbn; auto|]. intros _. reflexivity.
  - eapply returns_mono; [apply (WsGetListenerProperty_world _ _ _ _ _ _ _ Hl)|].
    intros r w' ->. cbn. eauto.
  - rewrite (WsSetListenerProperty_run _ _ _ _ _ _ _ Hh Hl Hm). cbn.
    eexists. split; [reflexivity|]. auto.
Qed.

Lemma run_ops_block h ops :
  forall w l,
    mem w !! h = Some l -> l_magic l = LISTENER_MAGIC -> Forall keeps_block ops ->
    returns (run_ops h ops w) (fun _ w1 =>
      exists l1, mem w1 = <[h := l1]> (mem w) /\
                 l_magic l1 = LISTENER_MAGIC /\ l_cs l1 = l_cs l /\
                 (lifecycle_inv l -> lifecycle_inv l1)).
Proof.
  induction ops as [|o ops IH]; intros w l Hl Hm Hkeep; cbn [run_ops].
  - cbn. exists l. split; [symmetry; by apply insert_id | auto].
  - inversion Hkeep as [|? ? Ho Hops]; subst. apply returns_bind.
    eapply returns_mono; [apply (run_op_block _ _ _ o Hl Hm Ho)|].
    intros r w1 (l1 & Hmem1 & Hm1 & Hcs1 & Hinv1). cbn beta. apply returns_bind.
    eapply returns_mono; [apply (IH w1 l1)|].
    + rewrite Hmem1. apply lookup_insert_eq.
    + exact Hm1.
    + exact Hops.
    + intros rs w' (l' & Hmem & Hm' & Hcs' & Hinv'). cbn.
      exists l'. split; [|split; [exact Hm' | split; [congruence | auto]]].
      rewrite Hmem, Hmem1. apply insert_insert_eq.
Qed.

(** X10.  As long as the listener is not freed, it stays within the life
    cycle: whatever sequence of open, close, property read and property
    write calls, in any order and with any arguments, is run on the handle
    of a live listener, every call returns, the listener's state is one of
    [Created], [Open] and [Closed], with the socket field the absent
    sentinel outside [Open], and the critical section is left as it was
    found: no path out of an operation keeps it. *)
Theorem lifecycle_invariant w h l ops :
  h <> NULL -> mem w !! h = Some l -> l_magic l = LISTENER_MAGIC ->
  lifecycle_inv l -> Forall keeps_block ops ->
  returns (run_ops h ops w) (fun _ w' =>
    exists l', mem w' !! h = Some l' /\ lifecycle_inv l' /\ l_cs l' = l_cs l).
Proof.
  intros Hh Hl Hm Hinv Hkeep.
  eapply returns_mono; [apply (run_ops_block _ ops _ _ Hl Hm Hkeep)|].
  intros rs w' (l' & Hmem & _ & Hcs & Hinv'). exists l'.
  split; [rewrite Hmem; apply lookup_insert_eq | auto].
Qed.

(** X15.  Operations on one handle leave every other listener alone:
    after any sequence of open, close, property read and property write
    calls on the handle [h] of a live listener, the block at any other
    address holds what it held before; and the same after a
    [WsFreeListener] of [h] that ends the sequence. *)
Theorem operations_are_isolated w h l ops :
  h <> NULL -> mem w !! h = Some l -> l_magic l = LISTENER_MAGIC ->
  Forall keeps_block ops ->
  returns (run_ops h ops w) (fun _ w1 =>
    (forall h', h' <> h -> mem w1 !! h' = mem w !! h') /\
    returns (WsFreeListener h w1) (fun _ w2 =>
      forall h', h' <> h -> mem w2 !! h' = mem w !! h')).
Proof.
  intros Hh Hl Hm Hkeep.
  eapply returns_mono; [apply (run_ops_block _ ops _ _ Hl Hm Hkeep)|].
  intros rs w1 (l1 & Hmem1 & Hm1 & _ & _). split.
  - intros h' Hne. rewrite Hmem1. by apply lookup_insert_ne.
  - assert (mem w1 !! h = Some l1) as Hl1 by (rewrite Hmem1; apply lookup_insert_eq).
    eapply returns_mono; [apply (WsFreeListener_run _ _ _ Hh Hl1 Hm1)|].
    intros _ w2 (Hmem2 & _) h' Hne.
    rewrite Hmem2, lookup_delete_ne, Hmem1 by done. by apply lookup_insert_ne.
Qed.

(** Outside [Created], an open, a read or a write touches the property
    table at most. *)
Lemma run_op_passive w h l o :
  h <> NULL -> mem w !! h = Some l -> l_magic l = LISTENER_MAGIC ->
  l_state l <> WS_LISTENER_STATE_CREATED -> passive o ->
  returns (run_op h o w) (fun _ w' =>
    exists tbl, w' = with_mem (<[h := set_prop tbl l]> (mem w)) w).
Proof.
  intros Hh Hl Hm Hs Hp.
  assert (w = with_mem (<[h := set_prop (l_prop l) l]> (mem w)) w) as Hsame.
  { rewrite set_prop_same, (insert_id _ _ _ Hl), with_mem_id. reflexivity. }
  destruct o as [[url|] | | id buf size | id value size | ]; cbn [run_op];
    try destruct Hp; apply returns_bind.
  - rewrite (WsOpenListener_not_created _ _ _ _ _ _ Hh Hl Hm Hs). cbn. eauto.
  - cbn. eauto.
  - eapply returns_mono; [apply (WsGetListenerProperty_world _ _ _ _ _ _ _ Hl)|].
    intros r w' ->. cbn. eauto.
  - rewrite (WsSetListenerProperty_run _ _ _ _ _ _ _ Hh Hl Hm). cbn. eauto.
Qed.

(** X9.  A listener that has left [Created] is not opened again: on a live
    listener in any other state, every sequence of open, property read and
    property write calls makes no platform call at all (no socket is
    created, none is closed) and leaves the state, the socket and the
    channel fields as they are.  From [Closed] in particular, only a free
    ends the [Closed] state. *)
Theorem open_does_nothing_outside_created h ops :
  forall w l,
    h <> NULL -> mem w !! h = Some l -> l_magic l = LISTENER_MAGIC ->
    l_state l <> WS_LISTENER_STATE_CREATED -> Forall passive ops ->
    returns (run_ops h ops w) (fun _ w' =>
      trace w' = trace w /\ os w' = os w /\ live w' = live w /\
      exists l', mem w' !! h = Some l' /\
        l_state l' = l_state l /\ l_socket l' = l_socket l /\
        l_type l' = l_type l /\ l_binding l' = l_binding l).
Proof.
  induction ops as [|o ops IH]; intros w l Hh Hl Hm Hs Hp; cbn [run_ops].
  - cbn. eauto 10.
  - inversion Hp as [|? ? Ho Hops]; subst. apply returns_bind.
    eapply returns_mono; [apply (run_op_passive _ _ _ o Hh Hl Hm Hs Ho)|].
    intros r w1 (tbl & ->). cbn beta. apply returns_bind.
    eapply returns_mono.
    + apply (IH _ (set_prop tbl l) Hh); [run_mem; reflexivity | exact Hm | exact Hs
                                        | exact Hops].
    + intros rs w' (Htr & Hos & Hlive & l' & Hl' & Hst & Hso & Hty & Hbi). cbn.
      split; [exact Htr|]. split; [exact Hos|]. split; [exact Hlive|].
      exists l'. auto.
Qed.

End OperationSequences.


(** ** The service name *)

Lemma service_ok_from_spec count :
  forall first, service_ok_from first count = true ->
    forall n, first <= n < first + Z.of_nat count -> service_ok n = true.
Proof.
  induction count as [|count IH]; intros first Hall n Hn; [lia|].
  cbn [service_ok_from] in Hall. apply andb_true_iff in Hall as [Hfirst Hrest].
  destruct (decide (n = first)) as [->|Hne]; [exact Hfirst|].
  apply (IH (first + 1) Hrest). lia.
Qed.

Lemma service_ok_all_ports : service_ok_from 0 (Z.to_nat 65536) = true.
Proof. vm_compute. reflexivity. Qed.

(** X13.  For every port a [USHORT] can hold, the decimal text
    [resolve_hostname] writes for it has between one and five code units,
    all of them digits: with its terminator it fits the six-unit buffer
    [service]. *)
Theorem sprintfW_u_fits_service port :
  0 <= port < 65536 ->
  (1 <= length (sprintfW_u port) <= 5)%nat /\
  Forall (fun c => chr "0"%char <= c <= chr "9"%char) (sprintfW_u port).
Proof.
  intros Hport.
  assert (service_ok port = true) as Hok.
  { apply (service_ok_from_spec _ _ service_ok_all_ports). rewrite Z2Nat.id; lia. }
  unfold service_ok in Hok. apply andb_true_iff in Hok as [Hlen Hdigits].
  apply bool_decide_eq_true in Hlen. split; [exact Hlen|].
  rewrite forallb_forall in Hdigits. apply Forall_forall. intros c Hc.
  apply list_elem_of_In in Hc. apply Hdigits in Hc. by apply bool_decide_eq_true in Hc.
Qed.


(** ** Decoding the URL *)

Section UrlAndAddress.
Context `{PropOps} `{Sizes} `{Platform}.

Implicit Types (w : world) (l : listener) (h p : pointer).

Lemma wildcard_host_test (host : WS_STRING) :
  bool_decide (Z.of_nat (length host) = 1) &&
    (bool_decide (host !! 0%nat = Some (chr "+"%char)) ||
     bool_decide (host !! 0%nat = Some (chr "*"%char))) = true
  <-> wildcard_host host.
Proof.
  unfold wildcard_host. split.
  - intros Ht. apply andb_true_iff in Ht as [Hlen Hc].
    apply bool_decide_eq_true in Hlen.
    destruct host as [|c [|c' host]]; cbn in Hlen; try lia.
    apply orb_true_iff in Hc as [Hc|Hc]; apply bool_decide_eq_true in Hc;
      cbn in Hc; injection Hc as ->; auto.
  - intros [->| ->]; reflexivity.
Qed.

(** X5.  [parse_url] leaves the listeners alone and frees the heap it
    created on every path.  When it succeeds, the URL was decoded and the
    port is the decoded port; the host is the null pointer, with no buffer
    allocated, exactly when the decoded host is the single character [+] or
    [*]; any other host, the empty one included, is copied to a buffer of
    [(length + 1)] wide characters, the one buffer allocated, which holds
    the host followed by a terminating zero. *)
Theorem parse_url_host str w :
  returns (parse_url str w) (fun r w' =>
    mem w' = mem w /\ live w' = live w /\
    exists evs, trace w' = trace w ++ evs /\
      ws_heaps_created evs = ws_heaps_freed evs /\
      buffers_allocated evs = (if decide (r.1.2.1 = NULL) then [] else [r.1.2.1]) /\
      (r.1.1 = S_OK ->
       exists url,
         (os_WsDecodeUrl str (os_WsCreateHeap (os w)).2).1 = (S_OK, url) /\
         r.2 = url_port url /\
         ((wildcard_host (url_host url) /\ r.1.2 = (NULL, [])) \/
          (~ wildcard_host (url_host url) /\ r.1.2.1 <> NULL /\
           r.1.2.2 = url_host url ++ [0] /\
           EvHeapAlloc ((Z.of_nat (length (url_host url)) + 1) * sizeof_WCHAR) r.1.2.1
             ∈ evs)))).
Proof.
  unfold parse_url. wp; run_simpl.
  all: split; [reflexivity|]; split; [reflexivity|].
  all: eexists; split; [rewrite <- ?app_assoc; reflexivity|].
  all: unfold ws_heaps_created, ws_heaps_freed, buffers_allocated; cbn [omap list_omap app fst snd].
  all: repeat match goal with |- context [decide ?P] => destruct (decide P) end;
    try done.
  all: split; [reflexivity|]; split; [reflexivity|]; intros Hok; try done.
  all: try (exfalso; revert Hok; apply E_OUTOFMEMORY_fails).
  all: subst; eexists; split; [reflexivity|]; split; [reflexivity|].
  - left. split; [by apply wildcard_host_test | reflexivity].
  - right. split; [|split; [assumption|split; [reflexivity|set_solver]]].
    intros Hw. apply wildcard_host_test in Hw. congruence.
Qed.

(** X6.  A URL that does not decode ends [WsOpenListener] at once: the
    decoder's error is the result, the heap made for the decoder is freed,
    and nothing else happens; the bootstrap has not run and no call into
    Winsock was made.  The same when the heap for the decoder cannot be
    made. *)
Theorem WsOpenListener_undecodable_url w h l url ctx error :
  h <> NULL -> mem w !! h = Some l -> l_magic l = LISTENER_MAGIC ->
  l_state l = WS_LISTENER_STATE_CREATED ->
  (os_WsCreateHeap (os w)).1 <> S_OK \/
  (os_WsDecodeUrl url (os_WsCreateHeap (os w)).2).1.1 <> S_OK ->
  returns (WsOpenListener h (Some url) ctx error w) (fun hr w' =>
    hr <> S_OK /\
    (hr = (os_WsCreateHeap (os w)).1 \/
     hr = (os_WsDecodeUrl url (os_WsCreateHeap (os w)).2).1.1) /\
    mem w' = mem w /\ live w' = live w /\
    once w' = once w /\ winsock_loaded w' = winsock_loaded w /\
    exists evs, trace w' = trace w ++ evs /\
      winsock_events evs = [] /\ ws_heaps_created evs = ws_heaps_freed evs).
Proof.
  intros Hh Hl Hm Hs Hbad.
  apply (WsOpenListener_created _ _ l); try assumption.
  unfold open_listener, parse_url, stack_sockaddr_storage.
  do 8 wp_step.
  { (* no heap *)
    wp. restore_block Hl. split; [assumption|]. split; [auto|].
    do 4 (split; [reflexivity|]). eexists. split; [reflexivity|].
    split; [reflexivity|]. unfold ws_heaps_created. cbn. case_decide; done. }
  do 3 wp_step. destruct (os_WsDecodeUrl url _).1 as [hr url'] eqn:Hd.
  cbn [fst snd] in *. destruct Hbad as [|Hbad]; [done|].
  wp_step. wp. restore_block Hl. split; [assumption|]. split; [auto|].
  do 4 (split; [reflexivity|]). eexists. split; [rewrite <- !app_assoc; reflexivity|].
  split; [reflexivity|]. unfold ws_heaps_created. cbn. case_decide; done.
Qed.

(** ** Resolving *)

Lemma skip_other_families_is_Some res :
  is_Some (skip_other_families res) <-> Exists inet_family res.
Proof.
  unfold inet_family. induction res as [|i res IH]; cbn [skip_other_families].
  - split; [intros [? [=]] | intros Hx; inversion Hx].
  - destruct (decide (ai_family i = AF_INET)) as [H4|H4];
      [|destruct (decide (ai_family i = AF_INET6)) as [H6|H6]].
    + rewrite (bool_decide_eq_false_2 (ai_family i <> AF_INET)) by tauto.
      cbn. split; [intros _; left; auto | eauto].
    + rewrite (bool_decide_eq_false_2 (ai_family i <> AF_INET6)) by tauto.
      rewrite andb_false_r. split; [intros _; left; auto | eauto].
    + rewrite (bool_decide_eq_true_2 _ H4), (bool_decide_eq_true_2 _ H6). cbn.
      rewrite IH. split; [intros Hx; by right|].
      intros Hx. inversion Hx as [? ? [?|?]|]; subst; [done|done|assumption].
Qed.

(** X14.  [resolve_hostname] leaves the listeners alone and makes two
    platform calls.  After a lookup that succeeded they are the lookup and
    [FreeAddrInfoW], which releases the candidates on both outcomes; the
    result is [S_OK] if some candidate is IPv4 or IPv6, and otherwise
    [WS_E_ADDRESS_NOT_AVAILABLE] with the address untouched and length 0.
    After a lookup that failed they are the lookup and [WSAGetLastError],
    nothing is released, and the address is untouched with length 0. *)
Theorem resolve_hostname_calls w host port addr :
  let lookup := os_GetAddrInfoW host (sprintfW_u port) (os w) in
  returns (resolve_hostname host port addr w) (fun out w' =>
    mem w' = mem w /\ live w' = live w /\
    (lookup.1.1 = 0 ->
     trace w' = trace w ++
       [EvGetAddrInfoW host (sprintfW_u port) 0; EvFreeAddrInfoW] /\
     ((out.1.1 = S_OK /\ Exists inet_family lookup.1.2) \/
      (out = (WS_E_ADDRESS_NOT_AVAILABLE, addr, 0) /\
       ~ Exists inet_family lookup.1.2))) /\
    (lookup.1.1 <> 0 ->
     exists e,
       trace w' = trace w ++
         [EvGetAddrInfoW host (sprintfW_u port) lookup.1.1; EvWSAGetLastError e] /\
       out = (HRESULT_FROM_WIN32 e, addr, 0))).
Proof.
  intros lookup. unfold resolve_hostname. cbv zeta. do 3 wp_step. fold lookup.
  destruct lookup.1 as [r res] eqn:Hr. cbn [fst snd] in *.
  wp_step.
  - wp. run_simpl. split; [reflexivity|]. split; [reflexivity|].
    split; [done|]. intros _. eexists. rewrite <- app_assoc. split; reflexivity.
  - assert (r = 0) as -> by lia.
    pose proof (skip_other_families_is_Some res) as Hsome.
    wp; run_simpl; (split; [reflexivity|]); (split; [reflexivity|]); (split; [|done]);
      intros _; (split; [rewrite <- app_assoc; reflexivity|]).
    + left. split; [reflexivity|]. apply Hsome. eauto.
    + right. split; [reflexivity|]. intros Hx. apply Hsome in Hx as [? [=]].
Qed.

End UrlAndAddress.


(** ** What an open acquires and releases *)

Section Resources.
Context `{PropOps} `{Sizes} `{Platform}.

Implicit Types (w : world) (l : listener) (h p : pointer).

(** The resources in a log made of parts. *)
Lemma sockets_created_app a b :
  sockets_created (a ++ b) = sockets_created a ++ sockets_created b.
Proof. apply omap_app. Qed.

Lemma sockets_closed_app a b :
  sockets_closed (a ++ b) = sockets_closed a ++ sockets_closed b.
Proof. apply omap_app. Qed.

Lemma buffers_allocated_app a b :
  buffers_allocated (a ++ b) = buffers_allocated a ++ buffers_allocated b.
Proof. apply omap_app. Qed.

Lemma buffers_freed_app a b :
  buffers_freed (a ++ b) = buffers_freed a ++ buffers_freed b.
Proof. apply omap_app. Qed.

Lemma ws_heaps_created_app a b :
  ws_heaps_created (a ++ b) = ws_heaps_created a ++ ws_heaps_created b.
Proof. apply omap_app. Qed.

Lemma ws_heaps_freed_app a b :
  ws_heaps_freed (a ++ b) = ws_heaps_freed a ++ ws_heaps_freed b.
Proof. apply omap_app. Qed.

Ltac ledger :=
  unfold quiet, sockets_created, sockets_closed, buffers_allocated, buffers_freed,
    ws_heaps_created, ws_heaps_freed;
  cbn [omap list_omap app fst snd];
  repeat match goal with |- context [decide ?P] => destruct (decide P) end;
  try done.

Lemma parse_url_ledger url w :
  returns (parse_url url w) (fun r w1 =>
    mem w1 = mem w /\
    exists evs, trace w1 = trace w ++ evs /\ quiet evs /\
      ws_heaps_created evs = ws_heaps_freed evs /\
      buffers_allocated evs = (if decide (r.1.2.1 = NULL) then [] else [r.1.2.1]) /\
      (r.1.1 <> S_OK -> buffers_allocated evs = [])).
Proof.
  unfold parse_url. wp; run_simpl.
  all: split; [reflexivity|].
  all: eexists; split; [rewrite <- ?app_assoc; reflexivity|].
  all: ledger.
Qed.

Lemma winsock_init_ledger w :
  returns (winsock_init w) (fun _ w1 =>
    mem w1 = mem w /\
    exists evs, trace w1 = trace w ++ evs /\ quiet evs /\
      ws_heaps_created evs = [] /\ ws_heaps_freed evs = [] /\ buffers_allocated evs = []).
Proof.
  unfold winsock_init, InitOnceExecuteOnce. wp; run_simpl.
  all: split; [reflexivity|].
  all: eexists; split; [rewrite <- ?app_assoc; reflexivity|].
  all: ledger.
Qed.

Lemma resolve_hostname_ledger host port addr w :
  returns (resolve_hostname host port addr w) (fun _ w1 =>
    mem w1 = mem w /\
    exists evs, trace w1 = trace w ++ evs /\ quiet evs /\
      ws_heaps_created evs = [] /\ ws_heaps_freed evs = [] /\ buffers_allocated evs = []).
Proof.
  unfold resolve_hostname. cbv zeta. wp; run_simpl.
  all: split; [reflexivity|].
  all: eexists; split; [rewrite <- ?app_assoc; reflexivity|].
  all: ledger.
Qed.

(** The ledger of a whole [open_listener]. *)
Lemma open_listener_ledger w h l url :
  mem w !! h = Some l ->
  returns (open_listener h url w) (fun hr w' =>
    exists evs l', trace w' = trace w ++ evs /\ mem w' !! h = Some l' /\
      l_cs l' = l_cs l /\
      buffers_allocated evs = buffers_freed evs /\
      ws_heaps_created evs = ws_heaps_freed evs /\
      ((l_state l' = WS_LISTENER_STATE_OPEN /\
        sockets_created evs = [l_socket l'] /\ sockets_closed evs = [])
       \/
       (l_state l' = l_state l /\ sockets_created evs = sockets_closed evs))).
Proof.
  intros Hl. unfold open_listener. do 4 wp_step.
  eapply returns_mono; [apply parse_url_ledger|].
  intros [[hr host] port] w1
    (Hmem1 & evs1 & Htr1 & (Hc1 & Hd1 & Hf1) & Hws1 & Ha1 & Hfail1).
  cbn beta iota. cbn [fst snd] in Ha1, Hfail1. wp_step.
  { cbn [returns]. exists evs1, l. split; [assumption|].
    split; [by rewrite Hmem1|]. split; [reflexivity|]. split; [by rewrite Hfail1, Hf1|].
    split; [assumption|]. right. split; [reflexivity|]. by rewrite Hc1, Hd1. }
  wp_step. eapply returns_mono; [apply winsock_init_ledger|].
  intros _ w2 (Hmem2 & evs2 & Htr2 & (Hc2 & Hd2 & Hf2) & Hwc2 & Hwf2 & Ha2). cbn beta.
  wp_step. eapply returns_mono; [apply resolve_hostname_ledger|].
  intros [[hr' addr] addr_len] w3
    (Hmem3 & evs3 & Htr3 & (Hc3 & Hd3 & Hf3) & Hwc3 & Hwf3 & Ha3). cbn beta iota.
  wp_step. eapply returns_mono; [apply heap_free_string_spec|].
  intros _ w4 (Hmem4 & _ & Htr4). cbn beta.
  assert (mem w4 !! h = Some l) as Hl4 by (rewrite Hmem4, Hmem3, Hmem2, Hmem1; exact Hl).
  assert (forall tail, trace w4 ++ tail =
            trace w ++ evs1 ++ evs2 ++ evs3 ++ EvHeapFree host.1 :: tail) as Htr.
  { intros tail. rewrite Htr4, Htr3, Htr2, Htr1, <- !app_assoc. reflexivity. }
  pose (before := fun tail => evs1 ++ evs2 ++ evs3 ++ EvHeapFree host.1 :: tail).
  assert (forall tail, buffers_allocated tail = [] -> buffers_freed tail = [] ->
            buffers_allocated (before tail) = buffers_freed (before tail)) as Hbuf.
  { intros tail Hta Htf. unfold before.
    rewrite !buffers_allocated_app, !buffers_freed_app, Ha1, Ha2, Ha3, Hf1, Hf2, Hf3.
    change (EvHeapFree host.1 :: tail) with ([EvHeapFree host.1] ++ tail).
    rewrite buffers_allocated_app, buffers_freed_app, Hta, Htf.
    unfold buffers_freed. cbn. destruct (decide (host.1 = NULL)); reflexivity. }
  assert (forall tail, ws_heaps_created tail = [] -> ws_heaps_freed tail = [] ->
            ws_heaps_created (before tail) = ws_heaps_freed (before tail)) as Hws.
  { intros tail Htc Htf. unfold before.
    rewrite !ws_heaps_created_app, !ws_heaps_freed_app, Hws1, Hwc2, Hwc3, Hwf2, Hwf3.
    change (EvHeapFree host.1 :: tail) with ([EvHeapFree host.1] ++ tail).
    rewrite ws_heaps_created_app, ws_heaps_freed_app, Htc, Htf. reflexivity. }
  assert (forall tail, sockets_created (before tail) = sockets_created tail /\
                       sockets_closed (before tail) = sockets_closed tail) as Hsock.
  { intros tail. unfold before.
    change (EvHeapFree host.1 :: tail) with ([EvHeapFree host.1] ++ tail).
    rewrite !sockets_created_app, !sockets_closed_app, Hc1, Hc2, Hc3, Hd1, Hd2, Hd3.
    split; reflexivity. }
  unfold before in *. clear before. cbv beta in *.
  wp_step.
  { cbn [returns]. eexists _, l.
    split; [rewrite <- (app_nil_r (trace w4)); apply Htr|].
    split; [assumption|]. split; [reflexivity|].
    split; [by apply Hbuf|]. split; [by apply Hws|].
    right. split; [reflexivity|]. destruct (Hsock []) as [-> ->]. reflexivity. }
  wp; run_mem.
  all: eexists _, _; (split; [rewrite <- ?app_assoc; apply Htr|]).
  all: rewrite (proj1 (Hsock _)), (proj2 (Hsock _)).
  all: split; [reflexivity|].
  all: split; [reflexivity|].
  all: split; [by apply Hbuf|]; split; [by apply Hws|].
  all: try (right; split; [reflexivity|]; ledger).
  left. split; [reflexivity|]. ledger.
Qed.

(** The same, seen from outside the critical section. *)
Lemma WsOpenListener_ledger w h l url ctx error :
  h <> NULL -> mem w !! h = Some l -> l_magic l = LISTENER_MAGIC ->
  l_state l = WS_LISTENER_STATE_CREATED ->
  returns (WsOpenListener h (Some url) ctx error w) (fun hr w' =>
    exists evs l', trace w' = trace w ++ evs /\ mem w' !! h = Some l' /\
      buffers_allocated evs = buffers_freed evs /\
      ws_heaps_created evs = ws_heaps_freed evs /\
      ((l_state l' = WS_LISTENER_STATE_OPEN /\
        sockets_created evs = [l_socket l'] /\ sockets_closed evs = [])
       \/
       (l_state l' = l_state l /\ sockets_created evs = sockets_closed evs))).
Proof.
  intros Hh Hl Hm Hs. apply (WsOpenListener_created _ _ l); try assumption.
  eapply returns_mono;
    [apply (open_listener_ledger _ _ _ url (entered_lookup w h l))|].
  intros hr w1 (evs & l1 & Htr & Hl1 & Hcs & Hbuf & Hws & Hsock). cbn beta.
  rewrite (LeaveCriticalSection_run _ _ _ (l_cs l) Hl1 Hcs). cbn [returns].
  exists evs, (set_cs (l_cs l) l1). run_mem.
  split; [exact Htr|]. split; [reflexivity|]. split; [exact Hbuf|].
  split; [exact Hws|]. exact Hsock.
Qed.

(** X7.  [WsOpenListener] leaks no socket.  On a live listener in state
    [Created], either the listener ends [Open], and the one socket the
    platform handed out is the one the listener holds, not closed; or the
    listener is still [Created], and every socket handed out during the
    call was passed to [closesocket] before the call returned. *)
Theorem WsOpenListener_leaks_no_socket w h l url ctx error :
  h <> NULL -> mem w !! h = Some l -> l_magic l = LISTENER_MAGIC ->
  l_state l = WS_LISTENER_STATE_CREATED ->
  returns (WsOpenListener h (Some url) ctx error w) (fun hr w' =>
    exists evs l', trace w' = trace w ++ evs /\ mem w' !! h = Some l' /\
      ((l_state l' = WS_LISTENER_STATE_OPEN /\
        sockets_created evs = [l_socket l'] /\ sockets_closed evs = [])
       \/
       (l_state l' = WS_LISTENER_STATE_CREATED /\
        sockets_created evs = sockets_closed evs))).
Proof.
  intros Hh Hl Hm Hs.
  eapply returns_mono; [apply (WsOpenListener_ledger _ _ _ url ctx error Hh Hl Hm Hs)|].
  intros hr w' (evs & l' & Htr & Hl' & _ & _ & Hsock).
  exists evs, l'. split; [assumption|]. split; [assumption|].
  destruct Hsock as [Hopen | [Hst Hbal]]; [left; assumption|].
  right. split; [congruence | assumption].
Qed.

(** X8.  [WsOpenListener] leaks no memory.  On a live listener in state
    [Created], whatever the outcome, the buffer allocated for the copy of
    the host, if one was allocated, has been passed to [heap_free], and the
    heap made for the URL decoder, if it was made, has been freed. *)
Theorem WsOpenListener_leaks_no_memory w h l url ctx error :
  h <> NULL -> mem w !! h = Some l -> l_magic l = LISTENER_MAGIC ->
  l_state l = WS_LISTENER_STATE_CREATED ->
  returns (WsOpenListener h (Some url) ctx error w) (fun hr w' =>
    exists evs, trace w' = trace w ++ evs /\
      buffers_allocated evs = buffers_freed evs /\
      ws_heaps_created evs = ws_heaps_freed evs).
Proof.
  intros Hh Hl Hm Hs.
  eapply returns_mono; [apply (WsOpenListener_ledger _ _ _ url ctx error Hh Hl Hm Hs)|].
  intros hr w' (evs & l' & Htr & _ & Hbuf & Hws & _). eauto.
Qed.

(** ** Reading the state back *)

Lemma WsGetListenerProperty_fields w h l buf error :
  h <> NULL -> mem w !! h = Some l -> l_magic l = LISTENER_MAGIC -> buf <> NULL ->
  WsGetListenerProperty h WS_LISTENER_PROPERTY_STATE buf sizeof_enum error w =
    Some ((S_OK, Some (OutState (l_state l))), w) /\
  WsGetListenerProperty h WS_LISTENER_PROPERTY_CHANNEL_TYPE buf sizeof_enum error w =
    Some ((S_OK, Some (OutChannelType (l_type l))), w) /\
  WsGetListenerProperty h WS_LISTENER_PROPERTY_CHANNEL_BINDING buf sizeof_enum error w =
    Some ((S_OK, Some (OutChannelBinding (l_binding l))), w).
Proof.
  intros Hh Hl Hm Hbuf. unfold WsGetListenerProperty.
  destruct (decide (h = NULL)) as [|_]; [done|].
  repeat split;
    rewrite (enter_load _ _ _ _ Hl);
    (destruct (decide (l_magic (set_cs (S (l_cs l)) l) <> LISTENER_MAGIC)) as [Hn|_];
       [destruct (Hn Hm)|]);
    cbv zeta; rewrite (bindM_Some _ _ _ _ _ (leave_entered _ _ _ Hl));
    repeat match goal with
           | |- context [decide ?P] => destruct (decide P) as [?|?]; try done
           end;
    rewrite (bool_decide_eq_false_2 _ Hbuf);
    rewrite bool_decide_eq_false_2 by (intros Hne; apply Hne; reflexivity);
    reflexivity.
Qed.

(** X1.  What is read back from a new listener.  When the allocator hands
    out a block and the overrides succeed in order, [WsCreateListener]
    returns the handle of a listener from which the state reads as
    [Created] and the channel type and binding read as the ones passed to
    the call, whatever the overrides wrote to the property table. *)
Theorem WsCreateListener_then_read w a properties tbl desc handle error buf :
  handle <> NULL -> buf <> NULL ->
  (os_heap_alloc_zero alloc_size (os w)).1 = a -> a <> NULL ->
  overrides_applied (l_prop_count fresh_listener) (l_prop fresh_listener) properties tbl ->
  returns (WsCreateListener WS_CHANNEL_TYPE_DUPLEX_SESSION WS_TCP_CHANNEL_BINDING
             properties desc handle error w) (fun r w' =>
    r = (S_OK, Some a) /\
    WsGetListenerProperty a WS_LISTENER_PROPERTY_STATE buf sizeof_enum NULL w' =
      Some ((S_OK, Some (OutState WS_LISTENER_STATE_CREATED)), w') /\
    WsGetListenerProperty a WS_LISTENER_PROPERTY_CHANNEL_TYPE buf sizeof_enum NULL w' =
      Some ((S_OK, Some (OutChannelType WS_CHANNEL_TYPE_DUPLEX_SESSION)), w') /\
    WsGetListenerProperty a WS_LISTENER_PROPERTY_CHANNEL_BINDING buf sizeof_enum NULL w' =
      Some ((S_OK, Some (OutChannelBinding WS_TCP_CHANNEL_BINDING)), w')).
Proof.
  intros Hh Hbuf Ha Hnull Happ. unfold WsCreateListener.
  destruct (decide (handle = NULL)) as [|_]; [done|].
  destruct (decide (WS_CHANNEL_TYPE_DUPLEX_SESSION <> WS_CHANNEL_TYPE_DUPLEX_SESSION));
    [done|].
  destruct (decide (WS_TCP_CHANNEL_BINDING <> WS_TCP_CHANNEL_BINDING)); [done|].
  wp_step. eapply returns_mono; [apply (create_listener_ok _ _ _ _ _ _ Ha Hnull Happ)|].
  intros r w' (-> & Hmem & _ & _). cbn beta. wp; try done.
  split; [reflexivity|].
  match type of Hmem with
  | _ = <[a:=?l']> _ =>
      assert (mem w' !! a = Some l') as Hl' by (rewrite Hmem; apply lookup_insert_eq)
  end.
  exact (WsGetListenerProperty_fields _ _ _ _ _ Hnull Hl' eq_refl Hbuf).
Qed.

(** X2.  The state that is read follows the life cycle.  On a live
    listener, a read of the state right after [WsCloseListener] gives
    [Closed]; a read right after [WsOpenListener] on a [Created] listener
    gives [Open] when the open returned [S_OK] through all its steps, and
    [Created] otherwise, in which case the open returned an error on a
    platform whose failing socket calls report a failure code. *)
Theorem state_read_follows_lifecycle w h l url ctx error buf :
  h <> NULL -> mem w !! h = Some l -> l_magic l = LISTENER_MAGIC -> buf <> NULL ->
  returns (bindM (WsCloseListener h ctx error) (fun _ =>
             WsGetListenerProperty h WS_LISTENER_PROPERTY_STATE buf sizeof_enum NULL) w)
    (fun out _ => out = (S_OK, Some (OutState WS_LISTENER_STATE_CLOSED))) /\
  (l_state l = WS_LISTENER_STATE_CREATED ->
   returns (bindM (WsOpenListener h (Some url) ctx error) (fun hr =>
            bindM (WsGetListenerProperty h WS_LISTENER_PROPERTY_STATE buf sizeof_enum NULL)
              (fun out => ret (hr, out))) w)
     (fun r _ =>
        r = (S_OK, (S_OK, Some (OutState WS_LISTENER_STATE_OPEN))) \/
        (r.2 = (S_OK, Some (OutState WS_LISTENER_STATE_CREATED)) /\
         (winsock_reports_errors -> r.1 <> S_OK)))).
Proof.
  intros Hh Hl Hm Hbuf. split.
  - apply returns_bind. rewrite (WsCloseListener_run _ _ _ _ _ Hh Hl Hm). cbn [returns].
    match goal with |- returns (_ ?w1) _ =>
      assert (mem w1 !! h = Some (set_state WS_LISTENER_STATE_CLOSED (set_socket (-1) l)))
        as Hl1 by (run_mem; first [reflexivity | apply lookup_insert_eq]);
      rewrite (proj1 (WsGetListenerProperty_fields w1 h _ buf NULL Hh Hl1 Hm Hbuf))
    end.
    reflexivity.
  - intros Hs. apply returns_bind.
    eapply returns_mono; [apply (WsOpenListener_outcome _ _ _ url ctx error Hh Hl Hm Hs)|].
    intros hr w' (_ & evs & _ & [(-> & s & addr & _ & Hmem & _) | (Hhr & Hmem & _)]);
      cbn beta; apply returns_bind.
    + assert (mem w' !! h = Some (set_state WS_LISTENER_STATE_OPEN (set_socket s l)))
        as Hl' by (rewrite Hmem; apply lookup_insert_eq).
      rewrite (proj1 (WsGetListenerProperty_fields w' h _ buf NULL Hh Hl' Hm Hbuf)).
      cbn. left. reflexivity.
    + assert (exists l', mem w' !! h = Some l' /\ l_magic l' = LISTENER_MAGIC /\
                l_state l' = WS_LISTENER_STATE_CREATED) as (l' & Hl' & Hm' & Hs').
      { destruct Hmem as [[Hmem _]|Hmem]; rewrite Hmem.
        - exists l. auto.
        - eexists. split; [apply lookup_insert_eq|]. auto. }
      rewrite (proj1 (WsGetListenerProperty_fields w' h _ buf NULL Hh Hl' Hm' Hbuf)).
      cbn. right. rewrite Hs'. auto.
Qed.

End Resources.

(** ** The end of a handle *)

Section Handles.
Context `{PropOps} `{Sizes} `{Platform}.

Implicit Types (w : world) (l : listener) (h p : pointer).

(** [WsCreateListener] when the allocator hands out a block and the
    overrides succeed. *)
Lemma WsCreateListener_ok w a properties tbl desc handle error :
  handle <> NULL ->
  (os_heap_alloc_zero alloc_size (os w)).1 = a -> a <> NULL ->
  overrides_applied (l_prop_count fresh_listener) (l_prop fresh_listener) properties tbl ->
  returns (WsCreateListener WS_CHANNEL_TYPE_DUPLEX_SESSION WS_TCP_CHANNEL_BINDING
             properties desc handle error w) (fun r w' =>
    r = (S_OK, Some a) /\
    mem w' = <[a := set_socket (-1)
                      (set_binding WS_TCP_CHANNEL_BINDING
                         (set_type WS_CHANNEL_TYPE_DUPLEX_SESSION
                            (set_prop tbl fresh_listener)))]> (mem w) /\
    live w' = {[a]} ∪ live w /\
    trace w' = trace w ++ [EvHeapAllocZero alloc_size a]).
Proof.
  intros Hh Ha Hnull Happ. unfold WsCreateListener.
  destruct (decide (handle = NULL)) as [|_]; [done|].
  destruct (decide (WS_CHANNEL_TYPE_DUPLEX_SESSION <> WS_CHANNEL_TYPE_DUPLEX_SESSION));
    [done|].
  destruct (decide (WS_TCP_CHANNEL_BINDING <> WS_TCP_CHANNEL_BINDING)); [done|].
  wp_step. eapply returns_mono; [apply (create_listener_ok _ _ _ _ _ _ Ha Hnull Happ)|].
  intros r w' (-> & Hmem & Hlive & Htr). cbn beta. wp; try done.
Qed.

(** An operation on a handle at which no block is allocated reads released
    storage: it has no result.  Only an open with a null URL returns before
    it touches the block. *)
Lemma run_op_dangling w h o :
  h <> NULL -> mem w !! h = None -> o <> OpOpen None -> run_op h o w = None.
Proof.
  intros Hh Hnone Ho.
  destruct o as [[url|] | | id buf size | id value size | ]; [| done | | | |];
    cbn [run_op];
    unfold WsOpenListener, WsCloseListener, WsGetListenerProperty,
      WsSetListenerProperty, WsFreeListener;
    (destruct (decide (h = NULL)) as [|_]; [done|]);
    unfold bindM, EnterCriticalSection, store; rewrite Hnone; reflexivity.
Qed.

(** C5, as the code has it.  [WsFreeListener] on a live listener hands the
    socket to [closesocket] and releases the block, the cleared tag with
    it: the handle is dangling.  Nothing is kept of a released handle, so
    from then on an operation on it that reaches the listener (an open with
    a URL, a close, a property read or write, a second free) reads released
    storage and has no result; and once the allocator has handed the block
    out again for a new listener, the old handle is taken for that listener:
    a close through it returns [S_OK]. *)
Theorem WsFreeListener_leaves_handle_dangling w h l :
  h <> NULL -> mem w !! h = Some l -> l_magic l = LISTENER_MAGIC ->
  returns (WsFreeListener h w) (fun _ w1 =>
    (h ∉ live w1) /\ mem w1 !! h = None /\
    (exists r, trace w1 = trace w ++ [EvClosesocket (l_socket l) r; EvHeapFree h]) /\
    (forall o, o <> OpOpen None -> run_op h o w1 = None) /\
    (forall properties tbl desc handle error,
       handle <> NULL ->
       (os_heap_alloc_zero alloc_size (os w1)).1 = h ->
       overrides_applied (l_prop_count fresh_listener) (l_prop fresh_listener)
         properties tbl ->
       returns (WsCreateListener WS_CHANNEL_TYPE_DUPLEX_SESSION WS_TCP_CHANNEL_BINDING
                  properties desc handle error w1) (fun r w2 =>
         r = (S_OK, Some h) /\
         exists w3, WsCloseListener h NULL NULL w2 = Some (S_OK, w3)))).
Proof.
  intros Hh Hl Hm.
  eapply returns_mono; [apply (WsFreeListener_run _ _ _ Hh Hl Hm)|].
  intros _ w1 (Hmem & Hlive & _ & _ & Htr).
  assert (mem w1 !! h = None) as Hnone by (rewrite Hmem; apply lookup_delete_eq).
  split; [rewrite Hlive; set_solver|]. split; [exact Hnone|].
  split; [eexists; exact Htr|]. split.
  - intros o Ho. by apply run_op_dangling.
  - intros properties tbl desc handle error Hhandle Ha Happ.
    eapply returns_mono; [apply (WsCreateListener_ok _ _ _ _ _ _ _ Hhandle Ha Hh Happ)|].
    intros r w2 (-> & Hmem2 & _). split; [reflexivity|].
    assert (mem w2 !! h = Some (set_socket (-1)
              (set_binding WS_TCP_CHANNEL_BINDING
                 (set_type WS_CHANNEL_TYPE_DUPLEX_SESSION (set_prop tbl fresh_listener)))))
      as Hl2 by (rewrite Hmem2; apply lookup_insert_eq).
    eexists. exact (WsCloseListener_run _ _ _ NULL NULL Hh Hl2 eq_refl).
Qed.

(** X17.  Create, then free.  When the allocator hands out a block that
    was not live and the overrides succeed in order, a [WsCreateListener]
    followed by a [WsFreeListener] of the handle it stored leaves the set of
    live blocks as it was and no block at the address; the platform calls
    are the allocation, a [closesocket] of the absent sentinel [-1] and the
    release of the block. *)
Theorem create_then_free_round_trip w a properties tbl desc handle error :
  handle <> NULL ->
  (os_heap_alloc_zero alloc_size (os w)).1 = a -> a <> NULL -> a ∉ live w ->
  overrides_applied (l_prop_count fresh_listener) (l_prop fresh_listener) properties tbl ->
  returns (bindM (WsCreateListener WS_CHANNEL_TYPE_DUPLEX_SESSION WS_TCP_CHANNEL_BINDING
                    properties desc handle error)
             (fun r => match r.2 with
                       | Some p => WsFreeListener p
                       | None => ret tt
                       end) w)
    (fun _ w' =>
       live w' = live w /\
       mem w' = delete a (mem w) /\
       (exists r, trace w' = trace w ++
          [EvHeapAllocZero alloc_size a; EvClosesocket (-1) r; EvHeapFree a])).
Proof.
  intros Hh Ha Hnull Hfresh Happ. apply returns_bind.
  eapply returns_mono; [apply (WsCreateListener_ok _ _ _ _ _ _ _ Hh Ha Hnull Happ)|].
  intros r w1 (-> & Hmem & Hlive & Htr). cbn beta. cbn [snd].
  assert (mem w1 !! a = Some (set_socket (-1)
            (set_binding WS_TCP_CHANNEL_BINDING
               (set_type WS_CHANNEL_TYPE_DUPLEX_SESSION (set_prop tbl fresh_listener)))))
    as Hl1 by (rewrite Hmem; apply lookup_insert_eq).
  eapply returns_mono; [apply (WsFreeListener_run _ _ _ Hnull Hl1 eq_refl)|].
  intros _ w' (Hmem' & Hlive' & _ & _ & Htr').
  split; [rewrite Hlive', Hlive; set_solver|].
  split; [rewrite Hmem', Hmem; apply delete_insert_eq|].
  eexists. rewrite Htr', Htr, <- app_assoc. reflexivity.
Qed.

End Handles.


(** * The code on concrete inputs *)

Section Concrete.
#[local] Existing Instance spec_props.
#[local] Existing Instance test_sizes.
#[local] Existing Instance test_platform.

(** The test platform keeps the Winsock contract. *)
Lemma test_platform_reports_errors : winsock_reports_errors.
Proof.
  split.
  - intros af ty protocol o Hfail. unfold failure_reported. cbn in *.
    destruct (bool_decide (af = AF_INET \/ af = AF_INET6)); cbn in *.
    + discriminate Hfail.
    + vm_compute. discriminate.
  - intros s addr len o Hfail. unfold failure_reported. cbn in *.
    destruct (t_bind_ok o); cbn in *; [lia|]. vm_compute. discriminate.
  - intros s backlog o Hfail. unfold failure_reported. cbn in *.
    destruct (t_listen_ok o); cbn in *; [lia|]. vm_compute. discriminate.
Qed.

(** Opening on [localhost]: the second candidate, the IPv6 loopback, is the
    one bound. *)
Example open_localhost :
  WsOpenListener test_handle (Some (wstr "localhost")) NULL NULL test_created
    = Some (S_OK, test_opened).
Proof. vm_compute. reflexivity. Qed.

Example open_localhost_steps :
  steps (drop (length (trace test_created)) (trace test_opened))
    = open_order (wstr "localhost") (memcpy (replicate 128 xcc) loopback6 28).
Proof. vm_compute. reflexivity. Qed.

(** A host that does not resolve: the translated resolver error, and the
    listener as it was. *)
Example open_unresolved :
  exists w', WsOpenListener test_handle (Some (wstr "nowhere")) NULL NULL test_created
               = Some (HRESULT_FROM_WIN32 WSAHOST_NOT_FOUND, w') /\
             mem w' = mem test_created.
Proof. eexists. split; vm_compute; reflexivity. Qed.

(** A failing [bind]: the socket is closed again and the listener is as it
    was. *)
Example open_bind_fails :
  exists w', WsOpenListener test_handle (Some (wstr "localhost")) NULL NULL
               test_created_bind_fails
               = Some (HRESULT_FROM_WIN32 WSAEADDRINUSE, w') /\
             mem w' = mem test_created_bind_fails /\
             last (trace w') = Some (EvWSAGetLastError WSAEADDRINUSE) /\
             EvClosesocket 100 0 ∈ trace w'.
Proof.
  eexists. split; [vm_compute; reflexivity|]. split; [vm_compute; reflexivity|].
  split; [vm_compute; reflexivity|]. vm_compute. set_solver.
Qed.

(** ** The theorems at concrete inputs *)

(** C3 at the opened listener of the test platform, closed three times. *)
Lemma WsCloseListener_always_closes_witness :
  test_handle <> NULL /\
  mem test_opened !! test_handle = Some test_listener_open /\
  l_magic test_listener_open = LISTENER_MAGIC /\
  exists w',
    close_n 3 test_handle test_opened = Some (replicate 3 S_OK, w') /\
    mem w' = <[test_handle := set_state WS_LISTENER_STATE_CLOSED
                                (set_socket (-1) test_listener_open)]> (mem test_opened) /\
    live w' = live test_opened /\
    exists r evs,
      trace w' = trace test_opened ++ EvClosesocket (l_socket test_listener_open) r :: evs.
Proof.
  assert (test_handle <> NULL) as Hh by discriminate.
  assert (mem test_opened !! test_handle = Some test_listener_open) as Hl
    by (vm_compute; reflexivity).
  assert (l_magic test_listener_open = LISTENER_MAGIC) as Hm by reflexivity.
  repeat (split; [assumption|]).
  exact (WsCloseListener_always_closes test_opened test_handle test_listener_open 2 Hh Hl Hm).
Defined.

(** C4 at the listener of the test platform: writes to the state and to the
    channel type. *)
Lemma WsSetListenerProperty_readonly_witness :
  test_handle <> NULL /\
  mem test_created !! test_handle = Some test_listener /\
  l_magic test_listener = LISTENER_MAGIC /\
  props_wf test_listener /\
  set_all test_handle
    [ {| prop_id := WS_LISTENER_PROPERTY_STATE;
         prop_value := Some [x02; x00; x00; x00]; prop_valueSize := 4 |}
    ; {| prop_id := WS_LISTENER_PROPERTY_CHANNEL_TYPE;
         prop_value := Some [x01; x00; x00; x00]; prop_valueSize := 4 |} ]
    test_created
  = Some ([E_INVALIDARG; E_INVALIDARG], test_created).
Proof.
  assert (test_handle <> NULL) as Hh by discriminate.
  assert (mem test_created !! test_handle = Some test_listener) as Hl
    by (vm_compute; reflexivity).
  assert (l_magic test_listener = LISTENER_MAGIC) as Hm by reflexivity.
  assert (props_wf test_listener) as Hwf by (split; reflexivity).
  repeat (split; [assumption|]).
  destruct (WsSetListenerProperty_readonly test_created test_handle test_listener
              Hh Hl Hm Hwf) as [(Hstate & Htype & _) [Hro _]].
  apply (Hro [_; _]).
  constructor; [exact Hstate|]. constructor; [exact Htype|]. constructor.
Defined.

(** C6 on the test platform: [localhost] has a candidate of another family
    first, then the IPv6 loopback. *)
Lemma resolve_hostname_first_inet_candidate_witness :
  (os_GetAddrInfoW (Some (wstr "localhost" ++ [0])) (sprintfW_u 8080) test_os0).1.1 = 0 /\
  (os_GetAddrInfoW (Some (wstr "localhost" ++ [0])) (sprintfW_u 8080) test_os0).1.2 =
    [ {| ai_family := 1; ai_addrlen := 2; ai_addr := [x01; x00] |} ] ++
    {| ai_family := AF_INET6; ai_addrlen := 28; ai_addr := loopback6 |} ::
    [ {| ai_family := AF_INET; ai_addrlen := 16; ai_addr := loopback4 |} ] /\
  returns (resolve_hostname (Some (wstr "localhost" ++ [0])) 8080 (replicate 128 xcc)
             (test_world test_os0)) (fun out _ =>
    out = (S_OK, memcpy (replicate 128 xcc) loopback6 28, 28)).
Proof.
  split; [reflexivity|]. split; [reflexivity|].
  apply (proj1 (proj2 (resolve_hostname_first_inet_candidate (test_world test_os0)
                         (Some (wstr "localhost" ++ [0])) 8080 (replicate 128 xcc)))
           eq_refl
           [ {| ai_family := 1; ai_addrlen := 2; ai_addr := [x01; x00] |} ]
           {| ai_family := AF_INET6; ai_addrlen := 28; ai_addr := loopback6 |}
           [ {| ai_family := AF_INET; ai_addrlen := 16; ai_addr := loopback4 |} ]).
  - reflexivity.
  - repeat constructor; discriminate.
  - right. reflexivity.
Defined.

(** C7 on the test platform: the backlog is set, then a write to the state
    fails, and a third override is never reached. *)
Lemma create_listener_first_failing_override_witness :
  (os_heap_alloc_zero alloc_size (os (test_world test_os0))).1 = test_handle /\
  test_handle <> NULL /\
  returns (create_listener WS_CHANNEL_TYPE_DUPLEX_SESSION WS_TCP_CHANNEL_BINDING
             ([ {| prop_id := 0; prop_value := Some [x05; x00; x00; x00];
                   prop_valueSize := 4 |} ] ++
              {| prop_id := WS_LISTENER_PROPERTY_STATE;
                 prop_value := Some [x02; x00; x00; x00]; prop_valueSize := 4 |} ::
              [ {| prop_id := 1; prop_value := Some [x01; x00; x00; x00];
                   prop_valueSize := 4 |} ])
             (test_world test_os0)) (fun r w' =>
    r = (E_INVALIDARG, None) /\
    (test_handle ∉ live w') /\
    live w' = live (test_world test_os0) ∖ {[test_handle]} /\
    exists r1, trace w' = trace (test_world test_os0) ++
      [EvHeapAllocZero alloc_size test_handle; EvClosesocket 0 r1; EvHeapFree test_handle]).
Proof.
  assert ((os_heap_alloc_zero alloc_size (os (test_world test_os0))).1 = test_handle) as Ha
    by reflexivity.
  assert (test_handle <> NULL) as Hh by discriminate.
  repeat (split; [assumption|]).
  eapply (proj1 (create_listener_first_failing_override (test_world test_os0) test_handle
                   WS_CHANNEL_TYPE_DUPLEX_SESSION WS_TCP_CHANNEL_BINDING Ha Hh)).
  - eapply applied_cons; [vm_compute; reflexivity | apply applied_nil].
  - vm_compute. reflexivity.
  - vm_compute. discriminate.
Defined.

(** C8 on the test platform: a datagram-style channel type is refused. *)
Lemma WsCreateListener_accepts_only_duplex_session_over_tcp_witness :
  (1%N <> NULL) /\
  WsCreateListener 1 WS_TCP_CHANNEL_BINDING [] NULL 1%N NULL (test_world test_os0)
    = Some ((E_NOTIMPL, None), test_world test_os0) /\
  E_NOTIMPL <> S_OK.
Proof.
  assert (1%N <> NULL) as Hh by discriminate.
  split; [assumption|].
  apply (proj1 (WsCreateListener_accepts_only_duplex_session_over_tcp (test_world test_os0)
                  1 WS_TCP_CHANNEL_BINDING [] NULL 1%N NULL Hh)).
  left. discriminate.
Defined.

(** C9, as the code has it, at the listener of the test platform: the
    URL decodes, the host resolves, and the socket part runs on the
    resolved address. *)
Lemma WsOpenListener_step_order_witness :
  test_handle <> NULL /\
  mem test_created !! test_handle = Some test_listener /\
  l_magic test_listener = LISTENER_MAGIC /\
  l_state test_listener = WS_LISTENER_STATE_CREATED /\
  exists hr1 host port w1,
    parse_url (wstr "localhost") (entered test_handle test_listener test_created)
      = Some ((hr1, host, port), w1) /\
    returns (WsOpenListener test_handle (Some (wstr "localhost")) NULL NULL test_created)
      (fun hr w' =>
        (exists evs, trace w' = trace test_created ++ evs /\
           (exists addr, steps evs `prefix_of` open_order (wstr "localhost") addr) /\
           (forall l', mem w' !! test_handle = Some l' ->
                       l_state l' = WS_LISTENER_STATE_OPEN ->
                       exists addr, steps evs = open_order (wstr "localhost") addr)) /\
        ((hr1 <> S_OK /\ hr = hr1 /\ w' = with_mem (mem test_created) w1 /\
          once w' = once test_created /\
          winsock_loaded w' = winsock_loaded test_created /\
          exists evs, trace w' = trace test_created ++ evs /\
                      steps evs `prefix_of` [StepDecodeUrl (wstr "localhost")])
         \/
         (hr1 = S_OK /\
          exists w2 hr3 addr len w3,
            winsock_init w1 = Some (tt, w2) /\
            resolve_hostname (if decide (host.1 = NULL) then None else Some host.2) port
              (os_stack_sockaddr_storage (os test_created)) w2
              = Some ((hr3, addr, len), w3) /\
            exists tail l',
              trace w' = trace w3 ++ EvHeapFree host.1 :: tail /\
              mem w' = <[test_handle := l']> (mem test_created) /\
              ((hr3 <> S_OK /\ hr = hr3 /\ tail = [] /\ l' = test_listener) \/
               (hr3 = S_OK /\ socket_steps addr len test_listener hr tail l'))))).
Proof.
  assert (test_handle <> NULL) as Hh by discriminate.
  assert (mem test_created !! test_handle = Some test_listener) as Hl
    by (vm_compute; reflexivity).
  assert (l_magic test_listener = LISTENER_MAGIC) as Hm by reflexivity.
  assert (l_state test_listener = WS_LISTENER_STATE_CREATED) as Hs by reflexivity.
  do 4 (split; [assumption|]).
  exact (WsOpenListener_step_order test_created test_handle test_listener
           (wstr "localhost") NULL NULL Hh Hl Hm Hs).
Defined.

(** C9 as the spec words it fails: on the test platform the listener opens
    on [localhost], and the steps logged are not in the order of the spec
    for any address; the URL is decoded before the bootstrap runs. *)
Lemma spec_open_order_counterexample :
  WsOpenListener test_handle (Some (wstr "localhost")) NULL NULL test_created
    = Some (S_OK, test_opened) /\
  trace test_opened =
    trace test_created ++ drop (length (trace test_created)) (trace test_opened) /\
  (forall addr,
     steps (drop (length (trace test_created)) (trace test_opened))
       <> spec_open_order (wstr "localhost") addr) /\
  take 2 (steps (drop (length (trace test_created)) (trace test_opened)))
    = [StepDecodeUrl (wstr "localhost"); StepBootstrap].
Proof.
  split; [vm_compute; reflexivity|]. split; [vm_compute; reflexivity|].
  split; [|vm_compute; reflexivity].
  intros addr Heq.
  assert (head (steps (drop (length (trace test_created)) (trace test_opened)))
          = head (spec_open_order (wstr "localhost") addr)) as Hhead by (rewrite Heq; reflexivity).
  vm_compute in Hhead. discriminate Hhead.
Qed.

(** C10 at the listener of the test platform: a null buffer. *)
Lemma WsGetListenerProperty_null_buffer_witness :
  test_handle <> NULL /\
  mem test_created !! test_handle = Some test_listener /\
  l_magic test_listener = LISTENER_MAGIC /\
  WsGetListenerProperty test_handle WS_LISTENER_PROPERTY_STATE NULL 4 NULL test_created
    = Some ((E_INVALIDARG, None), test_created).
Proof.
  assert (test_handle <> NULL) as Hh by discriminate.
  assert (mem test_created !! test_handle = Some test_listener) as Hl
    by (vm_compute; reflexivity).
  assert (l_magic test_listener = LISTENER_MAGIC) as Hm by reflexivity.
  repeat (split; [assumption|]).
  apply (WsGetListenerProperty_null_buffer test_created test_handle test_listener
           WS_LISTENER_PROPERTY_STATE NULL 4 NULL Hh Hl Hm).
  - left. reflexivity.
  - left. reflexivity.
Defined.

End Concrete.

(** * The further properties on concrete inputs *)

Section MoreConcrete.
#[local] Existing Instance spec_props.
#[local] Existing Instance test_sizes.
#[local] Existing Instance test_platform.

(** X1 on the test platform, with no overrides. *)
Lemma WsCreateListener_then_read_witness :
  (1%N <> NULL /\ 2%N <> NULL) /\
  (os_heap_alloc_zero alloc_size (os (test_world test_os0))).1 = test_handle /\
  test_handle <> NULL /\
  overrides_applied (l_prop_count fresh_listener) (l_prop fresh_listener) []
    (l_prop fresh_listener) /\
  returns (WsCreateListener WS_CHANNEL_TYPE_DUPLEX_SESSION WS_TCP_CHANNEL_BINDING
             [] NULL 1%N NULL (test_world test_os0)) (fun r w' =>
    r = (S_OK, Some test_handle) /\
    WsGetListenerProperty test_handle WS_LISTENER_PROPERTY_STATE 2%N sizeof_enum NULL w' =
      Some ((S_OK, Some (OutState WS_LISTENER_STATE_CREATED)), w') /\
    WsGetListenerProperty test_handle WS_LISTENER_PROPERTY_CHANNEL_TYPE 2%N sizeof_enum
        NULL w' =
      Some ((S_OK, Some (OutChannelType WS_CHANNEL_TYPE_DUPLEX_SESSION)), w') /\
    WsGetListenerProperty test_handle WS_LISTENER_PROPERTY_CHANNEL_BINDING 2%N sizeof_enum
        NULL w' =
      Some ((S_OK, Some (OutChannelBinding WS_TCP_CHANNEL_BINDING)), w')).
Proof.
  assert (1%N <> NULL) as Hh by discriminate.
  assert (2%N <> NULL) as Hbuf by discriminate.
  assert ((os_heap_alloc_zero alloc_size (os (test_world test_os0))).1 = test_handle)
    as Ha by reflexivity.
  assert (test_handle <> NULL) as Hnull by discriminate.
  assert (overrides_applied (l_prop_count fresh_listener) (l_prop fresh_listener) []
            (l_prop fresh_listener)) as Happ by constructor.
  split; [split; assumption|]. do 3 (split; [assumption|]).
  exact (WsCreateListener_then_read (test_world test_os0) test_handle [] _ NULL 1%N NULL
           2%N Hh Hbuf Ha Hnull Happ).
Defined.

(** X2 at the listener of the test platform. *)
Lemma state_read_follows_lifecycle_witness :
  test_handle <> NULL /\
  mem test_created !! test_handle = Some test_listener /\
  l_magic test_listener = LISTENER_MAGIC /\
  2%N <> NULL /\
  l_state test_listener = WS_LISTENER_STATE_CREATED /\
  returns (bindM (WsCloseListener test_handle NULL NULL) (fun _ =>
             WsGetListenerProperty test_handle WS_LISTENER_PROPERTY_STATE 2%N sizeof_enum
               NULL) test_created)
    (fun out _ => out = (S_OK, Some (OutState WS_LISTENER_STATE_CLOSED))) /\
  returns (bindM (WsOpenListener test_handle (Some (wstr "localhost")) NULL NULL) (fun hr =>
           bindM (WsGetListenerProperty test_handle WS_LISTENER_PROPERTY_STATE 2%N
                    sizeof_enum NULL)
             (fun out => ret (hr, out))) test_created)
    (fun r _ =>
       r = (S_OK, (S_OK, Some (OutState WS_LISTENER_STATE_OPEN))) \/
       (r.2 = (S_OK, Some (OutState WS_LISTENER_STATE_CREATED)) /\
        (winsock_reports_errors -> r.1 <> S_OK))).
Proof.
  assert (test_handle <> NULL) as Hh by discriminate.
  assert (mem test_created !! test_handle = Some test_listener) as Hl
    by (vm_compute; reflexivity).
  assert (l_magic test_listener = LISTENER_MAGIC) as Hm by reflexivity.
  assert (2%N <> NULL) as Hbuf by discriminate.
  assert (l_state test_listener = WS_LISTENER_STATE_CREATED) as Hs by reflexivity.
  do 5 (split; [assumption|]).
  destruct (state_read_follows_lifecycle test_created test_handle test_listener
              (wstr "localhost") NULL NULL 2%N Hh Hl Hm Hbuf) as [Hclose Hopen].
  split; [exact Hclose | exact (Hopen Hs)].
Defined.

(** X4 on the test platform: three calls of the bootstrap. *)
Lemma winsock_init_runs_startup_once_witness :
  once (test_world test_os0) = false /\
  returns (winsock_init_n 3 (test_world test_os0)) (fun _ w' =>
    once w' = true /\
    startups (drop (length (trace (test_world test_os0))) (trace w')) = [MAKEWORD 1 1]).
Proof.
  split; [reflexivity|].
  eapply returns_mono;
    [exact (winsock_init_runs_startup_once (test_world test_os0) 2 eq_refl)|].
  intros _ w' (Ho & _ & _ & Hs). split; assumption.
Defined.

(** X5 on the test platform: the host [localhost] is copied, the port is
    the decoded one. *)
Lemma parse_url_host_witness :
  returns (parse_url (wstr "localhost") (test_world test_os0)) (fun r w' =>
    mem w' = mem (test_world test_os0) /\
    (r.1.1 = S_OK -> r.2 = 8080)).
Proof.
  eapply returns_mono; [exact (parse_url_host (wstr "localhost") (test_world test_os0))|].
  intros r w' (Hmem & _ & evs & _ & _ & _ & Hok). split; [exact Hmem|].
  intros Hr. destruct (Hok Hr) as (url & Hd & -> & _).
  vm_compute in Hd. injection Hd as <-. reflexivity.
Defined.

(** X6 at the listener of the test platform: the empty URL does not
    decode. *)
Lemma WsOpenListener_undecodable_url_witness :
  test_handle <> NULL /\
  mem test_created !! test_handle = Some test_listener /\
  l_magic test_listener = LISTENER_MAGIC /\
  l_state test_listener = WS_LISTENER_STATE_CREATED /\
  (os_WsDecodeUrl [] (os_WsCreateHeap (os test_created)).2).1.1 <> S_OK /\
  returns (WsOpenListener test_handle (Some []) NULL NULL test_created) (fun hr w' =>
    hr <> S_OK /\ mem w' = mem test_created /\ once w' = once test_created /\
    exists evs, trace w' = trace test_created ++ evs /\ winsock_events evs = []).
Proof.
  assert (test_handle <> NULL) as Hh by discriminate.
  assert (mem test_created !! test_handle = Some test_listener) as Hl
    by (vm_compute; reflexivity).
  assert (l_magic test_listener = LISTENER_MAGIC) as Hm by reflexivity.
  assert (l_state test_listener = WS_LISTENER_STATE_CREATED) as Hs by reflexivity.
  assert ((os_WsDecodeUrl [] (os_WsCreateHeap (os test_created)).2).1.1 <> S_OK) as Hbad
    by (vm_compute; discriminate).
  do 5 (split; [assumption|]).
  eapply returns_mono;
    [exact (WsOpenListener_undecodable_url test_created test_handle test_listener []
              NULL NULL Hh Hl Hm Hs (or_intror Hbad))|].
  intros hr w' (Hhr & _ & Hmem & _ & Honce & _ & evs & Htr & Hws & _).
  split; [exact Hhr|]. split; [exact Hmem|]. split; [exact Honce|].
  exists evs. split; assumption.
Defined.

(** X7 at the listener of the test platform, on a platform where [bind]
    fails. *)
Lemma WsOpenListener_leaks_no_socket_witness :
  test_handle <> NULL /\
  mem test_created_bind_fails !! test_handle = Some test_listener /\
  l_magic test_listener = LISTENER_MAGIC /\
  l_state test_listener = WS_LISTENER_STATE_CREATED /\
  returns (WsOpenListener test_handle (Some (wstr "localhost")) NULL NULL
             test_created_bind_fails) (fun hr w' =>
    exists evs l', trace w' = trace test_created_bind_fails ++ evs /\
      mem w' !! test_handle = Some l' /\
      ((l_state l' = WS_LISTENER_STATE_OPEN /\
        sockets_created evs = [l_socket l'] /\ sockets_closed evs = [])
       \/
       (l_state l' = WS_LISTENER_STATE_CREATED /\
        sockets_created evs = sockets_closed evs))).
Proof.
  assert (test_handle <> NULL) as Hh by discriminate.
  assert (mem test_created_bind_fails !! test_handle = Some test_listener) as Hl
    by (vm_compute; reflexivity).
  assert (l_magic test_listener = LISTENER_MAGIC) as Hm by reflexivity.
  assert (l_state test_listener = WS_LISTENER_STATE_CREATED) as Hs by reflexivity.
  do 4 (split; [assumption|]).
  exact (WsOpenListener_leaks_no_socket test_created_bind_fails test_handle test_listener
           (wstr "localhost") NULL NULL Hh Hl Hm Hs).
Defined.

(** X8 at the listener of the test platform. *)
Lemma WsOpenListener_leaks_no_memory_witness :
  test_handle <> NULL /\
  mem test_created !! test_handle = Some test_listener /\
  l_magic test_listener = LISTENER_MAGIC /\
  l_state test_listener = WS_LISTENER_STATE_CREATED /\
  returns (WsOpenListener test_handle (Some (wstr "localhost")) NULL NULL test_created)
    (fun hr w' =>
       exists evs, trace w' = trace test_created ++ evs /\
         buffers_allocated evs = buffers_freed evs /\
         ws_heaps_created evs = ws_heaps_freed evs).
Proof.
  assert (test_handle <> NULL) as Hh by discriminate.
  assert (mem test_created !! test_handle = Some test_listener) as Hl
    by (vm_compute; reflexivity).
  assert (l_magic test_listener = LISTENER_MAGIC) as Hm by reflexivity.
  assert (l_state test_listener = WS_LISTENER_STATE_CREATED) as Hs by reflexivity.
  do 4 (split; [assumption|]).
  exact (WsOpenListener_leaks_no_memory test_created test_handle test_listener
           (wstr "localhost") NULL NULL Hh Hl Hm Hs).
Defined.

(** X9 at the opened listener of the test platform: a second open, a write
    and a read. *)
Lemma open_does_nothing_outside_created_witness :
  test_handle <> NULL /\
  mem test_opened !! test_handle = Some test_listener_open /\
  l_magic test_listener_open = LISTENER_MAGIC /\
  l_state test_listener_open <> WS_LISTENER_STATE_CREATED /\
  Forall passive [OpOpen (Some (wstr "localhost"));
                  OpSetProperty 0 (Some [x05; x00; x00; x00]) 4;
                  OpGetProperty WS_LISTENER_PROPERTY_STATE 2%N 4] /\
  returns (run_ops test_handle
             [OpOpen (Some (wstr "localhost"));
              OpSetProperty 0 (Some [x05; x00; x00; x00]) 4;
              OpGetProperty WS_LISTENER_PROPERTY_STATE 2%N 4] test_opened) (fun _ w' =>
    trace w' = trace test_opened /\ os w' = os test_opened /\
    live w' = live test_opened /\
    exists l', mem w' !! test_handle = Some l' /\
      l_state l' = l_state test_listener_open /\
      l_socket l' = l_socket test_listener_open /\
      l_type l' = l_type test_listener_open /\
      l_binding l' = l_binding test_listener_open).
Proof.
  assert (test_handle <> NULL) as Hh by discriminate.
  assert (mem test_opened !! test_handle = Some test_listener_open) as Hl
    by (vm_compute; reflexivity).
  assert (l_magic test_listener_open = LISTENER_MAGIC) as Hm by reflexivity.
  assert (l_state test_listener_open <> WS_LISTENER_STATE_CREATED) as Hs by discriminate.
  assert (Forall passive [OpOpen (Some (wstr "localhost"));
                          OpSetProperty 0 (Some [x05; x00; x00; x00]) 4;
                          OpGetProperty WS_LISTENER_PROPERTY_STATE 2%N 4]) as Hp
    by (repeat constructor).
  do 5 (split; [assumption|]).
  exact (open_does_nothing_outside_created test_handle _ test_opened test_listener_open
           Hh Hl Hm Hs Hp).
Defined.

(** X10 at the listener of the test platform: open, close, open again, a
    property write. *)
Lemma lifecycle_invariant_witness :
  test_handle <> NULL /\
  mem test_created !! test_handle = Some test_listener /\
  l_magic test_listener = LISTENER_MAGIC /\
  lifecycle_inv test_listener /\
  Forall keeps_block
    [OpOpen (Some (wstr "localhost")); OpClose; OpOpen (Some (wstr "localhost"));
     OpSetProperty 0 (Some [x05; x00; x00; x00]) 4] /\
  returns (run_ops test_handle
             [OpOpen (Some (wstr "localhost")); OpClose;
              OpOpen (Some (wstr "localhost"));
              OpSetProperty 0 (Some [x05; x00; x00; x00]) 4] test_created) (fun _ w' =>
    exists l', mem w' !! test_handle = Some l' /\ lifecycle_inv l' /\
               l_cs l' = l_cs test_listener).
Proof.
  assert (test_handle <> NULL) as Hh by discriminate.
  assert (mem test_created !! test_handle = Some test_listener) as Hl
    by (vm_compute; reflexivity).
  assert (l_magic test_listener = LISTENER_MAGIC) as Hm by reflexivity.
  assert (lifecycle_inv test_listener) as Hinv.
  { split; [left; reflexivity | intros _; reflexivity]. }
  assert (Forall keeps_block
            [OpOpen (Some (wstr "localhost")); OpClose; OpOpen (Some (wstr "localhost"));
             OpSetProperty 0 (Some [x05; x00; x00; x00]) 4]) as Hkeep
    by (repeat constructor).
  do 5 (split; [assumption|]).
  exact (lifecycle_invariant test_created test_handle test_listener _ Hh Hl Hm Hinv Hkeep).
Defined.

(** X11 on a platform whose allocator has no block. *)
Lemma WsCreateListener_out_of_memory_witness :
  1%N <> NULL /\
  (os_heap_alloc_zero alloc_size
     (os (test_world {| t_next := 4096; t_error := 0; t_heap_ok := false;
                        t_bind_ok := true; t_listen_ok := true |}))).1 = NULL /\
  exists w',
    WsCreateListener WS_CHANNEL_TYPE_DUPLEX_SESSION WS_TCP_CHANNEL_BINDING [] NULL 1%N NULL
      (test_world {| t_next := 4096; t_error := 0; t_heap_ok := false;
                     t_bind_ok := true; t_listen_ok := true |})
    = Some ((E_OUTOFMEMORY, None), w').
Proof.
  assert (1%N <> NULL) as Hh by discriminate.
  split; [assumption|]. split; [reflexivity|]. eexists.
  exact (WsCreateListener_out_of_memory
           (test_world {| t_next := 4096; t_error := 0; t_heap_ok := false;
                          t_bind_ok := true; t_listen_ok := true |})
           [] NULL 1%N NULL Hh eq_refl).
Defined.

(** X12 at the opened listener of the test platform, closed three times. *)
Lemma WsCloseListener_calls_closesocket_once_witness :
  test_handle <> NULL /\
  mem test_opened !! test_handle = Some test_listener_open /\
  l_magic test_listener_open = LISTENER_MAGIC /\
  exists w' r rs,
    close_n 3 test_handle test_opened = Some (replicate 3 S_OK, w') /\
    length rs = 2%nat /\
    trace w' = trace test_opened ++
      EvClosesocket (l_socket test_listener_open) r :: (EvClosesocket (-1) <$> rs).
Proof.
  assert (test_handle <> NULL) as Hh by discriminate.
  assert (mem test_opened !! test_handle = Some test_listener_open) as Hl
    by (vm_compute; reflexivity).
  assert (l_magic test_listener_open = LISTENER_MAGIC) as Hm by reflexivity.
  do 3 (split; [assumption|]).
  exact (WsCloseListener_calls_closesocket_once test_opened test_handle
           test_listener_open 2 Hh Hl Hm).
Defined.

(** X13 at port 8080. *)
Lemma sprintfW_u_fits_service_witness :
  0 <= 8080 < 65536 /\
  (1 <= length (sprintfW_u 8080) <= 5)%nat /\
  Forall (fun c => chr "0"%char <= c <= chr "9"%char) (sprintfW_u 8080).
Proof.
  assert (0 <= 8080 < 65536) as Hport by lia.
  split; [assumption|]. exact (sprintfW_u_fits_service 8080 Hport).
Defined.

(** X14 on the test platform: a host with no candidate of an accepted
    family. *)
Lemma resolve_hostname_calls_witness :
  (os_GetAddrInfoW (Some (wstr "local.sock" ++ [0])) (sprintfW_u 8080) test_os0).1.1 = 0 /\
  returns (resolve_hostname (Some (wstr "local.sock" ++ [0])) 8080 (replicate 128 xcc)
             (test_world test_os0)) (fun out w' =>
    trace w' = trace (test_world test_os0) ++
      [EvGetAddrInfoW (Some (wstr "local.sock" ++ [0])) (sprintfW_u 8080) 0;
       EvFreeAddrInfoW]).
Proof.
  split; [reflexivity|].
  pose proof (resolve_hostname_calls (test_world test_os0)
                (Some (wstr "local.sock" ++ [0])) 8080 (replicate 128 xcc)) as Hcalls.
  cbv zeta in Hcalls. apply (returns_mono _ _ _ Hcalls).
  intros out w' (_ & _ & Hok & _). exact (proj1 (Hok eq_refl)).
Defined.

(** X15 at the listener of the test platform. *)
Lemma operations_are_isolated_witness :
  test_handle <> NULL /\
  mem test_created !! test_handle = Some test_listener /\
  l_magic test_listener = LISTENER_MAGIC /\
  Forall keeps_block [OpOpen (Some (wstr "localhost")); OpClose] /\
  returns (run_ops test_handle [OpOpen (Some (wstr "localhost")); OpClose] test_created)
    (fun _ w1 =>
       (forall h', h' <> test_handle -> mem w1 !! h' = mem test_created !! h') /\
       returns (WsFreeListener test_handle w1) (fun _ w2 =>
         forall h', h' <> test_handle -> mem w2 !! h' = mem test_created !! h')).
Proof.
  assert (test_handle <> NULL) as Hh by discriminate.
  assert (mem test_created !! test_handle = Some test_listener) as Hl
    by (vm_compute; reflexivity).
  assert (l_magic test_listener = LISTENER_MAGIC) as Hm by reflexivity.
  assert (Forall keeps_block [OpOpen (Some (wstr "localhost")); OpClose]) as Hkeep
    by (repeat constructor).
  do 4 (split; [assumption|]).
  exact (operations_are_isolated test_created test_handle test_listener _ Hh Hl Hm Hkeep).
Defined.

(** X17 on the test platform. *)
Lemma create_then_free_round_trip_witness :
  1%N <> NULL /\
  (os_heap_alloc_zero alloc_size (os (test_world test_os0))).1 = test_handle /\
  test_handle <> NULL /\
  (test_handle ∉ live (test_world test_os0)) /\
  overrides_applied (l_prop_count fresh_listener) (l_prop fresh_listener) []
    (l_prop fresh_listener) /\
  returns (bindM (WsCreateListener WS_CHANNEL_TYPE_DUPLEX_SESSION WS_TCP_CHANNEL_BINDING
                    [] NULL 1%N NULL)
             (fun r => match r.2 with
                       | Some p => WsFreeListener p
                       | None => ret tt
                       end) (test_world test_os0))
    (fun _ w' =>
       live w' = live (test_world test_os0) /\
       mem w' = delete test_handle (mem (test_world test_os0)) /\
       (exists r, trace w' = trace (test_world test_os0) ++
          [EvHeapAllocZero alloc_size test_handle; EvClosesocket (-1) r;
           EvHeapFree test_handle])).
Proof.
  assert (1%N <> NULL) as Hh by discriminate.
  assert ((os_heap_alloc_zero alloc_size (os (test_world test_os0))).1 = test_handle)
    as Ha by reflexivity.
  assert (test_handle <> NULL) as Hnull by discriminate.
  assert (test_handle ∉ live (test_world test_os0)) as Hfresh by apply not_elem_of_empty.
  assert (overrides_applied (l_prop_count fresh_listener) (l_prop fresh_listener) []
            (l_prop fresh_listener)) as Happ by constructor.
  do 5 (split; [assumption|]).
  exact (create_then_free_round_trip (test_world test_os0) test_handle [] _ NULL 1%N NULL
           Hh Ha Hnull Hfresh Happ).
Defined.

(** X18 at the opened listener of the test platform. *)
Lemma WsOpenListener_outside_created_witness :
  test_handle <> NULL /\
  mem test_opened !! test_handle = Some test_listener_open /\
  l_magic test_listener_open = LISTENER_MAGIC /\
  l_state test_listener_open <> WS_LISTENER_STATE_CREATED /\
  WsOpenListener test_handle (Some (wstr "localhost")) NULL NULL test_opened
    = Some (WS_E_INVALID_OPERATION, test_opened) /\
  WS_E_INVALID_OPERATION <> S_OK.
Proof.
  assert (test_handle <> NULL) as Hh by discriminate.
  assert (mem test_opened !! test_handle = Some test_listener_open) as Hl
    by (vm_compute; reflexivity).
  assert (l_magic test_listener_open = LISTENER_MAGIC) as Hm by reflexivity.
  assert (l_state test_listener_open <> WS_LISTENER_STATE_CREATED) as Hs by discriminate.
  do 4 (split; [assumption|]).
  exact (WsOpenListener_outside_created test_opened test_handle test_listener_open
           (wstr "localhost") NULL NULL Hh Hl Hm Hs).
Defined.

End MoreConcrete.

(** * The error paths of an open, where closing the socket resets the
    last-error code *)

Section ConcreteClearing.
#[local] Existing Instance spec_props.
#[local] Existing Instance test_sizes.
#[local] Existing Instance clearing_platform.

(** C1, where the code departs from it.  On a listener in state [Created],
    with a URL whose host resolves, on a platform where [bind] fails and
    the [closesocket] that follows resets the last-error code:
    [WsOpenListener] creates the socket, fails to bind it, closes it, and
    then returns [S_OK], the translation of the last-error code it reads
    after the [closesocket]; the listener is still [Created], with no
    socket.  The call reports success and the listener is not [Open].  The
    last four platform calls are the socket calls and the read of the
    last-error code. *)
Theorem WsOpenListener_bind_failure_returns_S_OK :
  l_state test_listener = WS_LISTENER_STATE_CREATED /\
  mem clearing_created_bind_fails !! test_handle = Some test_listener /\
  returns (WsOpenListener test_handle (Some (wstr "localhost")) NULL NULL
             clearing_created_bind_fails) (fun hr w' =>
    hr = S_OK /\
    mem w' !! test_handle = Some test_listener /\
    drop (length (trace w') - 4) (trace w') =
      [EvSocket AF_INET6 SOCK_STREAM 0 100;
       EvBind 100 (memcpy (replicate 128 xcc) loopback6 28) 28 (-1);
       EvClosesocket 100 0;
       EvWSAGetLastError 0]).
Proof.
  split; [reflexivity|]. split; [vm_compute; reflexivity|].
  vm_compute. repeat split; reflexivity.
Qed.

(** C2, where the code departs from it.  The same on a platform where
    [listen] fails: an open started from [Created] returns [S_OK] and the
    state is still [Created]. *)
Theorem WsOpenListener_listen_failure_returns_S_OK :
  l_state test_listener = WS_LISTENER_STATE_CREATED /\
  mem clearing_created_listen_fails !! test_handle = Some test_listener /\
  returns (WsOpenListener test_handle (Some (wstr "localhost")) NULL NULL
             clearing_created_listen_fails) (fun hr w' =>
    hr = S_OK /\
    (exists l', mem w' !! test_handle = Some l' /\
                l_state l' = WS_LISTENER_STATE_CREATED /\ l_socket l' = -1) /\
    drop (length (trace w') - 5) (trace w') =
      [EvSocket AF_INET6 SOCK_STREAM 0 100;
       EvBind 100 (memcpy (replicate 128 xcc) loopback6 28) 28 0;
       EvListen 100 0 (-1);
       EvClosesocket 100 0;
       EvWSAGetLastError 0]).
Proof.
  split; [reflexivity|]. split; [vm_compute; reflexivity|].
  vm_compute. split; [reflexivity|]. split; [|reflexivity].
  eexists. split; [reflexivity|]. split; reflexivity.
Qed.

End ConcreteClearing.

(** * A handle after its listener was freed, where the allocator reuses
    the block *)

Section ConcreteReusing.
#[local] Existing Instance spec_props.
#[local] Existing Instance test_sizes.
#[local] Existing Instance reusing_platform.

(** C5 as the spec words it fails.  After [WsFreeListener] the block is
    released: a close through the handle reads released storage and has no
    result, so it does not return [E_INVALIDARG]; and when the next
    [WsCreateListener] is handed the same block, a close through the old
    handle returns [S_OK] and closes the new listener, and a free through
    the old handle releases the new listener. *)
Lemma stale_handle_counterexample :
  WsFreeListener test_handle reusing_created = Some (tt, reusing_freed) /\
  WsCloseListener test_handle NULL NULL reusing_freed = None /\
  WsFreeListener test_handle reusing_freed = None /\
  returns (WsCreateListener WS_CHANNEL_TYPE_DUPLEX_SESSION WS_TCP_CHANNEL_BINDING
             [] NULL 1%N NULL reusing_freed) (fun r w2 =>
    r = (S_OK, Some test_handle) /\
    returns (WsCloseListener test_handle NULL NULL w2) (fun hr w3 =>
      hr = S_OK /\ hr <> E_INVALIDARG /\
      mem w3 !! test_handle =
        Some (set_state WS_LISTENER_STATE_CLOSED test_listener)) /\
    returns (WsFreeListener test_handle w2) (fun _ w3 =>
      mem w3 !! test_handle = None)).
Proof.
  split; [vm_compute; reflexivity|]. split; [vm_compute; reflexivity|].
  split; [vm_compute; reflexivity|].
  vm_compute. repeat split; try reflexivity. discriminate.
Qed.

(** C5, as the code has it, at the listener of the reusing platform. *)
Lemma WsFreeListener_leaves_handle_dangling_witness :
  test_handle <> NULL /\
  mem reusing_created !! test_handle = Some test_listener /\
  l_magic test_listener = LISTENER_MAGIC /\
  1%N <> NULL /\
  (os_heap_alloc_zero alloc_size (os reusing_freed)).1 = test_handle /\
  overrides_applied (l_prop_count fresh_listener) (l_prop fresh_listener) []
    (l_prop fresh_listener) /\
  (test_handle ∉ live reusing_freed) /\
  mem reusing_freed !! test_handle = None /\
  run_op test_handle OpClose reusing_freed = None /\
  returns (WsCreateListener WS_CHANNEL_TYPE_DUPLEX_SESSION WS_TCP_CHANNEL_BINDING
             [] NULL 1%N NULL reusing_freed) (fun r w2 =>
    r = (S_OK, Some test_handle) /\
    exists w3, WsCloseListener test_handle NULL NULL w2 = Some (S_OK, w3)).
Proof.
  assert (test_handle <> NULL) as Hh by discriminate.
  assert (mem reusing_created !! test_handle = Some test_listener) as Hl
    by (vm_compute; reflexivity).
  assert (l_magic test_listener = LISTENER_MAGIC) as Hm by reflexivity.
  assert (1%N <> NULL) as Hslot by discriminate.
  assert ((os_heap_alloc_zero alloc_size (os reusing_freed)).1 = test_handle) as Ha
    by (vm_compute; reflexivity).
  assert (overrides_applied (l_prop_count fresh_listener) (l_prop fresh_listener) []
            (l_prop fresh_listener)) as Happ by constructor.
  do 6 (split; [assumption|]).
  pose proof (WsFreeListener_leaves_handle_dangling reusing_created test_handle
                test_listener Hh Hl Hm) as Hfree.
  assert (WsFreeListener test_handle reusing_created = Some (tt, reusing_freed)) as Hrun
    by (vm_compute; reflexivity).
  rewrite Hrun in Hfree. destruct Hfree as (Hlive & Hnone & _ & Hop & Hreuse).
  split; [exact Hlive|]. split; [exact Hnone|].
  split; [apply Hop; discriminate|].
  exact (Hreuse [] _ NULL 1%N NULL Hslot Ha Happ).
Defined.

End ConcreteReusing.
